(** * OpenRouter MCP server: model cache, registry client and tool handlers

    A shallow embedding of the tool handlers of the server
    (search_models, get_model_info, validate_model, chat_completion)
    together with the two collaborators they call, the model cache and the
    rate-limited registry client.

    Conventions.
    - A JavaScript string is a [string]; the characters are ASCII, and
      [toLowerCase] maps A..Z to a..z.
    - Integral JavaScript numbers (token counts, context lengths, limits,
      millisecond clocks) are [Z].  Prices are doubles; a double is
      represented by its exact value, see [JsNumber].
    - An optional property is an [option]; [None] stands for both
      [undefined] and [null].
    - [JSON.stringify (v, null, 2)] is kept symbolic: the text of a successful
      result is [JsonText v], with [v] the object that is serialised.
    - [Date.now ()] reads the clock of the world; while a handler runs,
      the clock only moves when the handler is suspended on the network. *)

From Stdlib Require Import String Ascii List ZArith QArith Bool Lia.
From Stdlib Require Import Numbers.DecimalString.
Import ListNotations.

Local Open Scope Z_scope.

(** ** JavaScript primitives used by the handlers *)
Module Js.

(** [c.toLowerCase ()] on one ASCII character. *)
Definition lowerChar (c : ascii) : ascii :=
  let n := N_of_ascii c in
  if ((65 <=? n) && (n <=? 90))%N then ascii_of_N (n + 32) else c.

(** [s.toLowerCase ()]. *)
Fixpoint toLowerCase (s : string) : string :=
  match s with
  | EmptyString => EmptyString
  | String c s' => String (lowerChar c) (toLowerCase s')
  end.

(** [s.startsWith (t)]. *)
Fixpoint startsWith (s t : string) : bool :=
  match t, s with
  | EmptyString, _ => true
  | String _ _, EmptyString => false
  | String b t', String a s' => Ascii.eqb a b && startsWith s' t'
  end.

(** [s.includes (t)]: [t] occurs in [s] as a contiguous substring. *)
Fixpoint includes (s t : string) : bool :=
  startsWith s t ||
  match s with
  | EmptyString => false
  | String _ s' => includes s' t
  end.

(** [s.split (sep)[0]]: the part of [s] before the first [sep], the whole
    of [s] when [sep] does not occur. *)
Fixpoint splitFirst (sep : ascii) (s : string) : string :=
  match s with
  | EmptyString => EmptyString
  | String c s' =>
      if Ascii.eqb c sep then EmptyString else String c (splitFirst sep s')
  end.

(** Truthiness of a possibly absent string: absent and [''] are falsy. *)
Definition truthyString (o : option string) : bool :=
  match o with
  | Some s => negb (String.eqb s EmptyString)
  | None => false
  end.

(** Truthiness of a possibly absent integral number: absent and [0] are
    falsy. *)
Definition truthyNumber (o : option Z) : bool :=
  match o with
  | Some n => negb (n =? 0)
  | None => false
  end.

(** Truthiness of a possibly absent boolean. *)
Definition truthyBool (o : option bool) : bool :=
  match o with
  | Some b => b
  | None => false
  end.

(** [o || dflt] on a possibly absent string. *)
Definition orString (o : option string) (dflt : string) : string :=
  match o with
  | Some s => if String.eqb s EmptyString then dflt else s
  | None => dflt
  end.

(** A double, by its exact value. *)
Inductive JsNumber : Type :=
| Finite (q : Q)
| PosInfinity
| NegInfinity
| NaN.

(** [x > y] for a double [x] and a finite double [y]; every comparison
    with [NaN] is false. *)
Definition gtFinite (x : JsNumber) (y : Q) : bool :=
  match x with
  | Finite q => negb (Qle_bool q y)
  | PosInfinity => true
  | NegInfinity => false
  | NaN => false
  end.

(** Truthiness of a possibly absent finite double. *)
Definition truthyPrice (o : option Q) : bool :=
  match o with
  | Some q => negb (Qeq_bool q 0)
  | None => false
  end.

(** Template-literal rendering of an integral number. *)
Definition showNumber (n : Z) : string :=
  NilEmpty.string_of_int (Z.to_int n).

(** [xs.slice (0, k)] for an integral [k]: a negative [k] counts from the
    end of the array. *)
Definition slice0 {A : Type} (xs : list A) (k : Z) : list A :=
  let len := Z.of_nat (length xs) in
  let upto := if k <? 0 then Z.max (len + k) 0 else Z.min k len in
  firstn (Z.to_nat upto) xs.

End Js.

(** ** The catalog: model descriptors and snapshots *)

Record Pricing : Type := {
  prompt : string;
  completion : string
}.

Record Capabilities : Type := {
  functions : option bool;
  tools : option bool;
  vision : option bool;
  json_mode : option bool
}.

(** One entry of the catalog ([OpenRouterModel], declared in
    model-cache.ts): the fields the handlers read. *)
Record OpenRouterModel : Type := {
  id : string;
  name : string;
  description : option string;
  context_length : Z;
  pricing : Pricing;
  capabilities : option Capabilities
}.

(** The value handed to [setCachedModels] and returned by [fetchModels] and
    [getCachedModels]: the entries in upstream order, and the time of the
    fetch when it is known. *)
Record ModelsResponse : Type := {
  data : list OpenRouterModel;
  timestamp : option Z
}.

(** [{ ...models, timestamp: t }]. *)
Definition withTimestamp (models : ModelsResponse) (t : Z) : ModelsResponse :=
  {| data := data models; timestamp := Some t |}.

(** The four capability names. *)
Inductive CapabilityName : Type :=
| Functions
| Tools
| Vision
| JsonMode.

(** [capabilities?.f]: the flag of a possibly absent capabilities object. *)
Definition capabilityFlag (f : CapabilityName) (c : option Capabilities)
  : option bool :=
  match c with
  | None => None
  | Some caps =>
      match f with
      | Functions => functions caps
      | Tools => tools caps
      | Vision => vision caps
      | JsonMode => json_mode caps
      end
  end.

(** ** Tool results *)

(** The capabilities block of a response: four plain booleans. *)
Record ReportedCapabilities : Type := {
  rep_functions : bool;
  rep_tools : bool;
  rep_vision : bool;
  rep_json_mode : bool
}.

Definition reported (f : CapabilityName) (r : ReportedCapabilities) : bool :=
  match f with
  | Functions => rep_functions r
  | Tools => rep_tools r
  | Vision => rep_vision r
  | JsonMode => rep_json_mode r
  end.

(** The per-model object both handlers build. *)
Record ModelData : Type := {
  md_id : string;
  md_name : string;
  md_description : string;
  md_context_length : Z;
  md_pricing : Pricing;
  md_capabilities : ReportedCapabilities
}.

(** The response object of validate_model, [{ model, valid: true }]. *)
Inductive ValidateResponse : Type :=
| ValidModel (model : string).

(** The response object of get_model_info; its constant fields
    [permission: []] and [parent: null] are left out. *)
Record InfoResponse : Type := {
  ir_id : string;
  ir_object : string;
  ir_created : Z;
  ir_owned_by : string;
  ir_root : string;
  ir_data : ModelData
}.

(** Arguments of the search_models tool ([SearchModelsToolRequest]). *)
Module Request.
Record SearchModelsToolRequest : Type := {
  query : option string;
  provider : option string;
  minContextLength : option Z;
  maxContextLength : option Z;
  maxPromptPrice : option Q;
  maxCompletionPrice : option Q;
  capabilities : option Capabilities;
  limit : option Z
}.
End Request.

(** The response object of search_models, with its [metadata] flattened. *)
Record SearchResponse : Type := {
  sr_id : string;
  sr_object : string;
  sr_data : list ModelData;
  sr_created : Z;
  sr_total_models : nat;
  sr_filtered_count : nat;
  sr_applied_filters : Request.SearchModelsToolRequest
}.

(** The object given to [JSON.stringify]. *)
Inductive Json : Type :=
| JsonValidate (v : ValidateResponse)
| JsonInfo (v : InfoResponse)
| JsonSearch (v : SearchResponse).

Inductive ResponseText : Type :=
| PlainText (s : string)
| JsonText (v : Json).

(** [ResponseContentItem]; its [type] is always ['text']. *)
Record ResponseContentItem : Type := {
  text : ResponseText
}.

(** [ToolResult], the unified result of every handler. *)
Record ToolResult : Type := {
  isError : bool;
  content : list ResponseContentItem
}.

Definition errorResult (msg : string) : ToolResult :=
  {| isError := true; content := [ {| text := PlainText msg |} ] |}.

Definition successResult (v : Json) : ToolResult :=
  {| isError := false; content := [ {| text := JsonText v |} ] |}.

(** ** Effects: state and exceptions

    A handler runs against mutable collaborators and may see a rejected
    promise.  [Eff W A] is a computation over a world [W] that returns an [A]
    or throws. *)

Inductive Thrown : Type :=
| ErrorObject (message : string)
| NonError.

Inductive Result (A : Type) : Type :=
| Returned (a : A)
| Threw (e : Thrown).
Arguments Returned {A} a.
Arguments Threw {A} e.

Definition Eff (W A : Type) : Type := W -> Result A * W.

Definition ret {W A : Type} (a : A) : Eff W A := fun w => (Returned a, w).

Definition bind {W A B : Type} (m : Eff W A) (k : A -> Eff W B) : Eff W B :=
  fun w =>
    match m w with
    | (Returned a, w') => k a w'
    | (Threw e, w') => (Threw e, w')
    end.

Definition throw {W A : Type} (e : Thrown) : Eff W A := fun w => (Threw e, w).

(** [try { body } catch (error) { handler }] where the handler returns. *)
Definition tryCatch {W A : Type} (body : Eff W A) (handler : Thrown -> A)
  : W -> A * W :=
  fun w =>
    match body w with
    | (Returned a, w') => (a, w')
    | (Threw e, w') => (handler e, w')
    end.

Declare Scope eff_scope.
Delimit Scope eff_scope with eff.
Notation "x <- m ;; k" := (bind m (fun x => k))
  (at level 61, m at next level, right associativity) : eff_scope.

(** [error instanceof Error ? error.message : 'An unknown error occurred']. *)
Definition errorMessage (e : Thrown) : string :=
  match e with
  | ErrorObject msg => msg
  | NonError => "An unknown error occurred"
  end.

(** ** The collaborators, as the handlers see them *)

(** What a handler needs from its host: the clock. *)
Class Runtime (W : Type) : Type := {
  dateNow : W -> Z
}.

(** The public operations of [ModelCache], as the handlers call them. *)
Record ModelCache (W : Type) : Type := {
  getCachedModels : Eff W (option ModelsResponse);
  setCachedModels : ModelsResponse -> Eff W unit;
  getModelInfo : string -> Eff W (option OpenRouterModel);
  validateModel : string -> Eff W bool
}.
Arguments getCachedModels {W} _.
Arguments setCachedModels {W} _ _.
Arguments getModelInfo {W} _ _.
Arguments validateModel {W} _ _.

(** The public operation of [OpenRouterAPIClient], as search_models calls
    it. *)
Record OpenRouterAPIClient (W : Type) : Type := {
  fetchModels : Eff W (option ModelsResponse)
}.
Arguments fetchModels {W} _.

(** ** search_models (src/tool-handlers/search-models.ts) *)
Section SearchModels.

(** [parseFloat], the builtin that reads a decimal price. *)
Variable parseFloat : string -> Js.JsNumber.

Context {W : Type} `{Runtime W}.

Local Open Scope string_scope.

(** The text-search disjunction, [searchTerm] being the lower-cased
    query. *)
Definition matchesQuery (searchTerm : string) (model : OpenRouterModel)
  : bool :=
  Js.includes (Js.toLowerCase (id model)) searchTerm
  || (negb (String.eqb (name model) "")
      && Js.includes (Js.toLowerCase (name model)) searchTerm)
  || match description model with
     | Some d =>
         negb (String.eqb d "") && Js.includes (Js.toLowerCase d) searchTerm
     | None => false
     end.

Definition queryFilter (args : Request.SearchModelsToolRequest)
  (model : OpenRouterModel) : bool :=
  if Js.truthyString (Request.query args) then
    match Request.query args with
    | Some q => matchesQuery (Js.toLowerCase q) model
    | None => true
    end
  else true.

(** [model.id.split ('/')[0]]. *)
Definition providerOf (model : OpenRouterModel) : string :=
  Js.splitFirst "/"%char (id model).

Definition providerFilter (args : Request.SearchModelsToolRequest)
  (model : OpenRouterModel) : bool :=
  if Js.truthyString (Request.provider args) then
    match Request.provider args with
    | Some p => String.eqb (providerOf model) (Js.toLowerCase p)
    | None => true
    end
  else true.

Definition contextFilter (args : Request.SearchModelsToolRequest)
  (model : OpenRouterModel) : bool :=
  negb (match Request.minContextLength args with
        | Some n => negb (n =? 0) && (context_length model <? n)
        | None => false
        end)%Z
  && negb (match Request.maxContextLength args with
           | Some n => negb (n =? 0) && (context_length model >? n)
           | None => false
           end)%Z.

Definition priceFilter (args : Request.SearchModelsToolRequest)
  (model : OpenRouterModel) : bool :=
  negb (match Request.maxPromptPrice args with
        | Some q =>
            Js.truthyPrice (Some q)
            && Js.gtFinite (parseFloat (prompt (pricing model))) q
        | None => false
        end)
  && negb (match Request.maxCompletionPrice args with
           | Some q =>
               Js.truthyPrice (Some q)
               && Js.gtFinite (parseFloat (completion (pricing model))) q
           | None => false
           end).

(** One line of the capabilities block: the model is rejected when the
    request asks for [f] and the model does not have it. *)
Definition lacks (f : CapabilityName) (wanted : Capabilities)
  (model : OpenRouterModel) : bool :=
  Js.truthyBool (capabilityFlag f (Some wanted))
  && negb (Js.truthyBool (capabilityFlag f (capabilities model))).

Definition capabilitiesFilter (args : Request.SearchModelsToolRequest)
  (model : OpenRouterModel) : bool :=
  match Request.capabilities args with
  | Some wanted =>
      negb (lacks Functions wanted model)
      && negb (lacks Tools wanted model)
      && negb (lacks Vision wanted model)
      && negb (lacks JsonMode wanted model)
  | None => true
  end.

(** The callback of [models.data.filter]: each block returns [false]
    early, so a model is kept when it survives all of them. *)
Definition keeps (args : Request.SearchModelsToolRequest)
  (model : OpenRouterModel) : bool :=
  queryFilter args model
  && providerFilter args model
  && contextFilter args model
  && priceFilter args model
  && capabilitiesFilter args model.

(** [args.limit || 10]. *)
Definition effectiveLimit (args : Request.SearchModelsToolRequest) : Z :=
  match Request.limit args with
  | Some k => if (k =? 0)%Z then 10%Z else k
  | None => 10%Z
  end.

(** [f: caps?.f || false] for the four flags. *)
Definition reportCapabilities (c : option Capabilities)
  : ReportedCapabilities :=
  {| rep_functions := Js.truthyBool (capabilityFlag Functions c);
     rep_tools := Js.truthyBool (capabilityFlag Tools c);
     rep_vision := Js.truthyBool (capabilityFlag Vision c);
     rep_json_mode := Js.truthyBool (capabilityFlag JsonMode c) |}.

(** The object built per model, by the [map] callback of search_models and
    as [data] of get_model_info. *)
Definition describe (model : OpenRouterModel) : ModelData :=
  {| md_id := id model;
     md_name := name model;
     md_description :=
       Js.orString (description model) "No description available";
     md_context_length := context_length model;
     md_pricing :=
       {| prompt := "$" ++ prompt (pricing model) ++ "/1K tokens";
          completion := "$" ++ completion (pricing model) ++ "/1K tokens" |};
     md_capabilities := reportCapabilities (capabilities model) |}.

(** [models.data.filter (...).slice (0, args.limit || 10)]. *)
Definition selected (args : Request.SearchModelsToolRequest)
  (models : ModelsResponse) : list OpenRouterModel :=
  Js.slice0 (filter (keeps args) (data models)) (effectiveLimit args).

Definition searchResults (args : Request.SearchModelsToolRequest)
  (models : ModelsResponse) : list ModelData :=
  map describe (selected args models).

Definition searchResponse (args : Request.SearchModelsToolRequest)
  (models : ModelsResponse) (now : Z) : SearchResponse :=
  {| sr_id := "search-" ++ Js.showNumber now;
     sr_object := "list";
     sr_data := searchResults args models;
     sr_created := (now / 1000)%Z;
     sr_total_models := length (data models);
     sr_filtered_count := length (searchResults args models);
     sr_applied_filters := args |}.

(** Lines 31-37: the cached catalog, or a fetch whose result is cached. *)
Definition acquireModels (apiClient : OpenRouterAPIClient W)
  (modelCache : ModelCache W) : Eff W (option ModelsResponse) :=
  (cached <- getCachedModels modelCache ;;
   match cached with
   | Some models => ret (Some models)
   | None =>
       fetched <- fetchModels apiClient ;;
       match fetched with
       | Some models =>
           fun w =>
             (_ <- setCachedModels modelCache
                     (withTimestamp models (dateNow w)) ;;
              ret (Some models)) w
       | None => ret None
       end
   end)%eff.

Definition searchCatch (e : Thrown) : ToolResult :=
  match e with
  | ErrorObject msg => errorResult ("Error: Failed to search models: " ++ msg)
  | NonError =>
      errorResult "Error: An unknown error occurred during model search."
  end.

Definition handleSearchModels (args : Request.SearchModelsToolRequest)
  (apiClient : OpenRouterAPIClient W) (modelCache : ModelCache W)
  : W -> ToolResult * W :=
  tryCatch
    (models <- acquireModels apiClient modelCache ;;
     match models with
     | None =>
         ret (errorResult "Error: Failed to fetch models. Please try again.")
     | Some ms =>
         fun w =>
           ret (successResult (JsonSearch (searchResponse args ms (dateNow w))))
             w
     end)%eff
    searchCatch.

End SearchModels.

(** ** get_model_info (src/tool-handlers/get-model-info.ts) *)
Section GetModelInfo.

Context {W : Type} `{Runtime W}.

Local Open Scope string_scope.

Definition infoResponse (modelInfo : OpenRouterModel) (now : Z)
  : InfoResponse :=
  {| ir_id := "info-" ++ Js.showNumber now;
     ir_object := "model";
     ir_created := (now / 1000)%Z;
     ir_owned_by := Js.splitFirst "/"%char (id modelInfo);
     ir_root := id modelInfo;
     ir_data := describe modelInfo |}.

Definition handleGetModelInfo (model : string) (modelCache : ModelCache W)
  : W -> ToolResult * W :=
  tryCatch
    (modelInfo <- getModelInfo modelCache model ;;
     match modelInfo with
     | None => ret (errorResult ("Error: Model not found: " ++ model))
     | Some info =>
         fun w =>
           ret (successResult (JsonInfo (infoResponse info (dateNow w)))) w
     end)%eff
    (fun e =>
       errorResult ("Error: Failed to get model info: " ++ errorMessage e)).

End GetModelInfo.

(** ** validate_model (tool-handlers/validate-model.ts) *)
Section ValidateModel.

Context {W : Type}.

Local Open Scope string_scope.

Definition handleValidateModel (model : string) (modelCache : ModelCache W)
  : W -> ToolResult * W :=
  tryCatch
    (isValid <- validateModel modelCache model ;;
     if isValid : bool
     then ret (successResult (JsonValidate (ValidModel model)))
     else ret (errorResult ("Error: Model not found: " ++ model)))%eff
    (fun e =>
       errorResult ("Error: Failed to validate model: " ++ errorMessage e)).

End ValidateModel.

(** ** chat_completion: fitting the conversation into the context window
       (src/tool-handlers/chat-completion.ts) *)
Module Chat.

(** The [content] of a message: a string, an array of content parts, or
    [null].  A message that has no [content] property at all is not
    represented: the code treats its [undefined] as it treats [null], except
    that the TypeError of [estimateSystem] then names [undefined]. *)
Inductive Content : Type :=
| Text (s : string)
| Parts (parts : list string)
| Nothing.

(** The part of [ChatCompletionMessageParam] the truncation reads. *)
Record Message : Type := {
  role : string;
  content : Content
}.

Definition MAX_CONTEXT_TOKENS : Z := 200000.

(** [Math.ceil (n / 4)] for a length [n]. *)
Definition ceilQuarter (n : Z) : Z := (n + 3) / 4.

(** [estimateTokenCount (text)] for a string. *)
Definition estimateTokenCount (s : string) : Z :=
  ceilQuarter (Z.of_nat (String.length s)).

(** [estimateTokenCount (messages[0].content as string)]: the cast does
    nothing at run time, so [.length] is read from whatever the content
    is, and reading it from [null] throws a TypeError. *)
Definition estimateSystem (c : Content) : Result Z :=
  match c with
  | Text s => Returned (estimateTokenCount s)
  | Parts parts => Returned (ceilQuarter (Z.of_nat (length parts)))
  | Nothing =>
      Threw (ErrorObject "Cannot read properties of null (reading 'length')")
  end.

(** [typeof messageContent === 'string' ? messageContent : '']. *)
Definition contentString (c : Content) : string :=
  match c with
  | Text s => s
  | Parts _ => EmptyString
  | Nothing => EmptyString
  end.

(** A message together with its index in [messages]: two entries of the
    array are the same message when their indices agree. *)
Definition Indexed : Type := (nat * Message)%type.

(** [messages] paired with the indices [from], [from + 1], ... *)
Fixpoint indexFrom (from : nat) (messages : list Message) : list Indexed :=
  match messages with
  | [] => []
  | m :: rest => (from, m) :: indexFrom (S from) rest
  end.

(** The [for] loop, from the last index down to [0].  [pending] holds the
    entries not yet visited, last index first. *)
Fixpoint backwards (systemFirst : bool) (maxTokens : Z)
  (pending : list Indexed) (truncated : list Indexed)
  (currentTokenCount : Z) : list Indexed :=
  match pending with
  | [] => truncated
  | (i, m) :: earlier =>
      if Nat.eqb i 0 && systemFirst then
        (* continue *)
        backwards systemFirst maxTokens earlier truncated currentTokenCount
      else
        let messageTokens := estimateTokenCount (contentString (content m)) in
        if currentTokenCount + messageTokens >? maxTokens then
          (* break *)
          truncated
        else
          (* truncated.unshift (messages[i]) *)
          backwards systemFirst maxTokens earlier ((i, m) :: truncated)
            (currentTokenCount + messageTokens)
  end.

(** [truncateMessagesToFit], keeping the index of every message kept. *)
Definition truncateIndexed (messages : list Message) (maxTokens : Z)
  : Result (list Indexed) :=
  let pending := rev (indexFrom 0 messages) in
  match messages with
  | m0 :: _ =>
      if String.eqb (role m0) "system" then
        match estimateSystem (content m0) with
        | Returned tokens =>
            Returned (backwards true maxTokens pending [(0%nat, m0)] tokens)
        | Threw e => Threw e
        end
      else Returned (backwards false maxTokens pending [] 0)
  | [] => Returned (backwards false maxTokens pending [] 0)
  end.

Definition mapResult {A B : Type} (f : A -> B) (r : Result A) : Result B :=
  match r with
  | Returned a => Returned (f a)
  | Threw e => Threw e
  end.

Definition truncateMessagesToFit (messages : list Message) (maxTokens : Z)
  : Result (list Message) :=
  mapResult (map snd) (truncateIndexed messages maxTokens).

End Chat.

(** ** The world of the two collaborators *)

(** Modelled from the spec: the operational parameters of model-cache.ts
    and openrouter-api.ts, which are not among the sources. *)
Record Config : Type := {
  freshnessThreshold : Z;
  initialDelay : Z;
  maxDelay : Z;
  maxAttempts : nat
}.

(** The design defaults: one hour, one second, thirty seconds, five
    attempts; times are in milliseconds. *)
Definition defaultConfig : Config :=
  {| freshnessThreshold := 3600000;
     initialDelay := 1000;
     maxDelay := 30000;
     maxAttempts := 5 |}.

(** Modelled from the spec: the Catalog Snapshot, the state the cache of
    model-cache.ts holds. *)
Record CatalogSnapshot : Type := {
  entries : list OpenRouterModel;
  fetched_at : Z
}.

(** Modelled from the spec: the Rate-Limit State of openrouter-api.ts, from
    the most recent upstream response. *)
Record RateLimitState : Type := {
  remaining : option Z;
  reset_at : option Z
}.

(** Modelled from the spec: everything the two collaborators own or
    observe.  Besides the clock, the snapshot and the rate-limit state, the
    world counts the upstream requests issued and the calls of
    [fetchModels], and logs the waits between attempts and the warnings. *)
Record World : Type := {
  clock : Z;
  snapshot : option CatalogSnapshot;
  rate : RateLimitState;
  requests : nat;
  fetches : nat;
  waits : list Z;
  warnings : nat
}.

#[global] Instance WorldRuntime : Runtime World := {| dateNow := clock |}.

(** A world in which nothing has happened yet. *)
Definition initialWorld (now : Z) : World :=
  {| clock := now;
     snapshot := None;
     rate := {| remaining := None; reset_at := None |};
     requests := 0;
     fetches := 0;
     waits := [];
     warnings := 0 |}.

Definition setClock (t : Z) (w : World) : World :=
  {| clock := t; snapshot := snapshot w; rate := rate w;
     requests := requests w; fetches := fetches w; waits := waits w;
     warnings := warnings w |}.

Definition setSnapshot (s : option CatalogSnapshot) (w : World) : World :=
  {| clock := clock w; snapshot := s; rate := rate w;
     requests := requests w; fetches := fetches w; waits := waits w;
     warnings := warnings w |}.

Definition setRate (r : RateLimitState) (w : World) : World :=
  {| clock := clock w; snapshot := snapshot w; rate := r;
     requests := requests w; fetches := fetches w; waits := waits w;
     warnings := warnings w |}.

Definition countRequest (w : World) : World :=
  {| clock := clock w; snapshot := snapshot w; rate := rate w;
     requests := S (requests w); fetches := fetches w; waits := waits w;
     warnings := warnings w |}.

Definition countFetch (w : World) : World :=
  {| clock := clock w; snapshot := snapshot w; rate := rate w;
     requests := requests w; fetches := S (fetches w); waits := waits w;
     warnings := warnings w |}.

Definition logWait (d : Z) (w : World) : World :=
  {| clock := clock w; snapshot := snapshot w; rate := rate w;
     requests := requests w; fetches := fetches w; waits := waits w ++ [d];
     warnings := warnings w |}.

Definition warn (n : nat) (w : World) : World :=
  {| clock := clock w; snapshot := snapshot w; rate := rate w;
     requests := requests w; fetches := fetches w; waits := waits w;
     warnings := (n + warnings w)%nat |}.

(** ** The rate-limited registry client *)
Module Registry.

(** Modelled from the spec: one element of the response body, before
    validation; the [id] may be missing. *)
Record RawEntry : Type := {
  raw_id : option string;
  raw_name : string;
  raw_description : option string;
  raw_context_length : Z;
  raw_pricing : Pricing;
  raw_capabilities : option Capabilities
}.

(** Modelled from the spec: the rate-limit headers of a response. *)
Record Headers : Type := {
  h_remaining : option Z;
  h_reset : option Z
}.

(** Modelled from the spec: what one GET of the model listing can come
    back with, a transport error, a 5xx, a 429 or a success. *)
Inductive Response : Type :=
| TransportError
| ServerError (h : Headers)
| RateLimited (h : Headers)
| Success (h : Headers) (body : list RawEntry).

(** The upstream registry: the answer to the n-th request ever issued. *)
Definition Upstream : Type := nat -> Response.

Inductive FetchError : Type :=
| UpstreamUnavailable
| RateLimitedError.

Definition reason (e : FetchError) : string :=
  match e with
  | UpstreamUnavailable => "upstream unavailable"
  | RateLimitedError => "rate limited"
  end.

(** Modelled from the spec: the parsing step of [fetchModels] in
    openrouter-api.ts, which is not among the sources.  An entry with an
    [id] becomes a descriptor; an entry without one is malformed. *)
Definition parseEntry (r : RawEntry) : option OpenRouterModel :=
  match raw_id r with
  | Some i =>
      Some {| id := i;
              name := raw_name r;
              description := raw_description r;
              context_length := raw_context_length r;
              pricing := raw_pricing r;
              capabilities := raw_capabilities r |}
  | None => None
  end.

(** Modelled from the spec: malformed entries are dropped, the others are
    kept in upstream order. *)
Fixpoint parseBody (body : list RawEntry) : list OpenRouterModel :=
  match body with
  | [] => []
  | r :: rest =>
      match parseEntry r with
      | Some m => m :: parseBody rest
      | None => parseBody rest
      end
  end.

(** Modelled from the spec: the number of entries dropped, one logged
    warning each. *)
Definition malformed (body : list RawEntry) : nat :=
  length (filter (fun r => match raw_id r with
                           | Some _ => false
                           | None => true
                           end) body).

(** Modelled from the spec: the exponential schedule of openrouter-api.ts.
    The wait after failed attempt number [k] (counted from 0) is the
    initial delay doubled [k] times, capped at the maximum delay. *)
Definition backoff (cfg : Config) (k : nat) : Z :=
  Z.min (initialDelay cfg * 2 ^ Z.of_nat k) (maxDelay cfg).

(** Modelled from the spec: the wait that follows a failed attempt.  A 429
    that carries a reset time waits at least until that time; everything
    else follows the exponential schedule. *)
Definition retryDelay (cfg : Config) (k : nat) (resp : Response) (now : Z)
  : Z :=
  match resp with
  | RateLimited h =>
      match h_reset h with
      | Some t => Z.max (backoff cfg k) (t - now)
      | None => backoff cfg k
      end
  | _ => backoff cfg k
  end.

(** Modelled from the spec: every response overwrites the Rate-Limit State
    from its headers, before the retry decision; a transport error brings
    no headers. *)
Definition observe (resp : Response) (w : World) : World :=
  match resp with
  | TransportError => w
  | ServerError h | RateLimited h | Success h _ =>
      setRate {| remaining := h_remaining h; reset_at := h_reset h |} w
  end.

Definition failureOf (resp : Response) : FetchError :=
  match resp with
  | RateLimited _ => RateLimitedError
  | _ => UpstreamUnavailable
  end.

(** Modelled from the spec: the advisory use of the Rate-Limit State.  A
    call that starts with no requests left in the window waits for the
    window to reset, which is a bounded delay. *)
Definition preemptiveDelay (w : World) : Z :=
  match remaining (rate w), reset_at (rate w) with
  | Some r, Some t => if (r <=? 0) && (clock w <? t) then t - clock w else 0
  | _, _ => 0
  end.

(** Modelled from the spec: a suspended wait between two attempts; the
    clock moves and the wait is logged. *)
Definition sleep (d : Z) (w : World) : World :=
  logWait d (setClock (clock w + d) w).

(** Modelled from the spec: the retry loop of [fetchModels] in
    openrouter-api.ts, which is not among the sources.  [left] is what
    remains of the attempt budget and [k] the number of attempts already
    failed. *)
Fixpoint attemptFrom (cfg : Config) (up : Upstream) (left k : nat)
  (w : World) : (FetchError + list OpenRouterModel) * World :=
  match left with
  | O => (inl UpstreamUnavailable, w)
  | S left' =>
      let resp := up (requests w) in
      let w1 := observe resp (countRequest w) in
      match resp with
      | Success _ body => (inr (parseBody body), warn (malformed body) w1)
      | _ =>
          match left' with
          | O => (inl (failureOf resp), w1)
          | S _ =>
              attemptFrom cfg up left' (S k)
                (sleep (retryDelay cfg k resp (clock w1)) w1)
          end
      end
  end.

(** Modelled from the spec: the start of a [fetchModels] call. *)
Definition invoke (w : World) : World := countFetch w.

(** Modelled from the spec: the rest of the call, the advisory delay and
    then the attempts.  The snapshot returned carries the time at which the
    fetch completed. *)
Definition complete (cfg : Config) (up : Upstream) (w : World)
  : (FetchError + CatalogSnapshot) * World :=
  let w0 := setClock (clock w + preemptiveDelay w) w in
  match attemptFrom cfg up (maxAttempts cfg) 0 w0 with
  | (inr models, w') =>
      (inr {| entries := models; fetched_at := clock w' |}, w')
  | (inl e, w') => (inl e, w')
  end.

(** Modelled from the spec: [fetchModels] of the Rate-Limited Registry
    Client (openrouter-api.ts, not among the sources). *)
Definition fetchModels (cfg : Config) (up : Upstream) (w : World)
  : (FetchError + CatalogSnapshot) * World :=
  complete cfg up (invoke w).

End Registry.

(** ** The model cache *)
Module Cache.

Import Registry.

(** Modelled from the spec: the freshness test of model-cache.ts, which is
    not among the sources.  A snapshot is stale once its age exceeds the
    freshness threshold. *)
Definition isFresh (cfg : Config) (now : Z) (s : CatalogSnapshot) : bool :=
  now - fetched_at s <=? freshnessThreshold cfg.

(** Modelled from the spec: the snapshot a reader may use at the present
    time. *)
Definition current (cfg : Config) (w : World) : option CatalogSnapshot :=
  match snapshot w with
  | Some s => if isFresh cfg (clock w) s then Some s else None
  | None => None
  end.

Definition toResponse (s : CatalogSnapshot) : ModelsResponse :=
  {| data := entries s; timestamp := Some (fetched_at s) |}.

(** Modelled from the spec: [getCachedModels] of model-cache.ts.  It
    returns the current snapshot, or nothing when the cache was never
    populated or is past the freshness threshold, and touches nothing. *)
Definition getCachedModels (cfg : Config) (w : World)
  : option ModelsResponse * World :=
  (option_map toResponse (current cfg w), w).

(** Modelled from the spec: the snapshot an install stores, the entries
    given, at the time provided or else at the current time. *)
Definition installed (models : ModelsResponse) (now : Z) : CatalogSnapshot :=
  {| entries := data models;
     fetched_at := match timestamp models with
                   | Some t => t
                   | None => now
                   end |}.

(** Modelled from the spec: [setCachedModels] of model-cache.ts.  It
    overwrites whatever snapshot was there. *)
Definition setCachedModels (models : ModelsResponse) (w : World) : World :=
  setSnapshot (Some (installed models (clock w))) w.

(** Modelled from the spec: the lookup of model-cache.ts, a case-sensitive
    exact match on [id]; the first hit in catalog order. *)
Definition lookup (wanted : string) (models : list OpenRouterModel)
  : option OpenRouterModel :=
  find (fun m => String.eqb (id m) wanted) models.

(** Modelled from the spec: [getModelInfo] of model-cache.ts.  It answers
    from the current snapshot, and refreshes through the client first when
    the cache is empty or stale; a failed refresh leaves the cache as it
    was and is surfaced to the caller. *)
Definition getModelInfo (cfg : Config) (up : Upstream) (wanted : string)
  (w : World) : (FetchError + option OpenRouterModel) * World :=
  match current cfg w with
  | Some s => (inr (lookup wanted (entries s)), w)
  | None =>
      match fetchModels cfg up w with
      | (inr s, w') =>
          (inr (lookup wanted (entries s)),
           setCachedModels (toResponse s) w')
      | (inl e, w') => (inl e, w')
      end
  end.

(** [o != absent]. *)
Definition present {A : Type} (o : option A) : bool :=
  match o with
  | Some _ => true
  | None => false
  end.

(** Modelled from the spec: [validateModel] of model-cache.ts, the named
    convenience for [getModelInfo (id) != absent]. *)
Definition validateModel (cfg : Config) (up : Upstream) (wanted : string)
  (w : World) : (FetchError + bool) * World :=
  match getModelInfo cfg up wanted w with
  | (inr o, w') => (inr (present o), w')
  | (inl e, w') => (inl e, w')
  end.

(** A failed operation, as the rejected promise the handlers catch. *)
Definition rejects {A : Type} (f : World -> (FetchError + A) * World)
  : Eff World A :=
  fun w =>
    match f w with
    | (inr a, w') => (Returned a, w')
    | (inl e, w') => (Threw (ErrorObject (reason e)), w')
    end.

(** The cache and the client as the objects handed to the handlers. *)
Definition modelCache (cfg : Config) (up : Upstream) : ModelCache World :=
  Build_ModelCache World
    (fun w => (Returned (fst (getCachedModels cfg w)), w))
    (fun models w => (Returned tt, setCachedModels models w))
    (fun wanted => rejects (getModelInfo cfg up wanted))
    (fun wanted => rejects (validateModel cfg up wanted)).

Definition apiClient (cfg : Config) (up : Upstream)
  : OpenRouterAPIClient World :=
  Build_OpenRouterAPIClient World
    (rejects (fun w =>
                match fetchModels cfg up w with
                | (inr s, w') => (inr (Some (toResponse s)), w')
                | (inl e, w') => (inl e, w')
                end)).

(** What can happen to the cache between two writes: time passes, or a
    reader asks for the cached models. *)
Inductive Quiet : Type :=
| Elapse (d : Z)
| Read.

Definition quietStep (cfg : Config) (w : World) (q : Quiet) : World :=
  match q with
  | Elapse d => setClock (clock w + d) w
  | Read => snd (getCachedModels cfg w)
  end.

(** The world after a stretch without writes. *)
Definition quietly (cfg : Config) (w : World) (qs : list Quiet) : World :=
  fold_left (quietStep cfg) qs w.

End Cache.

(** ** Concurrent callers of the cache *)
Module SingleFlight.

Import Registry.

(** A call of [getModelInfo] that has started: suspended on the refresh in
    flight, or finished with the snapshot (or the failure) it was served
    from. *)
Inductive Caller : Type :=
| Awaiting (wanted : string)
| Settled (wanted : string) (outcome : FetchError + CatalogSnapshot).

(** The answer a finished call returns. *)
Definition answer (wanted : string) (outcome : FetchError + CatalogSnapshot)
  : FetchError + option OpenRouterModel :=
  match outcome with
  | inr s => inr (Cache.lookup wanted (entries s))
  | inl e => inl e
  end.

(** The shared cache together with the handle of the refresh in flight
    and the calls made so far, in order of arrival. *)
Record System : Type := {
  world : World;
  inflight : bool;
  callers : list Caller
}.

(** What the scheduler can do next: start a call, let the refresh in
    flight complete, or let time pass. *)
Inductive Event : Type :=
| Call (wanted : string)
| Settle
| Tick (d : Z).

(** When the refresh completes, every caller attached to it resumes with
    its outcome. *)
Definition resume (outcome : FetchError + CatalogSnapshot) (c : Caller)
  : Caller :=
  match c with
  | Awaiting wanted => Settled wanted outcome
  | Settled wanted o => Settled wanted o
  end.

(** Modelled from the spec: single-flight refresh coordination of
    model-cache.ts, which is not among the sources.  The first caller to
    find the cache empty or stale invokes [fetchModels] and stores the
    pending handle; later callers attach to it; on completion the handle
    is cleared, a successful snapshot is installed and all attached
    callers receive the same outcome. *)
Definition step (cfg : Config) (up : Upstream) (s : System) (e : Event)
  : System :=
  match e with
  | Call wanted =>
      match Cache.current cfg (world s) with
      | Some snap =>
          {| world := world s;
             inflight := inflight s;
             callers := callers s ++ [Settled wanted (inr snap)] |}
      | None =>
          if inflight s then
            {| world := world s;
               inflight := true;
               callers := callers s ++ [Awaiting wanted] |}
          else
            {| world := invoke (world s);
               inflight := true;
               callers := callers s ++ [Awaiting wanted] |}
      end
  | Settle =>
      if inflight s then
        match complete cfg up (world s) with
        | (inr snap, w') =>
            {| world := Cache.setCachedModels (Cache.toResponse snap) w';
               inflight := false;
               callers := map (resume (inr snap)) (callers s) |}
        | (inl err, w') =>
            {| world := w';
               inflight := false;
               callers := map (resume (inl err)) (callers s) |}
        end
      else s
  | Tick d =>
      {| world := setClock (clock (world s) + d) (world s);
         inflight := inflight s;
         callers := callers s |}
  end.

Definition run (cfg : Config) (up : Upstream) (s : System)
  (schedule : list Event) : System :=
  fold_left (step cfg up) schedule s.

(** A cache nobody has called yet. *)
Definition idle (w : World) : System :=
  {| world := w; inflight := false; callers := [] |}.

Definition isCall (e : Event) : bool :=
  match e with
  | Call _ => true
  | _ => false
  end.

Definition isSettle (e : Event) : bool :=
  match e with
  | Settle => true
  | _ => false
  end.

(** The number of calls a schedule starts. *)
Definition calls (schedule : list Event) : nat :=
  length (filter isCall schedule).

(** The ids asked for, in order of arrival. *)
Fixpoint asked (schedule : list Event) : list string :=
  match schedule with
  | [] => []
  | Call wanted :: rest => wanted :: asked rest
  | _ :: rest => asked rest
  end.

(** The number of completions a schedule asks for. *)
Definition settles (schedule : list Event) : nat :=
  length (filter isSettle schedule).

End SingleFlight.

(** ** chat_completion: the handler (tool-handlers/chat-completion.ts) *)

(** The part of the OpenAI SDK the handler touches. *)
Module OpenAISdk.

(** [completion.usage]. *)
Record Usage : Type := {
  prompt_tokens : Z;
  completion_tokens : Z;
  total_tokens : Z
}.

(** [choices[i].message]; [content] may be [null], [tool_calls] may be
    missing. *)
Record ChoiceMessage : Type := {
  role : string;
  content : option string;
  tool_calls : option (list string)
}.

Record Choice : Type := {
  finish_reason : option string;
  message : ChoiceMessage
}.

Record ChatCompletion : Type := {
  choices : list Choice;
  usage : option Usage
}.

(** Provider routing options: the [provider] argument of the tool, the
    [providerConfig] object the handler builds, and the [provider] key of
    the request.  A key that is not set is [None].  [sort] and
    [data_collection] come from casts of unchecked strings. *)
Record ProviderOptions : Type := {
  quantizations : option (list string);
  ignore : option (list string);
  sort : option string;
  order : option (list string);
  require_parameters : option bool;
  data_collection : option string;
  allow_fallbacks : option bool
}.

(** [{}]. *)
Definition noOptions : ProviderOptions :=
  {| quantizations := None; ignore := None; sort := None; order := None;
     require_parameters := None; data_collection := None;
     allow_fallbacks := None |}.

(** The object given to [openai.chat.completions.create]; [max_tokens] and
    [provider] are keys that may be missing. *)
Record ChatCompletionCreateParams : Type := {
  model : string;
  messages : list Chat.Message;
  temperature : Q;
  max_tokens : option Z;
  provider : option ProviderOptions
}.

(** [openai.chat.completions]. *)
Record Client (W : Type) : Type := {
  create : ChatCompletionCreateParams -> Eff W ChatCompletion
}.
Arguments create {W} _ _.

End OpenAISdk.

Module ChatCompletion.

(** Arguments of the chat_completion tool ([ChatCompletionToolRequest]).
    [messages] is declared as required, and tested for being there. *)
Record ChatCompletionToolRequest : Type := {
  model : option string;
  messages : option (list Chat.Message);
  temperature : option Q;
  max_tokens : option Z;
  provider : option OpenAISdk.ProviderOptions
}.

(** The defaults of the server, which the handler takes as its trailing
    parameters: [defaultModel], [defaultMaxTokens] (a string, from the
    environment), and the provider defaults. *)
Record Defaults : Type := {
  defaultModel : option string;
  defaultMaxTokens : option string;
  defaultQuantizations : option (list string);
  defaultIgnoredProviders : option (list string);
  defaultSort : option string;
  defaultOrder : option (list string);
  defaultRequireParameters : option bool;
  defaultDataCollection : option string;
  defaultAllowFallbacks : option bool
}.

(** The response object of chat_completion: its single choice, flattened. *)
Record ChatResponse : Type := {
  cr_id : string;
  cr_finish_reason : option string;
  cr_role : string;
  cr_content : string;
  cr_tool_calls : option (list string);
  cr_created : Z;
  cr_model : string;
  cr_object : string;
  cr_usage : OpenAISdk.Usage
}.

(** The text of a result of chat_completion: an error message, or the
    serialised response. *)
Inductive ChatText : Type :=
| ErrorText (s : string)
| CompletionText (v : ChatResponse).

(** [ToolResult], for chat_completion. *)
Record ChatToolResult : Type := {
  isError : bool;
  content : list ChatText
}.

Definition chatError (msg : string) : ChatToolResult :=
  {| isError := true; content := [ErrorText msg] |}.

Definition chatSuccess (v : ChatResponse) : ChatToolResult :=
  {| isError := false; content := [CompletionText v] |}.

(** [a ?? b]. *)
Definition nullish {A : Type} (a b : option A) : option A :=
  match a with
  | Some x => Some x
  | None => b
  end.

(** [a || b] on possibly absent strings. *)
Definition orElse (a b : option string) : option string :=
  if Js.truthyString a then a else b.

(** [xs && xs.length > 0 ? xs : unset]. *)
Definition nonEmptyList (xs : option (list string)) : option (list string) :=
  match xs with
  | Some (x :: rest) => Some (x :: rest)
  | _ => None
  end.

(** [s ? s : unset] on a possibly absent string. *)
Definition truthyOnly (s : option string) : option string :=
  if Js.truthyString s then s else None.

(** A number that may be [NaN]: [None] is [NaN]. *)
Definition MaybeNaN : Type := option Z.

Section Handler.

(** [parseInt (s, 10)], the builtin; [None] is [NaN]. *)
Variable parseInt10 : string -> MaybeNaN.

Context {W : Type} `{Runtime W}.

Local Open Scope string_scope.

(** [args.max_tokens ?? (defaultMaxTokens ? parseInt (defaultMaxTokens, 10)
    : undefined)]: [None] is [undefined]. *)
Definition effectiveMaxTokens (args : ChatCompletionToolRequest)
  (defaults : Defaults) : option MaybeNaN :=
  match max_tokens args with
  | Some n => Some (Some n)
  | None =>
      if Js.truthyString (defaultMaxTokens defaults) then
        match defaultMaxTokens defaults with
        | Some s => Some (parseInt10 s)
        | None => None
        end
      else None
  end.

(** [maxTokens !== undefined && !isNaN (maxTokens) && { max_tokens }]. *)
Definition maxTokensKey (maxTokens : option MaybeNaN) : option Z :=
  match maxTokens with
  | Some (Some n) => Some n
  | _ => None
  end.

(** The merge of the provider argument with the defaults, key by key. *)
Definition providerConfig (args : ChatCompletionToolRequest)
  (defaults : Defaults) : OpenAISdk.ProviderOptions :=
  let providerArgs :=
    match provider args with
    | Some p => p
    | None => OpenAISdk.noOptions
    end in
  {| OpenAISdk.quantizations :=
       nonEmptyList (nullish (OpenAISdk.quantizations providerArgs)
                       (defaultQuantizations defaults));
     OpenAISdk.ignore :=
       nonEmptyList (nullish (OpenAISdk.ignore providerArgs)
                       (defaultIgnoredProviders defaults));
     OpenAISdk.sort :=
       truthyOnly (nullish (OpenAISdk.sort providerArgs)
                     (defaultSort defaults));
     OpenAISdk.order :=
       nonEmptyList (nullish (OpenAISdk.order providerArgs)
                       (defaultOrder defaults));
     OpenAISdk.require_parameters :=
       nullish (OpenAISdk.require_parameters providerArgs)
         (defaultRequireParameters defaults);
     OpenAISdk.data_collection :=
       truthyOnly (nullish (OpenAISdk.data_collection providerArgs)
                     (defaultDataCollection defaults));
     OpenAISdk.allow_fallbacks :=
       nullish (OpenAISdk.allow_fallbacks providerArgs)
         (defaultAllowFallbacks defaults) |}.

Definition isSet {A : Type} (o : option A) : bool :=
  match o with
  | Some _ => true
  | None => false
  end.

(** [Object.keys (providerConfig).length > 0]. *)
Definition hasKeys (p : OpenAISdk.ProviderOptions) : bool :=
  isSet (OpenAISdk.quantizations p) || isSet (OpenAISdk.ignore p)
  || isSet (OpenAISdk.sort p) || isSet (OpenAISdk.order p)
  || isSet (OpenAISdk.require_parameters p)
  || isSet (OpenAISdk.data_collection p)
  || isSet (OpenAISdk.allow_fallbacks p).

(** [args.temperature ?? 1]. *)
Definition effectiveTemperature (args : ChatCompletionToolRequest) : Q :=
  match temperature args with
  | Some t => t
  | None => 1%Q
  end.

(** [completionRequest]. *)
Definition completionRequest (args : ChatCompletionToolRequest)
  (defaults : Defaults) (selected : string)
  (truncatedMessages : list Chat.Message)
  : OpenAISdk.ChatCompletionCreateParams :=
  {| OpenAISdk.model := selected;
     OpenAISdk.messages := truncatedMessages;
     OpenAISdk.temperature := effectiveTemperature args;
     OpenAISdk.max_tokens := maxTokensKey (effectiveMaxTokens args defaults);
     OpenAISdk.provider :=
       if hasKeys (providerConfig args defaults)
       then Some (providerConfig args defaults)
       else None |}.

Definition zeroUsage : OpenAISdk.Usage :=
  {| OpenAISdk.prompt_tokens := 0;
     OpenAISdk.completion_tokens := 0;
     OpenAISdk.total_tokens := 0 |}.

(** The response object; reading [choices[0]] of an empty array and then a
    property of it throws a TypeError. *)
Definition formatResponse (completion : OpenAISdk.ChatCompletion)
  (selected : string) (now : Z) : Result ChatResponse :=
  match OpenAISdk.choices completion with
  | [] =>
      Threw (ErrorObject
               "Cannot read properties of undefined (reading 'finish_reason')")
  | first :: _ =>
      Returned
        {| cr_id := "gen-" ++ Js.showNumber now;
           cr_finish_reason := OpenAISdk.finish_reason first;
           cr_role := OpenAISdk.role (OpenAISdk.message first);
           cr_content :=
             Js.orString (OpenAISdk.content (OpenAISdk.message first)) "";
           cr_tool_calls := OpenAISdk.tool_calls (OpenAISdk.message first);
           cr_created := (now / 1000)%Z;
           cr_model := selected;
           cr_object := "chat.completion";
           cr_usage :=
             match OpenAISdk.usage completion with
             | Some u => u
             | None => zeroUsage
             end |}
  end.

Definition chatCatch (e : Thrown) : ChatToolResult :=
  match e with
  | ErrorObject msg => chatError ("Error: OpenRouter API error: " ++ msg)
  | NonError =>
      chatError "Error: An unknown error occurred during chat completion."
  end.

Definition noModelMessage : string :=
  "Error: No model specified and no default model configured in MCP settings. Please specify a model or set OPENROUTER_DEFAULT_MODEL in the MCP configuration.".

Definition noMessagesMessage : string :=
  "Error: Messages array cannot be empty. At least one message is required.".

(** The [try] block, with the request builder as a parameter: truncate,
    call the API, format. *)
Definition attempt (openai : OpenAISdk.Client W)
  (request : list Chat.Message -> OpenAISdk.ChatCompletionCreateParams)
  (selected : string) (given : list Chat.Message) : Eff W ChatToolResult :=
  (truncatedMessages <-
     (fun w => (Chat.truncateMessagesToFit given Chat.MAX_CONTEXT_TOKENS, w)) ;;
   completion <- OpenAISdk.create openai (request truncatedMessages) ;;
   fun w =>
     match formatResponse completion selected (dateNow w) with
     | Returned response => (Returned (chatSuccess response), w)
     | Threw e => (Threw e, w)
     end)%eff.

(** [handleChatCompletion] with provider routing (the later version of
    chat-completion.ts). *)
Definition handleChatCompletion (args : ChatCompletionToolRequest)
  (openai : OpenAISdk.Client W) (defaults : Defaults)
  : W -> ChatToolResult * W :=
  match orElse (model args) (defaultModel defaults) with
  | Some selected =>
      if String.eqb selected "" then fun w => (chatError noModelMessage, w)
      else
        match messages args with
        | Some (m :: rest) =>
            tryCatch
              (attempt openai (completionRequest args defaults selected)
                 selected (m :: rest))
              chatCatch
        | _ => fun w => (chatError noMessagesMessage, w)
        end
  | None => fun w => (chatError noModelMessage, w)
  end.

(** [handleChatCompletion] of src/tool-handlers/chat-completion.ts, the
    version without [max_tokens] and provider routing: the request has the
    three keys [model], [messages] and [temperature]. *)
Definition basicRequest (args : ChatCompletionToolRequest)
  (selected : string) (truncatedMessages : list Chat.Message)
  : OpenAISdk.ChatCompletionCreateParams :=
  {| OpenAISdk.model := selected;
     OpenAISdk.messages := truncatedMessages;
     OpenAISdk.temperature := effectiveTemperature args;
     OpenAISdk.max_tokens := None;
     OpenAISdk.provider := None |}.

Definition handleChatCompletionBasic (args : ChatCompletionToolRequest)
  (openai : OpenAISdk.Client W) (defaultModel : option string)
  : W -> ChatToolResult * W :=
  match orElse (model args) defaultModel with
  | Some selected =>
      if String.eqb selected "" then fun w => (chatError noModelMessage, w)
      else
        match messages args with
        | Some (m :: rest) =>
            tryCatch
              (attempt openai (basicRequest args selected) selected (m :: rest))
              chatCatch
        | _ => fun w => (chatError noMessagesMessage, w)
        end
  | None => fun w => (chatError noModelMessage, w)
  end.

End Handler.

End ChatCompletion.

(** ** Server configuration from the environment (src/index.ts) *)
Module Env.

(** White space, as [trim] sees it on ASCII text: tab, line feed, vertical
    tab, form feed, carriage return and space. *)
Definition isWhiteSpace (c : ascii) : bool :=
  let n := N_of_ascii c in
  ((n =? 9) || (n =? 10) || (n =? 11) || (n =? 12) || (n =? 13)
   || (n =? 32))%N.

(** [s.trimStart ()]. *)
Fixpoint trimStart (s : string) : string :=
  match s with
  | EmptyString => EmptyString
  | String c s' => if isWhiteSpace c then trimStart s' else s
  end.

(** [s.trimEnd ()]. *)
Fixpoint trimEnd (s : string) : string :=
  match s with
  | EmptyString => EmptyString
  | String c s' =>
      match trimEnd s' with
      | EmptyString => if isWhiteSpace c then EmptyString else String c EmptyString
      | String d t => String c (String d t)
      end
  end.

(** [s.trim ()]. *)
Definition trim (s : string) : string := trimEnd (trimStart s).

(** [s.split (sep)] for a separator of one character: the empty string
    splits into one empty piece. *)
Fixpoint split (sep : ascii) (s : string) : list string :=
  match s with
  | EmptyString => [EmptyString]
  | String c s' =>
      if Ascii.eqb c sep then EmptyString :: split sep s'
      else
        match split sep s' with
        | first :: rest => String c first :: rest
        | [] => [String c EmptyString]
        end
  end.

(** [xs.join (sep)]. *)
Fixpoint join (sep : ascii) (xs : list string) : string :=
  match xs with
  | [] => EmptyString
  | [x] => x
  | x :: rest => (x ++ String sep (join sep rest))%string
  end.

(** [value?.split (',').map (q => q.trim ()).filter (q => q) || undefined]:
    an array is truthy, also when empty, so only an unset variable gives
    [undefined]. *)
Definition commaList (value : option string) : option (list string) :=
  match value with
  | Some s =>
      Some (filter (fun q => negb (String.eqb q EmptyString))
              (map trim (split ","%char s)))
  | None => None
  end.

(** [value?.toLowerCase () === 'true' ? true : undefined]. *)
Definition flag (value : option string) : option bool :=
  match value with
  | Some s => if String.eqb (Js.toLowerCase s) "true" then Some true else None
  | None => None
  end.

(** [process.env], the variables the server reads. *)
Record ProcessEnv : Type := {
  OPENROUTER_API_KEY : option string;
  OPENROUTER_DEFAULT_MODEL : option string;
  OPENROUTER_MAX_TOKENS : option string;
  OPENROUTER_PROVIDER_QUANTIZATIONS : option string;
  OPENROUTER_PROVIDER_IGNORE : option string;
  OPENROUTER_PROVIDER_SORT : option string;
  OPENROUTER_PROVIDER_ORDER : option string;
  OPENROUTER_PROVIDER_REQUIRE_PARAMETERS : option string;
  OPENROUTER_PROVIDER_DATA_COLLECTION : option string;
  OPENROUTER_PROVIDER_ALLOW_FALLBACKS : option string
}.

(** The constants [DEFAULT_...] of index.ts, as they reach the handler. *)
Definition defaultsOf (env : ProcessEnv) : ChatCompletion.Defaults :=
  {| ChatCompletion.defaultModel := OPENROUTER_DEFAULT_MODEL env;
     ChatCompletion.defaultMaxTokens := OPENROUTER_MAX_TOKENS env;
     ChatCompletion.defaultQuantizations :=
       commaList (OPENROUTER_PROVIDER_QUANTIZATIONS env);
     ChatCompletion.defaultIgnoredProviders :=
       commaList (OPENROUTER_PROVIDER_IGNORE env);
     ChatCompletion.defaultSort := OPENROUTER_PROVIDER_SORT env;
     ChatCompletion.defaultOrder := commaList (OPENROUTER_PROVIDER_ORDER env);
     ChatCompletion.defaultRequireParameters :=
       flag (OPENROUTER_PROVIDER_REQUIRE_PARAMETERS env);
     ChatCompletion.defaultDataCollection :=
       OPENROUTER_PROVIDER_DATA_COLLECTION env;
     ChatCompletion.defaultAllowFallbacks :=
       flag (OPENROUTER_PROVIDER_ALLOW_FALLBACKS env) |}.

(** Module start-up: without an API key the module throws; with one, the
    server is built from the key and the defaults. *)
Definition startup (env : ProcessEnv)
  : Result (string * ChatCompletion.Defaults) :=
  match OPENROUTER_API_KEY env with
  | Some key =>
      if String.eqb key EmptyString then
        Threw (ErrorObject "OPENROUTER_API_KEY environment variable is required")
      else Returned (key, defaultsOf env)
  | None =>
      Threw (ErrorObject "OPENROUTER_API_KEY environment variable is required")
  end.

End Env.

(** ** Tool listing and dispatch (src/tool-handlers.ts) *)
Module Dispatch.

(** What [ToolHandlers] holds for its handlers. *)
Record ToolHandlers (W : Type) : Type := {
  openai : OpenAISdk.Client W;
  modelCache : ModelCache W;
  apiClient : OpenRouterAPIClient W;
  defaults : ChatCompletion.Defaults
}.
Arguments openai {W} _.
Arguments modelCache {W} _.
Arguments apiClient {W} _.
Arguments defaults {W} _.

(** [request.params.arguments], one object that each branch of the switch
    casts to the request type of its tool: the object as seen through each
    cast. *)
Record Arguments : Type := {
  asChatCompletion : ChatCompletion.ChatCompletionToolRequest;
  asSearchModels : Request.SearchModelsToolRequest;
  asGetModelInfo : string;
  asValidateModel : string
}.

(** The result of a tool call, whichever handler produced it. *)
Inductive AnyResult : Type :=
| FromChat (r : ChatCompletion.ChatToolResult)
| FromTool (r : ToolResult).

Definition failed (r : AnyResult) : bool :=
  match r with
  | FromChat c => ChatCompletion.isError c
  | FromTool t => isError t
  end.

(** One entry of the tool listing: its name and the argument names its
    schema requires. *)
Record ToolDescriptor : Type := {
  tool_name : string;
  required : list string
}.

Local Open Scope string_scope.

(** The handler of [ListToolsRequestSchema]: names and required
    arguments. *)
Definition listTools : list ToolDescriptor :=
  [ {| tool_name := "chat_completion"; required := ["messages"] |};
    {| tool_name := "search_models"; required := [] |};
    {| tool_name := "get_model_info"; required := ["model"] |};
    {| tool_name := "validate_model"; required := ["model"] |} ].

Section CallTool.

Variable parseFloat : string -> Js.JsNumber.
Variable parseInt10 : string -> ChatCompletion.MaybeNaN.

Context {W : Type} `{Runtime W}.

Definition lift {A : Type} (wrap : A -> AnyResult) (run : W -> A * W)
  : W -> AnyResult * W :=
  fun w => let (r, w') := run w in (wrap r, w').

(** The handler of [CallToolRequestSchema]: the switch on the tool name. *)
Definition callTool (handlers : ToolHandlers W) (name : string)
  (arguments : Arguments) : W -> AnyResult * W :=
  if String.eqb name "chat_completion" then
    lift FromChat
      (ChatCompletion.handleChatCompletion parseInt10
         (asChatCompletion arguments) (openai handlers) (defaults handlers))
  else if String.eqb name "search_models" then
    lift FromTool
      (handleSearchModels parseFloat (asSearchModels arguments)
         (apiClient handlers) (modelCache handlers))
  else if String.eqb name "get_model_info" then
    lift FromTool
      (handleGetModelInfo (asGetModelInfo arguments) (modelCache handlers))
  else if String.eqb name "validate_model" then
    lift FromTool
      (handleValidateModel (asValidateModel arguments) (modelCache handlers))
  else
    fun w =>
      (FromTool (errorResult ("Error: Tool '" ++ name ++ "' not found.")), w).

End CallTool.

End Dispatch.

(** ** Measures used in the statements about truncation *)

(** What the loop charges for a message. *)
Definition messageTokens (m : Chat.Message) : Z :=
  Chat.estimateTokenCount (Chat.contentString (Chat.content m)).

(** What the loop charges for a list of messages. *)
Fixpoint totalTokens (ms : list Chat.Message) : Z :=
  match ms with
  | [] => 0
  | m :: rest => messageTokens m + totalTokens rest
  end.

(** What chat_completion makes of the outcome of the API call: the
    formatted first choice, or the error of the [catch]. *)
Definition respond {W : Type} `{Runtime W} (selected : string)
  (outcome : Result OpenAISdk.ChatCompletion * W)
  : ChatCompletion.ChatToolResult * W :=
  match outcome with
  | (Returned completion, w') =>
      match ChatCompletion.formatResponse completion selected (dateNow w') with
      | Returned response => (ChatCompletion.chatSuccess response, w')
      | Threw e => (ChatCompletion.chatCatch e, w')
      end
  | (Threw e, w') => (ChatCompletion.chatCatch e, w')
  end.

(** A world for running chat_completion: the clock, and the requests the
    API has received, oldest first. *)
Record Exchange : Type := {
  exchange_clock : Z;
  received : list OpenAISdk.ChatCompletionCreateParams
}.

#[global] Instance ExchangeRuntime : Runtime Exchange :=
  {| dateNow := exchange_clock |}.

(** An API that records each request and answers [completion]. *)
Definition answering (completion : OpenAISdk.ChatCompletion)
  : OpenAISdk.Client Exchange :=
  OpenAISdk.Build_Client Exchange
    (fun request w =>
       (Returned completion,
        {| exchange_clock := exchange_clock w;
           received := received w ++ [request] |})).

(** The provider options by kind, for statements that hold key by key. *)
Inductive ListKey : Type :=
| Quantizations
| Ignore
| Order.

Inductive StringKey : Type :=
| Sort
| DataCollection.

Inductive FlagKey : Type :=
| RequireParameters
| AllowFallbacks.

Definition listOption (k : ListKey) (p : OpenAISdk.ProviderOptions)
  : option (list string) :=
  match k with
  | Quantizations => OpenAISdk.quantizations p
  | Ignore => OpenAISdk.ignore p
  | Order => OpenAISdk.order p
  end.

Definition listDefault (k : ListKey) (d : ChatCompletion.Defaults)
  : option (list string) :=
  match k with
  | Quantizations => ChatCompletion.defaultQuantizations d
  | Ignore => ChatCompletion.defaultIgnoredProviders d
  | Order => ChatCompletion.defaultOrder d
  end.

Definition stringOption (k : StringKey) (p : OpenAISdk.ProviderOptions)
  : option string :=
  match k with
  | Sort => OpenAISdk.sort p
  | DataCollection => OpenAISdk.data_collection p
  end.

Definition stringDefault (k : StringKey) (d : ChatCompletion.Defaults)
  : option string :=
  match k with
  | Sort => ChatCompletion.defaultSort d
  | DataCollection => ChatCompletion.defaultDataCollection d
  end.

Definition flagOption (k : FlagKey) (p : OpenAISdk.ProviderOptions)
  : option bool :=
  match k with
  | RequireParameters => OpenAISdk.require_parameters p
  | AllowFallbacks => OpenAISdk.allow_fallbacks p
  end.

Definition flagDefault (k : FlagKey) (d : ChatCompletion.Defaults)
  : option bool :=
  match k with
  | RequireParameters => ChatCompletion.defaultRequireParameters d
  | AllowFallbacks => ChatCompletion.defaultAllowFallbacks d
  end.

(** [args.provider ?? {}]. *)
Definition explicitOptions (args : ChatCompletion.ChatCompletionToolRequest)
  : OpenAISdk.ProviderOptions :=
  match ChatCompletion.provider args with
  | Some p => p
  | None => OpenAISdk.noOptions
  end.

(** A provider option as the request carries it: unset when the request
    has no [provider] key. *)
Definition routed {A : Type} (get : OpenAISdk.ProviderOptions -> option A)
  (request : OpenAISdk.ChatCompletionCreateParams) : option A :=
  match OpenAISdk.provider request with
  | Some p => get p
  | None => None
  end.

(** [t] occurs in [s] as a contiguous substring. *)
Definition occurs (t s : string) : Prop :=
  exists pre post : string, s = (pre ++ t ++ post)%string.

(** A request with its numeric bounds that are zero taken out. *)
Definition nonZero (bound : option Z) : option Z :=
  match bound with
  | Some n => if n =? 0 then None else Some n
  | None => None
  end.

Definition nonZeroPrice (bound : option Q) : option Q :=
  match bound with
  | Some q => if Qeq_bool q 0 then None else Some q
  | None => None
  end.

Definition withoutZeroBounds (args : Request.SearchModelsToolRequest)
  : Request.SearchModelsToolRequest :=
  {| Request.query := Request.query args;
     Request.provider := Request.provider args;
     Request.minContextLength := nonZero (Request.minContextLength args);
     Request.maxContextLength := nonZero (Request.maxContextLength args);
     Request.maxPromptPrice := nonZeroPrice (Request.maxPromptPrice args);
     Request.maxCompletionPrice :=
       nonZeroPrice (Request.maxCompletionPrice args);
     Request.capabilities := Request.capabilities args;
     Request.limit := Request.limit args |}.

(** ** Sample data

    Concrete catalogs, requests, conversations and upstreams on which the
    handlers and the collaborators are run below. *)

(** Sample catalog entries. *)
Definition samplePricing : Pricing :=
  {| prompt := "0.03"; completion := "0.06" |}.

Definition sampleModel (i : string) : OpenRouterModel :=
  {| id := i;
     name := "Sample";
     description := None;
     context_length := 8192;
     pricing := samplePricing;
     capabilities := None |}.

Definition providerArgs (p : option string) : Request.SearchModelsToolRequest :=
  {| Request.query := None;
     Request.provider := p;
     Request.minContextLength := None;
     Request.maxContextLength := None;
     Request.maxPromptPrice := None;
     Request.maxCompletionPrice := None;
     Request.capabilities := None;
     Request.limit := None |}.

(** A world for running the handlers on the cache: the catalog [models]
    was installed at time [0] and it is now time [now]. *)
Definition populatedWorld (models : list OpenRouterModel) (now : Z) : World :=
  setSnapshot (Some {| entries := models; fetched_at := 0 |})
    (initialWorld now).

(** An upstream that is down. *)
Definition unreachable : Registry.Upstream := fun _ => Registry.TransportError.

(** A price reader for running the handlers: every price reads as [NaN]. *)
Definition noPrice : string -> Js.JsNumber := fun _ => Js.NaN.

Definition limitArgs (k : option Z) : Request.SearchModelsToolRequest :=
  {| Request.query := None;
     Request.provider := None;
     Request.minContextLength := None;
     Request.maxContextLength := None;
     Request.maxPromptPrice := None;
     Request.maxCompletionPrice := None;
     Request.capabilities := None;
     Request.limit := k |}.

Definition threeModels : list OpenRouterModel :=
  [sampleModel "openai/gpt-4"; sampleModel "anthropic/claude-3";
   sampleModel "google/gemini-pro"].

Definition systemPrompt : Chat.Message :=
  {| Chat.role := "system";
     Chat.content := Chat.Text "You are a helpful assistant." |}.

Definition userHello : Chat.Message :=
  {| Chat.role := "user"; Chat.content := Chat.Text "Hello there" |}.

Definition sampleSnapshot : ModelsResponse :=
  {| data := threeModels; timestamp := Some 1000 |}.


(** The leading message of a conversation, with [content: null]. *)
Definition nullSystem : Chat.Message :=
  {| Chat.role := "system"; Chat.content := Chat.Nothing |}.

(** An upstream that fails four times and then serves [body]. *)
Definition fifthTimeLucky (body : list Registry.RawEntry) : Registry.Upstream :=
  fun n =>
    if (n <? 4)%nat then Registry.TransportError
    else Registry.Success
           {| Registry.h_remaining := None; Registry.h_reset := None |} body.

Definition rawSample (i : option string) : Registry.RawEntry :=
  {| Registry.raw_id := i;
     Registry.raw_name := "Sample";
     Registry.raw_description := None;
     Registry.raw_context_length := 8192;
     Registry.raw_pricing := samplePricing;
     Registry.raw_capabilities := None |}.

(** An upstream that serves [body] at once. *)
Definition serving (body : list Registry.RawEntry) : Registry.Upstream :=
  fun _ =>
    Registry.Success
      {| Registry.h_remaining := None; Registry.h_reset := None |} body.

Definition burst : list SingleFlight.Event :=
  [SingleFlight.Call "openai/gpt-4"; SingleFlight.Tick 5;
   SingleFlight.Call "anthropic/claude-3"; SingleFlight.Call "openai/gpt-4"].

Definition noDefaults : ChatCompletion.Defaults :=
  {| ChatCompletion.defaultModel := None;
     ChatCompletion.defaultMaxTokens := None;
     ChatCompletion.defaultQuantizations := None;
     ChatCompletion.defaultIgnoredProviders := None;
     ChatCompletion.defaultSort := None;
     ChatCompletion.defaultOrder := None;
     ChatCompletion.defaultRequireParameters := None;
     ChatCompletion.defaultDataCollection := None;
     ChatCompletion.defaultAllowFallbacks := None |}.

Definition chatArgs (m : option string) (ms : option (list Chat.Message))
  : ChatCompletion.ChatCompletionToolRequest :=
  {| ChatCompletion.model := m;
     ChatCompletion.messages := ms;
     ChatCompletion.temperature := None;
     ChatCompletion.max_tokens := None;
     ChatCompletion.provider := None |}.

Definition sampleChoice (text : option string) : OpenAISdk.Choice :=
  {| OpenAISdk.finish_reason := Some "stop"%string;
     OpenAISdk.message :=
       {| OpenAISdk.role := "assistant";
          OpenAISdk.content := text;
          OpenAISdk.tool_calls := None |} |}.

Definition sampleCompletion : OpenAISdk.ChatCompletion :=
  {| OpenAISdk.choices := [sampleChoice (Some "Hi!"%string)];
     OpenAISdk.usage := None |}.

(** A reader of integers for running chat_completion: nothing parses. *)
Definition noInt : string -> ChatCompletion.MaybeNaN := fun _ => None.

Definition quiet : Exchange := {| exchange_clock := 5000; received := [] |}.

Definition routingArgs (p : OpenAISdk.ProviderOptions)
  : ChatCompletion.ChatCompletionToolRequest :=
  {| ChatCompletion.model := Some "openai/gpt-4"%string;
     ChatCompletion.messages := Some [userHello];
     ChatCompletion.temperature := None;
     ChatCompletion.max_tokens := None;
     ChatCompletion.provider := Some p |}.

Definition routingDefaults : ChatCompletion.Defaults :=
  {| ChatCompletion.defaultModel := None;
     ChatCompletion.defaultMaxTokens := None;
     ChatCompletion.defaultQuantizations := Some ["fp16"%string];
     ChatCompletion.defaultIgnoredProviders := None;
     ChatCompletion.defaultSort := Some "price"%string;
     ChatCompletion.defaultOrder := None;
     ChatCompletion.defaultRequireParameters := None;
     ChatCompletion.defaultDataCollection := None;
     ChatCompletion.defaultAllowFallbacks := Some true |}.

Definition overriding : OpenAISdk.ProviderOptions :=
  {| OpenAISdk.quantizations := Some [];
     OpenAISdk.ignore := None;
     OpenAISdk.sort := None;
     OpenAISdk.order := None;
     OpenAISdk.require_parameters := None;
     OpenAISdk.data_collection := None;
     OpenAISdk.allow_fallbacks := Some false |}.

Definition twoChoices : OpenAISdk.ChatCompletion :=
  {| OpenAISdk.choices := [sampleChoice None; sampleChoice (Some "Hi!"%string)];
     OpenAISdk.usage := None |}.

Definition noChoices : OpenAISdk.ChatCompletion :=
  {| OpenAISdk.choices := []; OpenAISdk.usage := None |}.

Definition queryArgs (q : option string) : Request.SearchModelsToolRequest :=
  {| Request.query := q;
     Request.provider := None;
     Request.minContextLength := None;
     Request.maxContextLength := None;
     Request.maxPromptPrice := None;
     Request.maxCompletionPrice := None;
     Request.capabilities := None;
     Request.limit := None |}.

Definition visionOnly : Capabilities :=
  {| functions := None; tools := None; vision := Some true;
     json_mode := None |}.

Definition visionModel : OpenRouterModel :=
  {| id := "openai/gpt-4-vision";
     name := "Vision";
     description := Some ""%string;
     context_length := 128000;
     pricing := samplePricing;
     capabilities := Some visionOnly |}.

Definition visionArgs : Request.SearchModelsToolRequest :=
  {| Request.query := None;
     Request.provider := Some "OpenAI"%string;
     Request.minContextLength := Some 100000;
     Request.maxContextLength := Some 0;
     Request.maxPromptPrice := None;
     Request.maxCompletionPrice := None;
     Request.capabilities := Some visionOnly;
     Request.limit := None |}.

Definition dummyHandlers : Dispatch.ToolHandlers World :=
  {| Dispatch.openai :=
       OpenAISdk.Build_Client World (fun _ w => (Threw NonError, w));
     Dispatch.modelCache := Cache.modelCache defaultConfig unreachable;
     Dispatch.apiClient := Cache.apiClient defaultConfig unreachable;
     Dispatch.defaults := noDefaults |}.

Definition dummyArguments : Dispatch.Arguments :=
  {| Dispatch.asChatCompletion := chatArgs None None;
     Dispatch.asSearchModels := limitArgs None;
     Dispatch.asGetModelInfo := "openai/gpt-4";
     Dispatch.asValidateModel := "openai/gpt-4" |}.

Definition fallbacksOff : Env.ProcessEnv :=
  {| Env.OPENROUTER_API_KEY := Some "sk-or-key"%string;
     Env.OPENROUTER_DEFAULT_MODEL := Some "openai/gpt-4"%string;
     Env.OPENROUTER_MAX_TOKENS := None;
     Env.OPENROUTER_PROVIDER_QUANTIZATIONS := Some ""%string;
     Env.OPENROUTER_PROVIDER_IGNORE := None;
     Env.OPENROUTER_PROVIDER_SORT := None;
     Env.OPENROUTER_PROVIDER_ORDER := None;
     Env.OPENROUTER_PROVIDER_REQUIRE_PARAMETERS := None;
     Env.OPENROUTER_PROVIDER_DATA_COLLECTION := None;
     Env.OPENROUTER_PROVIDER_ALLOW_FALLBACKS := Some "false"%string |}.

(** * Properties *)

(** ** Strings *)

Lemma lowerChar_idempotent (c : ascii) :
  Js.lowerChar (Js.lowerChar c) = Js.lowerChar c.
Proof.
  destruct c as [[] [] [] [] [] [] [] []]; reflexivity.
Qed.

Lemma toLowerCase_idempotent (s : string) :
  Js.toLowerCase (Js.toLowerCase s) = Js.toLowerCase s.
Proof.
  induction s as [| c s IH]; simpl.
  - reflexivity.
  - now rewrite lowerChar_idempotent, IH.
Qed.

(** Lower-casing commutes with taking the part before the separator, as
    long as the separator is not a capital letter. *)
Lemma splitFirst_toLowerCase (s : string) :
  Js.splitFirst "/"%char (Js.toLowerCase s)
  = Js.toLowerCase (Js.splitFirst "/"%char s).
Proof.
  induction s as [| c s IH]; simpl.
  - reflexivity.
  - destruct (Ascii.eqb c "/"%char) eqn:E.
    + apply Ascii.eqb_eq in E. subst c. reflexivity.
    + assert (Ascii.eqb (Js.lowerChar c) "/"%char = false) as ->.
      { clear IH. destruct c as [[] [] [] [] [] [] [] []];
          try reflexivity; discriminate E. }
      simpl. now rewrite IH.
Qed.

(** ** Effects *)

Lemma tryCatch_returned {W A : Type} (body : Eff W A) (handler : Thrown -> A)
  (w w' : W) (a : A) :
  body w = (Returned a, w') -> tryCatch body handler w = (a, w').
Proof. intros E. unfold tryCatch. now rewrite E. Qed.

Lemma tryCatch_threw {W A : Type} (body : Eff W A) (handler : Thrown -> A)
  (w w' : W) (e : Thrown) :
  body w = (Threw e, w') -> tryCatch body handler w = (handler e, w').
Proof. intros E. unfold tryCatch. now rewrite E. Qed.

Lemma bind_returned {W A B : Type} (m : Eff W A) (k : A -> Eff W B)
  (w w' : W) (a : A) :
  m w = (Returned a, w') -> bind m k w = k a w'.
Proof. intros E. unfold bind. now rewrite E. Qed.

Lemma bind_threw {W A B : Type} (m : Eff W A) (k : A -> Eff W B)
  (w w' : W) (e : Thrown) :
  m w = (Threw e, w') -> bind m k w = (Threw e, w').
Proof. intros E. unfold bind. now rewrite E. Qed.

(** ** search_models: the provider filter *)

Section ProviderFilter.

(** With a provider argument that is a non-empty string, the filter is an
    exact comparison of the model's prefix with the lower-cased
    argument. *)
Lemma providerFilter_truthy (args : Request.SearchModelsToolRequest)
  (p : string) (model : OpenRouterModel) :
  Request.provider args = Some p -> p <> EmptyString ->
  providerFilter args model
  = String.eqb (providerOf model) (Js.toLowerCase p).
Proof.
  intros Hp Hne. unfold providerFilter. rewrite Hp. simpl.
  destruct (String.eqb p "") eqn:E.
  - apply String.eqb_eq in E. contradiction.
  - reflexivity.
Qed.

(** Without one, the block is skipped. *)
Lemma providerFilter_falsy (args : Request.SearchModelsToolRequest)
  (model : OpenRouterModel) :
  Js.truthyString (Request.provider args) = false ->
  providerFilter args model = true.
Proof. intros E. unfold providerFilter. now rewrite E. Qed.

(** A model id in lower case has its provider prefix in lower case. *)
Lemma providerOf_lower (model : OpenRouterModel) :
  Js.toLowerCase (id model) = id model ->
  Js.toLowerCase (providerOf model) = providerOf model.
Proof.
  intros Hid. unfold providerOf.
  rewrite <- splitFirst_toLowerCase. now rewrite Hid.
Qed.

Lemma toLowerCase_empty (s : string) :
  Js.toLowerCase s = EmptyString -> s = EmptyString.
Proof. destruct s; [reflexivity | discriminate]. Qed.

(** The filter does not see the case of its argument. *)
Lemma providerFilter_argument_case (args args' : Request.SearchModelsToolRequest)
  (p : string) (model : OpenRouterModel) :
  Request.provider args = Some p ->
  Request.provider args' = Some (Js.toLowerCase p) ->
  providerFilter args model = providerFilter args' model.
Proof.
  intros Hp Hp'.
  destruct (String.eqb p EmptyString) eqn:E.
  - apply String.eqb_eq in E. subst p.
    unfold providerFilter. now rewrite Hp, Hp'.
  - apply String.eqb_neq in E.
    rewrite (providerFilter_truthy args p model Hp E).
    rewrite (providerFilter_truthy args' (Js.toLowerCase p) model Hp').
    + now rewrite toLowerCase_idempotent.
    + intros Hempty. apply E. now apply toLowerCase_empty.
Qed.

End ProviderFilter.

(** C7, as stated, fails: with the empty string as provider argument the
    filter keeps a model of provider [openai], whose prefix is not the
    empty string under any case normalization. *)
Lemma provider_filter_not_equality :
  ~ (forall (p : string) (m : OpenRouterModel),
        providerFilter (providerArgs (Some p)) m = true
        <-> Js.toLowerCase (providerOf m) = Js.toLowerCase p).
Proof.
  intros claim.
  destruct (claim EmptyString (sampleModel "openai/gpt-4")) as [to_eq _].
  specialize (to_eq eq_refl). discriminate to_eq.
Qed.

(** The comparison lower-cases the argument only: a model whose id is
    written with capitals is dropped by the provider it belongs to. *)
Example provider_filter_mixed_case_model :
  providerFilter (providerArgs (Some "openai"%string))
    (sampleModel "OpenAI/gpt-4") = false
  /\ Js.toLowerCase (providerOf (sampleModel "OpenAI/gpt-4"))
     = Js.toLowerCase "openai".
Proof. split; reflexivity. Qed.

(** C7 (amended): for a provider argument [p] that is a non-empty string and
    a model [m] whose provider prefix is written in lower case, the provider
    filter of search_models retains [m] if and only if the prefix of [m]
    equals [p] under case normalization; when the provider argument is
    absent or the empty string the filter retains every model. *)
Theorem provider_filter_case_normalized :
  forall (args : Request.SearchModelsToolRequest) (m : OpenRouterModel),
    (forall p : string,
        Request.provider args = Some p ->
        p <> EmptyString ->
        Js.toLowerCase (providerOf m) = providerOf m ->
        (providerFilter args m = true
         <-> Js.toLowerCase (providerOf m) = Js.toLowerCase p))
    /\ (Request.provider args = None \/ Request.provider args = Some EmptyString ->
        providerFilter args m = true).
Proof.
  intros args m. split.
  - intros p Hp Hne Hlow.
    rewrite (providerFilter_truthy args p m Hp Hne), Hlow.
    apply String.eqb_eq.
  - intros [E | E]; apply providerFilter_falsy; now rewrite E.
Qed.

Lemma provider_filter_case_normalized_witness :
  (providerFilter (providerArgs (Some "OpenAI"%string))
     (sampleModel "openai/gpt-4") = true
   <-> Js.toLowerCase (providerOf (sampleModel "openai/gpt-4"))
       = Js.toLowerCase "OpenAI")
  /\ providerFilter (providerArgs None) (sampleModel "openai/gpt-4") = true.
Proof.
  destruct (provider_filter_case_normalized
              (providerArgs (Some "OpenAI"%string))
              (sampleModel "openai/gpt-4")) as [with_p _].
  destruct (provider_filter_case_normalized
              (providerArgs None) (sampleModel "openai/gpt-4")) as [_ without].
  split.
  - apply (with_p "OpenAI"%string).
    + reflexivity.
    + discriminate.
    + reflexivity.
  - apply without. left. reflexivity.
Defined.

(** ** search_models and get_model_info: what a successful call returns *)

Section HandlerResults.

Variable parseFloat : string -> Js.JsNumber.

Context {W : Type} `{Runtime W}.

Lemma handleSearchModels_acquired (args : Request.SearchModelsToolRequest)
  (apiClient : OpenRouterAPIClient W) (modelCache : ModelCache W)
  (w w' : W) (ms : ModelsResponse) :
  acquireModels apiClient modelCache w = (Returned (Some ms), w') ->
  handleSearchModels parseFloat args apiClient modelCache w
  = (successResult
       (JsonSearch (searchResponse parseFloat args ms (dateNow w'))), w').
Proof.
  intros E. unfold handleSearchModels.
  apply tryCatch_returned.
  rewrite (bind_returned _ _ w w' (Some ms) E). reflexivity.
Qed.

(** A rejected fetch, or a rejected cache call, ends in the [catch]. *)
Lemma handleSearchModels_rejected (args : Request.SearchModelsToolRequest)
  (apiClient : OpenRouterAPIClient W) (modelCache : ModelCache W)
  (w w' : W) (e : Thrown) :
  acquireModels apiClient modelCache w = (Threw e, w') ->
  handleSearchModels parseFloat args apiClient modelCache w
  = (searchCatch e, w').
Proof.
  intros E. unfold handleSearchModels.
  apply tryCatch_threw. now apply bind_threw.
Qed.

Lemma handleGetModelInfo_found (wanted : string) (modelCache : ModelCache W)
  (w w' : W) (info : OpenRouterModel) :
  getModelInfo modelCache wanted w = (Returned (Some info), w') ->
  handleGetModelInfo wanted modelCache w
  = (successResult (JsonInfo (infoResponse info (dateNow w'))), w').
Proof.
  intros E. unfold handleGetModelInfo.
  apply tryCatch_returned.
  rewrite (bind_returned _ _ w w' (Some info) E). reflexivity.
Qed.

End HandlerResults.

(** search_models on the cache and the client: with nothing usable cached,
    a successful fetch is installed with the current time, and is then what
    [getCachedModels] returns while it is fresh. *)
Lemma acquireModels_caches_fetch (cfg : Config) (up : Registry.Upstream)
  (w w' : World) (s : CatalogSnapshot) :
  Cache.current cfg w = None ->
  Registry.fetchModels cfg up w = (inr s, w') ->
  acquireModels (Cache.apiClient cfg up) (Cache.modelCache cfg up) w
  = (Returned (Some (Cache.toResponse s)),
     Cache.setCachedModels (withTimestamp (Cache.toResponse s) (clock w')) w').
Proof.
  intros Hstale Hfetch.
  unfold acquireModels, bind, Cache.modelCache, Cache.apiClient,
    Cache.rejects, Cache.getCachedModels. simpl.
  rewrite Hstale. simpl. rewrite Hfetch. reflexivity.
Qed.

(** An absent capabilities object, or an absent flag in it, is reported as
    [false]. *)
Lemma reportCapabilities_absent (f : CapabilityName) (c : option Capabilities) :
  capabilityFlag f c = None -> reported f (reportCapabilities c) = false.
Proof.
  intros E. destruct f; simpl; now rewrite E.
Qed.

Lemma Forall2_map_right {A B : Type} (R : A -> B -> Prop) (f : A -> B)
  (xs : list A) :
  (forall x, In x xs -> R x (f x)) -> Forall2 R xs (map f xs).
Proof.
  induction xs as [| x xs IH]; intros Hall; simpl; constructor.
  - apply Hall. now left.
  - apply IH. intros y Hy. apply Hall. now right.
Qed.

(** ** Slicing *)

Lemma slice0_positive {A : Type} (xs : list A) (k : Z) :
  0 < k ->
  Js.slice0 xs k = firstn (Nat.min (length xs) (Z.to_nat k)) xs.
Proof.
  intros Hk. unfold Js.slice0.
  destruct (k <? 0) eqn:E; [apply Z.ltb_lt in E; lia |].
  f_equal. lia.
Qed.

Lemma firstn_min_length {A : Type} (xs : list A) (k : nat) :
  firstn (Nat.min (length xs) k) xs = firstn k xs.
Proof.
  destruct (Nat.le_ge_cases k (length xs)) as [Hle | Hge].
  - now rewrite Nat.min_r.
  - rewrite Nat.min_l by assumption.
    rewrite firstn_all. symmetry. now apply firstn_all2.
Qed.

(** C8: when the capabilities object of a model descriptor, or one of its
    four flags, is absent, the responses of get_model_info and of
    search_models report that capability as [false]: get_model_info in the
    [data] of its response, search_models in the entry of every model it
    returns. *)
Theorem absent_capability_reported_false :
  forall (parseFloat : string -> Js.JsNumber) (W : Type) (R : Runtime W)
         (apiClient : OpenRouterAPIClient W) (modelCache : ModelCache W)
         (args : Request.SearchModelsToolRequest) (wanted : string)
         (w : W),
    (forall (info : OpenRouterModel) (w' : W),
        getModelInfo modelCache wanted w = (Returned (Some info), w') ->
        exists r : InfoResponse,
          fst (handleGetModelInfo wanted modelCache w)
          = successResult (JsonInfo r)
          /\ forall f : CapabilityName,
              capabilityFlag f (capabilities info) = None ->
              reported f (md_capabilities (ir_data r)) = false)
    /\ (forall (ms : ModelsResponse) (w' : W),
          acquireModels apiClient modelCache w = (Returned (Some ms), w') ->
          exists r : SearchResponse,
            fst (handleSearchModels parseFloat args apiClient modelCache w)
            = successResult (JsonSearch r)
            /\ Forall2
                 (fun (m : OpenRouterModel) (e : ModelData) =>
                    md_id e = id m
                    /\ forall f : CapabilityName,
                        capabilityFlag f (capabilities m) = None ->
                        reported f (md_capabilities e) = false)
                 (selected parseFloat args ms) (sr_data r)).
Proof.
  intros parseFloat W R apiClient modelCache args wanted w. split.
  - intros info w' E.
    exists (infoResponse info (dateNow w')). split.
    + now rewrite (handleGetModelInfo_found wanted modelCache w w' info E).
    + intros f Hf. simpl. now apply reportCapabilities_absent.
  - intros ms w' E.
    exists (searchResponse parseFloat args ms (dateNow w')). split.
    + now rewrite (handleSearchModels_acquired parseFloat args _ _ w w' ms E).
    + simpl. unfold searchResults. apply Forall2_map_right.
      intros m _. split; [reflexivity |].
      intros f Hf. simpl. now apply reportCapabilities_absent.
Qed.

Lemma absent_capability_reported_false_witness :
  (exists r : InfoResponse,
      fst (handleGetModelInfo "openai/gpt-4"
             (Cache.modelCache defaultConfig unreachable)
             (populatedWorld [sampleModel "openai/gpt-4"] 5))
      = successResult (JsonInfo r)
      /\ forall f : CapabilityName,
          capabilityFlag f (capabilities (sampleModel "openai/gpt-4")) = None ->
          reported f (md_capabilities (ir_data r)) = false)
  /\ (exists r : SearchResponse,
         fst (handleSearchModels noPrice (providerArgs None)
                (Cache.apiClient defaultConfig unreachable)
                (Cache.modelCache defaultConfig unreachable)
                (populatedWorld [sampleModel "openai/gpt-4"] 5))
         = successResult (JsonSearch r)
         /\ Forall2
              (fun (m : OpenRouterModel) (e : ModelData) =>
                 md_id e = id m
                 /\ forall f : CapabilityName,
                     capabilityFlag f (capabilities m) = None ->
                     reported f (md_capabilities e) = false)
              (selected noPrice (providerArgs None)
                 {| data := [sampleModel "openai/gpt-4"];
                    timestamp := Some 0 |})
              (sr_data r)).
Proof.
  destruct (absent_capability_reported_false noPrice World WorldRuntime
              (Cache.apiClient defaultConfig unreachable)
              (Cache.modelCache defaultConfig unreachable)
              (providerArgs None) "openai/gpt-4"
              (populatedWorld [sampleModel "openai/gpt-4"] 5))
    as [info search].
  split.
  - apply (info (sampleModel "openai/gpt-4")
             (populatedWorld [sampleModel "openai/gpt-4"] 5)).
    reflexivity.
  - apply (search {| data := [sampleModel "openai/gpt-4"];
                     timestamp := Some 0 |}
             (populatedWorld [sampleModel "openai/gpt-4"] 5)).
    reflexivity.
Defined.

(** ** search_models: the limit *)

Lemma effectiveLimit_default (args : Request.SearchModelsToolRequest) :
  Request.limit args = None \/ Request.limit args = Some 0 ->
  effectiveLimit args = 10.
Proof. intros [E | E]; unfold effectiveLimit; now rewrite E. Qed.

Lemma effectiveLimit_positive (args : Request.SearchModelsToolRequest) (z : Z) :
  Request.limit args = Some z -> 0 < z -> effectiveLimit args = z.
Proof.
  intros E Hz. unfold effectiveLimit. rewrite E.
  destruct (z =? 0) eqn:E0; [apply Z.eqb_eq in E0; lia | reflexivity].
Qed.

(** The object built for a model carries the fields of that model. *)
Lemma describe_fields (m : OpenRouterModel) :
  md_id (describe m) = id m
  /\ md_name (describe m) = name m
  /\ md_context_length (describe m) = context_length m
  /\ prompt (md_pricing (describe m))
     = ("$" ++ prompt (pricing m) ++ "/1K tokens")%string
  /\ completion (md_pricing (describe m))
     = ("$" ++ completion (pricing m) ++ "/1K tokens")%string
  /\ (forall d : string,
         description m = Some d -> d <> EmptyString ->
         md_description (describe m) = d)
  /\ (description m = None \/ description m = Some EmptyString ->
      md_description (describe m) = "No description available"%string).
Proof.
  repeat split; simpl.
  - intros d -> Hd. destruct d; [contradiction | reflexivity].
  - intros [-> | ->]; reflexivity.
Qed.

(** C9: over a catalog of which [n] models pass all the filters,
    search_models returns one entry for each of the first [min n k] of
    them, in catalog order, where [k] is [args.limit] when that is a
    positive number and [10] when it is absent or zero; [k] is not clamped
    at 50.  The entry returned for a model carries the id of that model, its
    name, its context length, its two prices between ['$'] and
    ['/1K tokens'], and its description, or ['No description available']
    when the model has none or an empty one. *)
Theorem search_returns_first_k :
  forall (parseFloat : string -> Js.JsNumber) (W : Type) (R : Runtime W)
         (apiClient : OpenRouterAPIClient W) (modelCache : ModelCache W)
         (args : Request.SearchModelsToolRequest) (w w' : W)
         (ms : ModelsResponse) (k : nat),
    acquireModels apiClient modelCache w = (Returned (Some ms), w') ->
    (Request.limit args = None /\ k = 10%nat)
    \/ (Request.limit args = Some 0 /\ k = 10%nat)
    \/ (exists z : Z, Request.limit args = Some z /\ 0 < z /\ k = Z.to_nat z) ->
    let filtered := filter (keeps parseFloat args) (data ms) in
    let first := firstn (Nat.min (length filtered) k) filtered in
    exists r : SearchResponse,
      fst (handleSearchModels parseFloat args apiClient modelCache w)
      = successResult (JsonSearch r)
      /\ sr_data r = map describe first
      /\ length (sr_data r) = Nat.min (length filtered) k
      /\ map md_id (sr_data r) = map id first
      /\ Forall2
           (fun (m : OpenRouterModel) (e : ModelData) =>
              md_id e = id m
              /\ md_name e = name m
              /\ md_context_length e = context_length m
              /\ prompt (md_pricing e)
                 = ("$" ++ prompt (pricing m) ++ "/1K tokens")%string
              /\ completion (md_pricing e)
                 = ("$" ++ completion (pricing m) ++ "/1K tokens")%string
              /\ (forall d : string,
                     description m = Some d -> d <> EmptyString ->
                     md_description e = d)
              /\ (description m = None \/ description m = Some EmptyString ->
                  md_description e = "No description available"%string))
           first (sr_data r).
Proof.
  intros parseFloat W R apiClient modelCache args w w' ms k E Hk filtered
    first.
  exists (searchResponse parseFloat args ms (dateNow w')).
  assert (selected parseFloat args ms = first) as Hsel.
  { unfold selected, first. fold filtered.
    destruct Hk as [[Hl ->] | [[Hl ->] | [z [Hl [Hz ->]]]]].
    - rewrite effectiveLimit_default by now left.
      now rewrite slice0_positive by lia.
    - rewrite effectiveLimit_default by now right.
      now rewrite slice0_positive by lia.
    - rewrite (effectiveLimit_positive args z Hl Hz).
      now rewrite slice0_positive by lia. }
  assert (sr_data (searchResponse parseFloat args ms (dateNow w'))
          = map describe first) as Hdata.
  { simpl. unfold searchResults. now rewrite Hsel. }
  split; [| split; [| split; [| split]]].
  - now rewrite (handleSearchModels_acquired parseFloat args _ _ w w' ms E).
  - exact Hdata.
  - rewrite Hdata, length_map. unfold first. rewrite length_firstn. lia.
  - rewrite Hdata, map_map. apply map_ext. intros m. reflexivity.
  - rewrite Hdata. apply Forall2_map_right.
    intros m _. apply describe_fields.
Qed.

Lemma search_returns_first_k_witness :
  exists r : SearchResponse,
    fst (handleSearchModels noPrice (limitArgs (Some 2))
           (Cache.apiClient defaultConfig unreachable)
           (Cache.modelCache defaultConfig unreachable)
           (populatedWorld threeModels 5))
    = successResult (JsonSearch r)
    /\ length (sr_data r) = 2%nat
    /\ map md_id (sr_data r)
       = ["openai/gpt-4"%string; "anthropic/claude-3"%string].
Proof.
  destruct (search_returns_first_k noPrice World WorldRuntime
              (Cache.apiClient defaultConfig unreachable)
              (Cache.modelCache defaultConfig unreachable)
              (limitArgs (Some 2))
              (populatedWorld threeModels 5) (populatedWorld threeModels 5)
              {| data := threeModels; timestamp := Some 0 |} 2%nat)
    as [r [Hrun [_ [Hlength [Hids _]]]]].
  - reflexivity.
  - right. right. exists 2. split; [reflexivity | split; [lia | reflexivity]].
  - exists r. split; [exact Hrun | split].
    + rewrite Hlength. reflexivity.
    + rewrite Hids. reflexivity.
Defined.

(** A limit above 50 is honoured as it is: 51 models for a limit of 51. *)
Example limit_above_fifty_not_clamped :
  length (searchResults noPrice (limitArgs (Some 51))
            {| data := repeat (sampleModel "openai/gpt-4") 60;
               timestamp := None |}) = 51%nat.
Proof. vm_compute. reflexivity. Qed.

(** A negative limit is handed to [slice] as it is and counts from the
    end. *)
Example negative_limit_counts_from_end :
  map md_id (searchResults noPrice (limitArgs (Some (-1)))
               {| data := threeModels; timestamp := None |})
  = ["openai/gpt-4"%string; "anthropic/claude-3"%string].
Proof. vm_compute. reflexivity. Qed.

(** ** chat_completion: the system message survives truncation *)

Lemma indexFrom_messages (from : nat) (messages : list Chat.Message) :
  map snd (Chat.indexFrom from messages) = messages.
Proof.
  revert from. induction messages as [| m rest IH]; intros from; simpl.
  - reflexivity.
  - now rewrite IH.
Qed.

Lemma indexFrom_positive (from : nat) (messages : list Chat.Message) :
  Forall (fun e : Chat.Indexed => fst e <> 0%nat)
    (Chat.indexFrom (S from) messages).
Proof.
  revert from. induction messages as [| m rest IH]; intros from; simpl.
  - constructor.
  - constructor; [simpl; lia | apply IH].
Qed.

(** The loop over the entries after the system message: it keeps a run of
    them, taken from the end of the conversation, in front of what it
    already holds, and passes over the system message. *)
Lemma backwards_after_system (maxTokens : Z) (m0 : Chat.Message)
  (later : list Chat.Indexed) :
  Forall (fun e : Chat.Indexed => fst e <> 0%nat) later ->
  forall (truncated : list Chat.Indexed) (currentTokenCount : Z),
  exists taken skipped : list Chat.Indexed,
    later = taken ++ skipped
    /\ Chat.backwards true maxTokens (later ++ [(0%nat, m0)]) truncated
         currentTokenCount
       = rev taken ++ truncated.
Proof.
  induction 1 as [| [i m] later Hi Hlater IH]; intros truncated cur.
  - exists [], []. split; reflexivity.
  - simpl in Hi. simpl.
    assert (Nat.eqb i 0 = false) as -> by now apply Nat.eqb_neq.
    simpl.
    destruct (cur + Chat.estimateTokenCount (Chat.contentString (Chat.content m))
              >? maxTokens).
    + exists [], ((i, m) :: later). split; reflexivity.
    + destruct (IH ((i, m) :: truncated)
                  (cur + Chat.estimateTokenCount
                           (Chat.contentString (Chat.content m))))
        as [taken [skipped [Hsplit Hrun]]].
      exists ((i, m) :: taken), skipped. split.
      * simpl. now rewrite Hsplit.
      * rewrite Hrun. simpl. now rewrite <- app_assoc.
Qed.

Lemma count_occ_zero_absent (indices : list nat) :
  Forall (fun i => i <> 0%nat) indices ->
  count_occ Nat.eq_dec indices 0%nat = 0%nat.
Proof.
  intros Hall. apply count_occ_not_In. intros Hin.
  rewrite Forall_forall in Hall. now apply (Hall 0%nat Hin).
Qed.

(** With a system message in front, the call is the loop run on the later
    messages with the system message already held. *)
Lemma truncateIndexed_system (m0 : Chat.Message) (rest : list Chat.Message)
  (maxTokens : Z) :
  Chat.role m0 = "system"%string ->
  Chat.truncateIndexed (m0 :: rest) maxTokens
  = match Chat.estimateSystem (Chat.content m0) with
    | Returned tokens =>
        Returned
          (Chat.backwards true maxTokens
             (rev (Chat.indexFrom 1 rest) ++ [(0%nat, m0)])
             [(0%nat, m0)] tokens)
    | Threw e => Threw e
    end.
Proof.
  intros Hrole. unfold Chat.truncateIndexed. now rewrite Hrole.
Qed.

(** C10: when the first message has role ['system'], whatever [maxTokens]
    is, the list [truncateMessagesToFit] returns holds that message (the
    entry of index 0) exactly once, also when its own estimate exceeds
    [maxTokens]; the others it holds are a run of messages from the end of
    the conversation.  The call returns whenever the content of the system
    message is a string or an array of parts. *)
Theorem system_message_kept_once :
  forall (m0 : Chat.Message) (rest : list Chat.Message) (maxTokens : Z),
    Chat.role m0 = "system"%string ->
    (Chat.content m0 <> Chat.Nothing ->
     exists kept : list Chat.Indexed,
       Chat.truncateIndexed (m0 :: rest) maxTokens = Returned kept)
    /\ forall kept : list Chat.Indexed,
        Chat.truncateIndexed (m0 :: rest) maxTokens = Returned kept ->
        Chat.truncateMessagesToFit (m0 :: rest) maxTokens
        = Returned (map snd kept)
        /\ count_occ Nat.eq_dec (map fst kept) 0%nat = 1%nat
        /\ In (0%nat, m0) kept
        /\ exists dropped tail : list Chat.Message,
            rest = dropped ++ tail /\ map snd kept = tail ++ [m0].
Proof.
  intros m0 rest maxTokens Hrole.
  unfold Chat.truncateMessagesToFit.
  rewrite (truncateIndexed_system m0 rest maxTokens Hrole).
  split.
  - intros Hcontent.
    destruct (Chat.content m0) as [s | parts |]; simpl;
      [eexists; reflexivity | eexists; reflexivity | contradiction].
  - intros kept Hkept.
    destruct (Chat.estimateSystem (Chat.content m0)) as [tokens | e];
      [| discriminate].
    destruct (backwards_after_system maxTokens m0
                (rev (Chat.indexFrom 1 rest))
                (Forall_rev (indexFrom_positive 0 rest))
                [(0%nat, m0)] tokens)
      as [taken [skipped [Hsplit Hrun]]].
    rewrite Hrun in Hkept. injection Hkept as Hkept. subst kept.
    assert (Chat.indexFrom 1 rest = rev skipped ++ rev taken) as Hrest.
    { rewrite <- rev_app_distr, <- Hsplit. now rewrite rev_involutive. }
    assert (Forall (fun e : Chat.Indexed => fst e <> 0%nat) (rev taken))
      as Htaken.
    { pose proof (indexFrom_positive 0 rest) as Hall.
      rewrite Hrest in Hall. now apply Forall_app in Hall. }
    split; [simpl; now rewrite Hrun | split; [| split]].
    + rewrite map_app, count_occ_app. simpl.
      rewrite count_occ_zero_absent; [reflexivity |].
      rewrite Forall_map. exact Htaken.
    + apply in_or_app. right. now left.
    + exists (map snd (rev skipped)), (map snd (rev taken)). split.
      * transitivity (map snd (Chat.indexFrom 1 rest)).
        -- symmetry. apply indexFrom_messages.
        -- rewrite Hrest. apply map_app.
      * now rewrite map_app.
Qed.

Lemma system_message_kept_once_witness :
  (Chat.content systemPrompt <> Chat.Nothing ->
   exists kept : list Chat.Indexed,
     Chat.truncateIndexed [systemPrompt; userHello; userHello] 3
     = Returned kept)
  /\ forall kept : list Chat.Indexed,
      Chat.truncateIndexed [systemPrompt; userHello; userHello] 3
      = Returned kept ->
      Chat.truncateMessagesToFit [systemPrompt; userHello; userHello] 3
      = Returned (map snd kept)
      /\ count_occ Nat.eq_dec (map fst kept) 0%nat = 1%nat
      /\ In (0%nat, systemPrompt) kept
      /\ exists dropped tail : list Chat.Message,
          [userHello; userHello] = dropped ++ tail
          /\ map snd kept = tail ++ [systemPrompt].
Proof.
  apply (system_message_kept_once systemPrompt [userHello; userHello] 3).
  reflexivity.
Defined.

(** The system message alone is over the budget of 3 tokens, and is kept;
    nothing else is. *)
Example system_message_over_budget :
  Chat.estimateSystem (Chat.content systemPrompt) = Returned 7
  /\ Chat.truncateMessagesToFit [systemPrompt; userHello; userHello] 3
     = Returned [systemPrompt].
Proof. split; reflexivity. Qed.

(** With room to spare the later messages are put in front of the system
    message, which ends up last. *)
Example system_message_ends_last :
  Chat.truncateMessagesToFit [systemPrompt; userHello] Chat.MAX_CONTEXT_TOKENS
  = Returned [userHello; systemPrompt].
Proof. reflexivity. Qed.

(** ** The model cache: lookups and validity *)

Lemma lookup_exact (wanted : string) (models : list OpenRouterModel)
  (d : OpenRouterModel) :
  Cache.lookup wanted models = Some d -> In d models /\ id d = wanted.
Proof.
  intros E. unfold Cache.lookup in E. apply find_some in E.
  destruct E as [Hin Heq]. split; [assumption |].
  now apply String.eqb_eq.
Qed.

Lemma getModelInfo_exact (cfg : Config) (up : Registry.Upstream)
  (wanted : string) (w : World) (d : OpenRouterModel) :
  fst (Cache.getModelInfo cfg up wanted w) = inr (Some d) -> id d = wanted.
Proof.
  unfold Cache.getModelInfo.
  destruct (Cache.current cfg w) as [s |].
  - simpl. intros E. injection E as E. now apply lookup_exact in E.
  - destruct (Registry.fetchModels cfg up w) as [[e | s] w']; simpl.
    + discriminate.
    + intros E. injection E as E. now apply lookup_exact in E.
Qed.

Lemma validateModel_getModelInfo (cfg : Config) (up : Registry.Upstream)
  (wanted : string) (w : World) :
  Cache.validateModel cfg up wanted w
  = (match fst (Cache.getModelInfo cfg up wanted w) with
     | inr o => inr (Cache.present o)
     | inl e => inl e
     end,
     snd (Cache.getModelInfo cfg up wanted w)).
Proof.
  unfold Cache.validateModel.
  destruct (Cache.getModelInfo cfg up wanted w) as [[e | o] w']; reflexivity.
Qed.

(** The handler of validate_model, against any cache. *)
Lemma handleValidateModel_isError {W : Type} (wanted : string)
  (modelCache : ModelCache W) (w : W) :
  isError (fst (handleValidateModel wanted modelCache w))
  = match fst (validateModel modelCache wanted w) with
    | Returned true => false
    | _ => true
    end.
Proof.
  unfold handleValidateModel, tryCatch, bind.
  destruct (validateModel modelCache wanted w) as [[[|] | e] w']; reflexivity.
Qed.

(** C1: [validateModel (id)] returns [true] if and only if
    [getModelInfo (id)] returns a descriptor, and that descriptor then has
    exactly that id; the two calls leave the cache and the client in the
    same state.  Against any cache, [handleValidateModel] returns a result
    that is not an error exactly when [validateModel] of that cache returns
    [true], and an [isError] result otherwise, a rejected call included. *)
Theorem validate_model_iff_info :
  forall (cfg : Config) (up : Registry.Upstream) (wanted : string) (w : World),
    (fst (Cache.validateModel cfg up wanted w) = inr true
     <-> exists d : OpenRouterModel,
          fst (Cache.getModelInfo cfg up wanted w) = inr (Some d)
          /\ id d = wanted)
    /\ snd (Cache.validateModel cfg up wanted w)
       = snd (Cache.getModelInfo cfg up wanted w)
    /\ forall (W : Type) (modelCache : ModelCache W) (w0 : W),
        (isError (fst (handleValidateModel wanted modelCache w0)) = false
         <-> fst (validateModel modelCache wanted w0) = Returned true)
        /\ (isError (fst (handleValidateModel wanted modelCache w0)) = true
            <-> fst (validateModel modelCache wanted w0) <> Returned true).
Proof.
  intros cfg up wanted w. split; [| split].
  - rewrite validateModel_getModelInfo. simpl.
    pose proof (getModelInfo_exact cfg up wanted w) as Hexact.
    destruct (fst (Cache.getModelInfo cfg up wanted w)) as [e | [d |]];
      simpl; split.
    + discriminate.
    + intros [d [E _]]. discriminate E.
    + intros _. exists d. split; [reflexivity | now apply Hexact].
    + reflexivity.
    + discriminate.
    + intros [d [E _]]. discriminate E.
  - now rewrite validateModel_getModelInfo.
  - intros W modelCache w0.
    rewrite handleValidateModel_isError.
    destruct (fst (validateModel modelCache wanted w0)) as [[|] | e];
      split; split; intros E; try reflexivity; try discriminate E;
      try congruence.
Qed.

(** The handler run on the cache itself. *)
Example handleValidateModel_on_cache :
  fst (handleValidateModel "openai/gpt-4"
         (Cache.modelCache defaultConfig unreachable)
         (populatedWorld threeModels 5))
  = successResult (JsonValidate (ValidModel "openai/gpt-4"))
  /\ fst (handleValidateModel "OpenAI/GPT-4"
            (Cache.modelCache defaultConfig unreachable)
            (populatedWorld threeModels 5))
     = errorResult "Error: Model not found: OpenAI/GPT-4"
  /\ fst (handleValidateModel "openai/gpt-4"
            (Cache.modelCache defaultConfig unreachable)
            (initialWorld 5))
     = errorResult "Error: Failed to validate model: upstream unavailable".
Proof. repeat split. Qed.

(** ** The model cache: freshness *)

Lemma getCachedModels_pure (cfg : Config) (w : World) :
  snd (Cache.getCachedModels cfg w) = w.
Proof. reflexivity. Qed.

(** A stretch without writes leaves everything but the clock alone. *)
Lemma quietly_frame (cfg : Config) (qs : list Cache.Quiet) (w : World) :
  snapshot (Cache.quietly cfg w qs) = snapshot w
  /\ fetches (Cache.quietly cfg w qs) = fetches w
  /\ requests (Cache.quietly cfg w qs) = requests w
  /\ rate (Cache.quietly cfg w qs) = rate w.
Proof.
  revert w. induction qs as [| q qs IH]; intros w.
  - repeat split.
  - unfold Cache.quietly in *. simpl.
    destruct (IH (Cache.quietStep cfg w q)) as [Hs [Hf [Hr Hl]]].
    rewrite Hs, Hf, Hr, Hl. destruct q; repeat split.
Qed.


Lemma getCachedModels_after_install (cfg : Config) (models : ModelsResponse)
  (w : World) (qs : list Cache.Quiet) :
  fst (Cache.getCachedModels cfg
         (Cache.quietly cfg (Cache.setCachedModels models w) qs))
  = if Cache.isFresh cfg
         (clock (Cache.quietly cfg (Cache.setCachedModels models w) qs))
         (Cache.installed models (clock w))
    then Some (withTimestamp models
                 (fetched_at (Cache.installed models (clock w))))
    else None.
Proof.
  unfold Cache.getCachedModels, Cache.current. simpl fst.
  destruct (quietly_frame cfg qs (Cache.setCachedModels models w))
    as [Hs _].
  rewrite Hs. simpl snapshot. cbv beta iota.
  match goal with
  | |- context [Cache.isFresh ?c ?now ?s] => destruct (Cache.isFresh c now s)
  end; reflexivity.
Qed.


(** A snapshot given without a time does not come back as it was given
    either: it comes back with the time of the install. *)
Example round_trip_adds_install_time :
  fst (Cache.getCachedModels defaultConfig
         (Cache.quietly defaultConfig
            (Cache.setCachedModels
               {| data := threeModels; timestamp := None |}
               (initialWorld 1000))
            [Cache.Elapse 60000]))
  = Some {| data := threeModels; timestamp := Some 1000 |}.
Proof. reflexivity. Qed.



(** C3: once the time elapsed since the install (the time the install
    recorded, which is the time of the install itself unless the snapshot
    provided another) exceeds the freshness threshold, [getCachedModels ()]
    returns nothing, with no write in between; and [getCachedModels] leaves
    the world as it found it, so that it never invokes [fetchModels] nor
    issues a request. *)
Theorem stale_snapshot_is_absent :
  forall (cfg : Config) (S : ModelsResponse) (w : World)
         (qs : list Cache.Quiet),
    let later := Cache.quietly cfg (Cache.setCachedModels S w) qs in
    let t := fetched_at (Cache.installed S (clock w)) in
    (freshnessThreshold cfg < clock later - t ->
     fst (Cache.getCachedModels cfg later) = None)
    /\ (timestamp S = None \/ timestamp S = Some (clock w) -> t = clock w)
    /\ snd (Cache.getCachedModels cfg later) = later
    /\ fetches (snd (Cache.getCachedModels cfg later)) = fetches w
    /\ requests (snd (Cache.getCachedModels cfg later)) = requests w.
Proof.
  intros cfg S w qs later t.
  destruct (quietly_frame cfg qs (Cache.setCachedModels S w))
    as [_ [Hf [Hr _]]].
  split; [| split; [| split; [| split]]].
  - intros Hstale. unfold later. rewrite getCachedModels_after_install.
    unfold Cache.isFresh. fold later. fold t.
    destruct (clock later - t <=? freshnessThreshold cfg) eqn:E;
      [apply Z.leb_le in E; lia | reflexivity].
  - unfold t, Cache.installed. simpl. intros [-> | ->]; reflexivity.
  - apply getCachedModels_pure.
  - rewrite getCachedModels_pure. exact Hf.
  - rewrite getCachedModels_pure. exact Hr.
Qed.

Lemma stale_snapshot_is_absent_witness :
  fst (Cache.getCachedModels defaultConfig
         (Cache.quietly defaultConfig
            (Cache.setCachedModels sampleSnapshot (initialWorld 1000))
            [Cache.Elapse 3600000; Cache.Read; Cache.Elapse 1]))
  = None.
Proof.
  apply (stale_snapshot_is_absent defaultConfig sampleSnapshot
           (initialWorld 1000)
           [Cache.Elapse 3600000; Cache.Read; Cache.Elapse 1]).
  vm_compute. reflexivity.
Defined.

(** ** The registry client: attempts, waits and parsing *)

Lemma attemptFrom_success (cfg : Config) (up : Registry.Upstream)
  (left k : nat) (w : World) (h : Registry.Headers)
  (body : list Registry.RawEntry) :
  up (requests w) = Registry.Success h body ->
  Registry.attemptFrom cfg up (S left) k w
  = (inr (Registry.parseBody body),
     warn (Registry.malformed body)
       (Registry.observe (Registry.Success h body) (countRequest w))).
Proof. intros E. simpl. now rewrite E. Qed.

Lemma attemptFrom_transport (cfg : Config) (up : Registry.Upstream)
  (left k : nat) (w : World) :
  up (requests w) = Registry.TransportError ->
  Registry.attemptFrom cfg up (S (S left)) k w
  = Registry.attemptFrom cfg up (S left) (S k)
      (Registry.sleep (Registry.backoff cfg k) (countRequest w)).
Proof.
  intros E. change (Registry.attemptFrom cfg up (S (S left)) k w)
    with (let resp := up (requests w) in
          let w1 := Registry.observe resp (countRequest w) in
          match resp with
          | Registry.Success _ body =>
              (inr (Registry.parseBody body),
               warn (Registry.malformed body) w1)
          | _ =>
              Registry.attemptFrom cfg up (S left) (S k)
                (Registry.sleep
                   (Registry.retryDelay cfg k resp (clock w1)) w1)
          end).
  cbv zeta. now rewrite E.
Qed.

(** The attempts never touch the snapshot nor the count of [fetchModels]
    calls. *)
Lemma attemptFrom_frame (cfg : Config) (up : Registry.Upstream)
  (left : nat) :
  forall (k : nat) (w : World),
    snapshot (snd (Registry.attemptFrom cfg up left k w)) = snapshot w
    /\ fetches (snd (Registry.attemptFrom cfg up left k w)) = fetches w.
Proof.
  induction left as [| left IH]; intros k w.
  - split; reflexivity.
  - simpl.
    destruct (up (requests w)) as [| h | h | h body];
      try (destruct left as [| left'];
           [split; reflexivity
           | match goal with
             | |- context [Registry.attemptFrom cfg up (S left') (S k) ?w1] =>
                 destruct (IH (S k) w1) as [Hs Hf]; rewrite Hs, Hf;
                 split; reflexivity
             end]).
    split; reflexivity.
Qed.

Lemma complete_frame (cfg : Config) (up : Registry.Upstream) (w : World) :
  snapshot (snd (Registry.complete cfg up w)) = snapshot w
  /\ fetches (snd (Registry.complete cfg up w)) = fetches w.
Proof.
  unfold Registry.complete.
  pose proof (attemptFrom_frame cfg up (maxAttempts cfg) 0
                (setClock (clock w + Registry.preemptiveDelay w) w))
    as [Hs Hf].
  destruct (Registry.attemptFrom cfg up (maxAttempts cfg) 0
              (setClock (clock w + Registry.preemptiveDelay w) w))
    as [[e | models] w']; simpl in *; split; assumption.
Qed.

Lemma backoff_values (cfg : Config) :
  Registry.backoff cfg 0 = Z.min (initialDelay cfg) (maxDelay cfg)
  /\ Registry.backoff cfg 1 = Z.min (2 * initialDelay cfg) (maxDelay cfg)
  /\ Registry.backoff cfg 2 = Z.min (4 * initialDelay cfg) (maxDelay cfg)
  /\ Registry.backoff cfg 3 = Z.min (8 * initialDelay cfg) (maxDelay cfg).
Proof.
  unfold Registry.backoff.
  change (2 ^ Z.of_nat 0) with 1. change (2 ^ Z.of_nat 1) with 2.
  change (2 ^ Z.of_nat 2) with 4. change (2 ^ Z.of_nat 3) with 8.
  repeat split; f_equal; lia.
Qed.

(** After a 429 that carries a reset time, the next attempt is not issued
    before that time, whatever the exponential schedule says. *)
Lemma retryDelay_honours_reset (cfg : Config) (k : nat)
  (h : Registry.Headers) (t now : Z) :
  Registry.h_reset h = Some t ->
  t <= now + Registry.retryDelay cfg k (Registry.RateLimited h) now
  /\ Registry.backoff cfg k
     <= Registry.retryDelay cfg k (Registry.RateLimited h) now.
Proof.
  intros Hreset. unfold Registry.retryDelay. rewrite Hreset. lia.
Qed.

(** Four transport errors and then a success, within the budget: what the
    attempts return and the world they leave. *)
Lemma attemptFrom_fifth_succeeds (cfg : Config) (up : Registry.Upstream)
  (spare : nat) (w : World) (h : Registry.Headers)
  (body : list Registry.RawEntry) :
  (forall i : nat, (i < 4)%nat ->
                   up (requests w + i)%nat = Registry.TransportError) ->
  up (requests w + 4)%nat = Registry.Success h body ->
  exists w' : World,
    Registry.attemptFrom cfg up (5 + spare) 0 w
    = (inr (Registry.parseBody body), w')
    /\ waits w'
       = waits w ++ [Registry.backoff cfg 0; Registry.backoff cfg 1;
                     Registry.backoff cfg 2; Registry.backoff cfg 3]
    /\ requests w' = (requests w + 5)%nat
    /\ clock w'
       = clock w + Registry.backoff cfg 0 + Registry.backoff cfg 1
         + Registry.backoff cfg 2 + Registry.backoff cfg 3
    /\ snapshot w' = snapshot w
    /\ fetches w' = fetches w
    /\ warnings w' = (Registry.malformed body + warnings w)%nat.
Proof.
  intros Hfail Hok.
  set (w1 := Registry.sleep (Registry.backoff cfg 0) (countRequest w)).
  set (w2 := Registry.sleep (Registry.backoff cfg 1) (countRequest w1)).
  set (w3 := Registry.sleep (Registry.backoff cfg 2) (countRequest w2)).
  set (w4 := Registry.sleep (Registry.backoff cfg 3) (countRequest w3)).
  assert (up (requests w) = Registry.TransportError) as H0.
  { rewrite <- (Hfail 0%nat) by lia. f_equal. lia. }
  assert (up (requests w1) = Registry.TransportError) as H1.
  { rewrite <- (Hfail 1%nat) by lia. f_equal. simpl. lia. }
  assert (up (requests w2) = Registry.TransportError) as H2.
  { rewrite <- (Hfail 2%nat) by lia. f_equal. simpl. lia. }
  assert (up (requests w3) = Registry.TransportError) as H3.
  { rewrite <- (Hfail 3%nat) by lia. f_equal. simpl. lia. }
  assert (up (requests w4) = Registry.Success h body) as H4.
  { rewrite <- Hok. f_equal. simpl. lia. }
  eexists. split.
  - change (5 + spare)%nat with (S (S (S (S (S spare))))).
    rewrite (attemptFrom_transport cfg up _ 0 w H0). fold w1.
    rewrite (attemptFrom_transport cfg up _ 1 w1 H1). fold w2.
    rewrite (attemptFrom_transport cfg up _ 2 w2 H2). fold w3.
    rewrite (attemptFrom_transport cfg up _ 3 w3 H3). fold w4.
    rewrite (attemptFrom_success cfg up _ 4 w4 h body H4). reflexivity.
  - simpl. repeat split; try lia.
    now rewrite <- !app_assoc.
Qed.

(** The same, for a whole [fetchModels] call. *)
Lemma fetchModels_fifth_succeeds (cfg : Config) (up : Registry.Upstream)
  (w : World) (h : Registry.Headers) (body : list Registry.RawEntry) :
  (5 <= maxAttempts cfg)%nat ->
  (forall i : nat, (i < 4)%nat ->
                   up (requests w + i)%nat = Registry.TransportError) ->
  up (requests w + 4)%nat = Registry.Success h body ->
  exists w' : World,
    Registry.fetchModels cfg up w
    = (inr {| entries := Registry.parseBody body; fetched_at := clock w' |},
       w')
    /\ waits w'
       = waits w ++ [Z.min (initialDelay cfg) (maxDelay cfg);
                     Z.min (2 * initialDelay cfg) (maxDelay cfg);
                     Z.min (4 * initialDelay cfg) (maxDelay cfg);
                     Z.min (8 * initialDelay cfg) (maxDelay cfg)]
    /\ requests w' = (requests w + 5)%nat
    /\ fetches w' = S (fetches w).
Proof.
  intros Hbudget Hfail Hok.
  destruct (backoff_values cfg) as [B0 [B1 [B2 B3]]].
  unfold Registry.fetchModels, Registry.complete.
  set (w0 := setClock (clock (Registry.invoke w)
                       + Registry.preemptiveDelay (Registry.invoke w))
               (Registry.invoke w)).
  destruct (attemptFrom_fifth_succeeds cfg up (maxAttempts cfg - 5) w0 h body
              Hfail Hok)
    as [w1 [Hrun [Hwaits [Hreq [_ [_ [Hfetch _]]]]]]].
  replace (5 + (maxAttempts cfg - 5))%nat with (maxAttempts cfg) in Hrun
    by lia.
  rewrite Hrun. exists w1.
  rewrite Hwaits, Hreq, Hfetch, B0, B1, B2, B3.
  repeat split.
Qed.

(** C5: when the first four attempts of the fetch fail with transport
    errors and the fifth succeeds, the waits between the attempts are the
    exponential schedule d0, 2 d0, 4 d0, 8 d0, each clamped at the maximum
    delay, and the cache ends up holding the snapshot parsed from the
    successful response, stamped with the time the fetch completed.  This
    holds for the refresh of [getModelInfo] and for the fetch-on-miss of
    search_models alike. *)
Theorem backoff_schedule_then_populated :
  forall (cfg : Config) (up : Registry.Upstream) (w : World)
         (h : Registry.Headers) (body : list Registry.RawEntry)
         (wanted : string),
    (5 <= maxAttempts cfg)%nat ->
    Cache.current cfg w = None ->
    (forall i : nat, (i < 4)%nat ->
                     up (requests w + i)%nat = Registry.TransportError) ->
    up (requests w + 4)%nat = Registry.Success h body ->
    let d0 := initialDelay cfg in
    let cap := maxDelay cfg in
    let schedule :=
      [Z.min d0 cap; Z.min (2 * d0) cap; Z.min (4 * d0) cap;
       Z.min (8 * d0) cap] in
    let w' := snd (Cache.getModelInfo cfg up wanted w) in
    let w'' :=
      snd (acquireModels (Cache.apiClient cfg up) (Cache.modelCache cfg up) w)
    in
    (waits w' = waits w ++ schedule
     /\ snapshot w'
        = Some {| entries := Registry.parseBody body;
                  fetched_at := clock w' |}
     /\ fst (Cache.getModelInfo cfg up wanted w)
        = inr (Cache.lookup wanted (Registry.parseBody body))
     /\ fetches w' = S (fetches w)
     /\ requests w' = (requests w + 5)%nat
     /\ (0 <= freshnessThreshold cfg ->
         fst (Cache.getCachedModels cfg w')
         = Some {| data := Registry.parseBody body;
                   timestamp := Some (clock w') |}))
    /\ (waits w'' = waits w ++ schedule
        /\ snapshot w''
           = Some {| entries := Registry.parseBody body;
                     fetched_at := clock w'' |}
        /\ fetches w'' = S (fetches w)
        /\ requests w'' = (requests w + 5)%nat).
Proof.
  intros cfg up w h body wanted Hbudget Hstale Hfail Hok d0 cap schedule.
  destruct (fetchModels_fifth_succeeds cfg up w h body Hbudget Hfail Hok)
    as [w1 [Hrun [Hwaits [Hreq Hfetch]]]].
  fold d0 cap in Hwaits. fold schedule in Hwaits.
  split.
  - unfold Cache.getModelInfo. rewrite Hstale, Hrun. simpl.
    repeat split; try assumption.
    intros Hthreshold.
    unfold Cache.current. simpl. unfold Cache.isFresh. simpl.
    assert ((clock w1 - clock w1 <=? freshnessThreshold cfg) = true) as ->
        by (apply Z.leb_le; lia).
    reflexivity.
  - rewrite (acquireModels_caches_fetch cfg up w w1 _ Hstale Hrun). simpl.
    repeat split; assumption.
Qed.

Lemma backoff_schedule_then_populated_witness :
  waits (snd (Cache.getModelInfo defaultConfig
                (fifthTimeLucky [rawSample (Some "openai/gpt-4"%string)])
                "openai/gpt-4" (initialWorld 0)))
  = [1000; 2000; 4000; 8000]
  /\ snapshot (snd (Cache.getModelInfo defaultConfig
                      (fifthTimeLucky [rawSample (Some "openai/gpt-4"%string)])
                      "openai/gpt-4" (initialWorld 0)))
     = Some {| entries := [sampleModel "openai/gpt-4"]; fetched_at := 15000 |}.
Proof.
  destruct (backoff_schedule_then_populated defaultConfig
              (fifthTimeLucky [rawSample (Some "openai/gpt-4"%string)])
              (initialWorld 0)
              {| Registry.h_remaining := None; Registry.h_reset := None |}
              [rawSample (Some "openai/gpt-4"%string)]
              "openai/gpt-4")
    as [[Hwaits [Hsnapshot _]] _].
  - simpl. lia.
  - reflexivity.
  - intros i Hi. simpl.
    destruct i as [| [| [| [| i]]]]; try reflexivity. lia.
  - reflexivity.
  - split.
    + exact Hwaits.
    + rewrite Hsnapshot. reflexivity.
Defined.

(** ** The registry client: malformed entries *)









(** ** Concurrent callers: one refresh in flight *)

Lemma asked_length (schedule : list SingleFlight.Event) :
  length (SingleFlight.asked schedule) = SingleFlight.calls schedule.
Proof.
  unfold SingleFlight.calls.
  induction schedule as [| [wanted | | d] rest IH]; simpl; congruence.
Qed.

Lemma current_empty (cfg : Config) (w : World) :
  snapshot w = None -> Cache.current cfg w = None.
Proof. intros E. unfold Cache.current. now rewrite E. Qed.

(** A call that finds the cache empty attaches to the refresh in flight, and
    starts it when there is none. *)
Lemma step_call_empty (cfg : Config) (up : Registry.Upstream)
  (s : SingleFlight.System) (wanted : string) :
  snapshot (SingleFlight.world s) = None ->
  SingleFlight.step cfg up s (SingleFlight.Call wanted)
  = {| SingleFlight.world :=
         if SingleFlight.inflight s then SingleFlight.world s
         else Registry.invoke (SingleFlight.world s);
       SingleFlight.inflight := true;
       SingleFlight.callers :=
         SingleFlight.callers s ++ [SingleFlight.Awaiting wanted] |}.
Proof.
  intros Hempty. simpl. rewrite (current_empty cfg _ Hempty).
  destruct (SingleFlight.inflight s); reflexivity.
Qed.

(** While no refresh completes, an empty cache stays empty, every caller
    waits, and [fetchModels] is invoked by the first caller only. *)
Lemma run_before_settle (cfg : Config) (up : Registry.Upstream)
  (schedule : list SingleFlight.Event) :
  forallb (fun e => negb (SingleFlight.isSettle e)) schedule = true ->
  forall s : SingleFlight.System,
    snapshot (SingleFlight.world s) = None ->
    let s' := SingleFlight.run cfg up s schedule in
    snapshot (SingleFlight.world s') = None
    /\ SingleFlight.callers s'
       = SingleFlight.callers s
           ++ map SingleFlight.Awaiting (SingleFlight.asked schedule)
    /\ SingleFlight.inflight s'
       = SingleFlight.inflight s
         || negb (Nat.eqb (SingleFlight.calls schedule) 0)
    /\ fetches (SingleFlight.world s')
       = (fetches (SingleFlight.world s)
          + if SingleFlight.inflight s then 0
            else if Nat.eqb (SingleFlight.calls schedule) 0 then 0 else 1)%nat.
Proof.
  induction schedule as [| e rest IH]; intros Hquiet s Hempty.
  - simpl. rewrite app_nil_r, orb_false_r.
    repeat split; try assumption.
    destruct (SingleFlight.inflight s); lia.
  - simpl in Hquiet. apply andb_prop in Hquiet. destruct Hquiet as [He Hrest].
    specialize (IH Hrest).
    change (SingleFlight.run cfg up s (e :: rest))
      with (SingleFlight.run cfg up (SingleFlight.step cfg up s e) rest).
    cbv zeta in IH |- *.
    destruct e as [wanted | | d]; [| discriminate He |].
    + rewrite (step_call_empty cfg up s wanted Hempty).
      match goal with
      | |- context [SingleFlight.run cfg up ?s1 rest] =>
          assert (snapshot (SingleFlight.world s1) = None) as Hempty1
            by (simpl; destruct (SingleFlight.inflight s); assumption);
          destruct (IH s1 Hempty1) as [H1 [H2 [H3 H4]]]
      end.
      rewrite H1, H2, H3, H4. simpl.
      rewrite <- app_assoc, orb_true_r.
      repeat split.
      destruct (SingleFlight.inflight s); simpl; lia.
    + match goal with
      | |- context [SingleFlight.run cfg up ?s1 rest] =>
          destruct (IH s1 Hempty) as [H1 [H2 [H3 H4]]]
      end.
      rewrite H1, H2, H3, H4. repeat split.
Qed.

(** Completion of the refresh does not invoke [fetchModels]. *)
Lemma settle_fetches (cfg : Config) (up : Registry.Upstream)
  (s : SingleFlight.System) :
  fetches (SingleFlight.world (SingleFlight.step cfg up s SingleFlight.Settle))
  = fetches (SingleFlight.world s).
Proof.
  simpl. destruct (SingleFlight.inflight s); [| reflexivity].
  destruct (complete_frame cfg up (SingleFlight.world s)) as [_ Hf].
  destruct (Registry.complete cfg up (SingleFlight.world s))
    as [[e | snap] w']; simpl in *; exact Hf.
Qed.

(** Whatever the schedule, [fetchModels] is invoked at most once more than
    refreshes have completed: there is never a second refresh in flight. *)
Lemma one_refresh_in_flight (cfg : Config) (up : Registry.Upstream)
  (schedule : list SingleFlight.Event) :
  forall s : SingleFlight.System,
    (fetches (SingleFlight.world (SingleFlight.run cfg up s schedule))
     <= fetches (SingleFlight.world s) + SingleFlight.settles schedule
        + if SingleFlight.inflight s then 0 else 1)%nat.
Proof.
  unfold SingleFlight.settles.
  induction schedule as [| e rest IH]; intros s.
  - simpl. lia.
  - change (SingleFlight.run cfg up s (e :: rest))
      with (SingleFlight.run cfg up (SingleFlight.step cfg up s e) rest).
    specialize (IH (SingleFlight.step cfg up s e)).
    destruct e as [wanted | | d].
    + simpl filter. simpl in IH |- *.
      destruct (Cache.current cfg (SingleFlight.world s));
        [simpl in IH; lia |].
      destruct (SingleFlight.inflight s); simpl in IH; lia.
    + pose proof (settle_fetches cfg up s) as Hf.
      simpl filter. simpl length.
      destruct (SingleFlight.inflight (SingleFlight.step cfg up s
                                         SingleFlight.Settle));
        destruct (SingleFlight.inflight s); lia.
    + simpl filter. simpl in IH |- *. exact IH.
Qed.

(** C4: for every number N of calls of [getModelInfo] that arrive at an
    empty cache before the refresh completes, in any order and at any
    times, [fetchModels] is invoked at most once (once when N is positive),
    and when the refresh completes all N calls are served the same outcome
    of that one refresh: the same snapshot, which is then the one the cache
    holds, or the same failure. *)
Theorem single_flight_refresh :
  forall (cfg : Config) (up : Registry.Upstream) (w : World)
         (schedule : list SingleFlight.Event),
    snapshot w = None ->
    forallb (fun e => negb (SingleFlight.isSettle e)) schedule = true ->
    let N := SingleFlight.calls schedule in
    let before := SingleFlight.run cfg up (SingleFlight.idle w) schedule in
    let after := SingleFlight.step cfg up before SingleFlight.Settle in
    (fetches (SingleFlight.world after) <= S (fetches w))%nat
    /\ fetches (SingleFlight.world after)
       = (fetches w + if Nat.eqb N 0 then 0 else 1)%nat
    /\ length (SingleFlight.callers after) = N
    /\ exists outcome : Registry.FetchError + CatalogSnapshot,
        SingleFlight.callers after
        = map (fun wanted => SingleFlight.Settled wanted outcome)
            (SingleFlight.asked schedule)
        /\ ((0 < N)%nat ->
            outcome = fst (Registry.complete cfg up (SingleFlight.world before))
            /\ forall snap : CatalogSnapshot,
                outcome = inr snap ->
                snapshot (SingleFlight.world after) = Some snap).
Proof.
  intros cfg up w schedule Hempty Hquiet N before after.
  destruct (run_before_settle cfg up schedule Hquiet (SingleFlight.idle w)
              Hempty) as [_ [Hcallers [Hinflight Hfetches]]].
  fold before in Hcallers, Hinflight, Hfetches. fold N in Hinflight, Hfetches.
  simpl in Hcallers, Hinflight, Hfetches.
  assert (fetches (SingleFlight.world after)
          = (fetches w + if Nat.eqb N 0 then 0 else 1)%nat) as Hcount.
  { unfold after. now rewrite settle_fetches. }
  assert (forall outcome : Registry.FetchError + CatalogSnapshot,
             map (SingleFlight.resume outcome) (SingleFlight.callers before)
             = map (fun wanted => SingleFlight.Settled wanted outcome)
                 (SingleFlight.asked schedule)) as Hresume.
  { intros outcome. rewrite Hcallers, map_map. reflexivity. }
  split; [| split; [exact Hcount | split]].
  - rewrite Hcount. destruct (Nat.eqb N 0); lia.
  - unfold after. simpl.
    destruct (SingleFlight.inflight before).
    + destruct (Registry.complete cfg up (SingleFlight.world before))
        as [[e | snap] w']; simpl;
        now rewrite Hresume, length_map, asked_length.
    + now rewrite Hcallers, length_map, asked_length.
  - unfold after. simpl. rewrite Hinflight.
    destruct (Nat.eqb N 0) eqn:HN; simpl.
    + exists (inl Registry.UpstreamUnavailable). split.
      * apply Nat.eqb_eq in HN. unfold N in HN.
        rewrite <- asked_length in HN.
        rewrite Hcallers.
        destruct (SingleFlight.asked schedule); [reflexivity | discriminate].
      * apply Nat.eqb_eq in HN. lia.
    + destruct (Registry.complete cfg up (SingleFlight.world before))
        as [[e | snap] w'] eqn:Hdone; simpl.
      * exists (inl e). split; [apply Hresume |].
        intros _. split; [reflexivity | discriminate].
      * exists (inr snap). split; [apply Hresume |].
        intros _. split; [reflexivity |].
        intros snap' E. injection E as <-.
        destruct snap as [models t]. reflexivity.
Qed.

Lemma single_flight_refresh_witness :
  (fetches
     (SingleFlight.world
        (SingleFlight.step defaultConfig
           (serving [rawSample (Some "openai/gpt-4"%string)])
           (SingleFlight.run defaultConfig
              (serving [rawSample (Some "openai/gpt-4"%string)])
              (SingleFlight.idle (initialWorld 0)) burst)
           SingleFlight.Settle))
   <= 1)%nat
  /\ length
       (SingleFlight.callers
          (SingleFlight.step defaultConfig
             (serving [rawSample (Some "openai/gpt-4"%string)])
             (SingleFlight.run defaultConfig
                (serving [rawSample (Some "openai/gpt-4"%string)])
                (SingleFlight.idle (initialWorld 0)) burst)
             SingleFlight.Settle))
     = 3%nat.
Proof.
  destruct (single_flight_refresh defaultConfig
              (serving [rawSample (Some "openai/gpt-4"%string)])
              (initialWorld 0) burst)
    as [Hmost [_ [Hlength _]]].
  - reflexivity.
  - reflexivity.
  - split; [exact Hmost | exact Hlength].
Defined.

(** The three calls of the burst, once the refresh has completed: one
    request upstream, and each call answered from the same snapshot. *)
Example burst_answers :
  let after :=
    SingleFlight.run defaultConfig
      (serving [rawSample (Some "openai/gpt-4"%string)])
      (SingleFlight.idle (initialWorld 0)) (burst ++ [SingleFlight.Settle]) in
  requests (SingleFlight.world after) = 1%nat
  /\ fetches (SingleFlight.world after) = 1%nat
  /\ map (fun c => match c with
                   | SingleFlight.Settled wanted outcome =>
                       Some (SingleFlight.answer wanted outcome)
                   | SingleFlight.Awaiting _ => None
                   end) (SingleFlight.callers after)
     = [Some (inr (Some (sampleModel "openai/gpt-4")));
        Some (inr None);
        Some (inr (Some (sampleModel "openai/gpt-4")))].
Proof. repeat split. Qed.

(** * Further properties of the handlers *)

(** ** chat_completion: what truncation keeps *)

Lemma estimateTokenCount_nonneg (s : string) : 0 <= Chat.estimateTokenCount s.
Proof.
  unfold Chat.estimateTokenCount, Chat.ceilQuarter.
  apply Z.div_pos; lia.
Qed.

Lemma totalTokens_nonneg (ms : list Chat.Message) : 0 <= totalTokens ms.
Proof.
  induction ms as [| m ms IH]; simpl; [lia |].
  pose proof (estimateTokenCount_nonneg
                (Chat.contentString (Chat.content m))).
  unfold messageTokens. lia.
Qed.

Lemma totalTokens_app (xs ys : list Chat.Message) :
  totalTokens (xs ++ ys) = totalTokens xs + totalTokens ys.
Proof. induction xs as [| x xs IH]; simpl; lia. Qed.

Lemma totalTokens_rev (xs : list Chat.Message) :
  totalTokens (rev xs) = totalTokens xs.
Proof.
  induction xs as [| x xs IH]; simpl; [reflexivity |].
  rewrite totalTokens_app, IH. simpl. lia.
Qed.

(** The loop with no system message in front: it takes entries while they
    fit, in front of what it holds, and stops at the first that does not. *)
Lemma backwards_plain (maxTokens : Z) (pending : list Chat.Indexed) :
  forall (truncated : list Chat.Indexed) (current : Z),
  exists taken skipped : list Chat.Indexed,
    pending = taken ++ skipped
    /\ Chat.backwards false maxTokens pending truncated current
       = rev taken ++ truncated
    /\ (taken <> [] -> current + totalTokens (map snd taken) <= maxTokens)
    /\ forall (e : Chat.Indexed) (later : list Chat.Indexed),
        skipped = e :: later ->
        maxTokens
        < current + totalTokens (map snd taken) + messageTokens (snd e).
Proof.
  induction pending as [| [i m] pending IH]; intros truncated current.
  - exists [], []. repeat split; try reflexivity; [congruence | discriminate].
  - simpl. rewrite andb_false_r.
    fold (messageTokens m).
    destruct (current + messageTokens m >? maxTokens) eqn:E.
    + exists [], ((i, m) :: pending).
      repeat split; try reflexivity; [congruence |].
      intros e later Heq. injection Heq as <- _. simpl.
      apply Z.gtb_lt in E. lia.
    + destruct (IH ((i, m) :: truncated) (current + messageTokens m))
        as [taken [skipped [Hsplit [Hrun [Hbudget Hstop]]]]].
      exists ((i, m) :: taken), skipped.
      assert (current + messageTokens m <= maxTokens) as Hfits.
      { destruct (Z.gtb_spec (current + messageTokens m) maxTokens);
          [discriminate | lia]. }
      split; [simpl; now rewrite Hsplit | split; [| split]].
      * rewrite Hrun. simpl. now rewrite <- app_assoc.
      * intros _. simpl.
        destruct taken as [| t taken']; [simpl; lia |].
        assert (t :: taken' <> []) as Hne by discriminate.
        specialize (Hbudget Hne). lia.
      * intros e later Heq. specialize (Hstop e later Heq). simpl. lia.
Qed.

(** With a system message in front, the loop is the loop without one, run
    on the entries other than that of index 0. *)
Lemma backwards_skips_index_zero (maxTokens : Z) (pending : list Chat.Indexed) :
  forall (truncated : list Chat.Indexed) (current : Z),
    Chat.backwards true maxTokens pending truncated current
    = Chat.backwards false maxTokens
        (filter (fun e : Chat.Indexed => negb (Nat.eqb (fst e) 0)) pending)
        truncated current.
Proof.
  induction pending as [| [i m] pending IH]; intros truncated current.
  - reflexivity.
  - simpl. destruct (Nat.eqb i 0); simpl.
    + apply IH.
    + rewrite andb_false_r.
      destruct (current
                + Chat.estimateTokenCount (Chat.contentString (Chat.content m))
                >? maxTokens); [reflexivity | apply IH].
Qed.

Lemma filter_positive_indices (later : list Chat.Indexed) (m0 : Chat.Message) :
  Forall (fun e : Chat.Indexed => fst e <> 0%nat) later ->
  filter (fun e : Chat.Indexed => negb (Nat.eqb (fst e) 0))
    (later ++ [(0%nat, m0)])
  = later.
Proof.
  intros Hall. rewrite filter_app. simpl. rewrite app_nil_r.
  induction Hall as [| e later He Hall IH]; simpl; [reflexivity |].
  apply Nat.eqb_neq in He. rewrite He. simpl. now rewrite IH.
Qed.

(** From a split of the visiting order to a split of the conversation. *)
Lemma split_of_reversed (from : nat) (messages : list Chat.Message)
  (taken skipped : list Chat.Indexed) :
  rev (Chat.indexFrom from messages) = taken ++ skipped ->
  messages = map snd (rev skipped) ++ map snd (rev taken)
  /\ totalTokens (map snd (rev taken)) = totalTokens (map snd taken).
Proof.
  intros Hsplit. split.
  - rewrite <- map_app, <- rev_app_distr, <- Hsplit, rev_involutive.
    symmetry. apply indexFrom_messages.
  - now rewrite map_rev, totalTokens_rev.
Qed.

Lemma last_of_reversed (skipped : list Chat.Indexed)
  (before : list Chat.Message) (d : Chat.Message) :
  map snd (rev skipped) = before ++ [d] ->
  exists (e : Chat.Indexed) (later : list Chat.Indexed),
    skipped = e :: later /\ snd e = d.
Proof.
  destruct skipped as [| e later]; simpl.
  - intros Heq. destruct before; discriminate Heq.
  - intros Heq. rewrite map_app in Heq. simpl in Heq.
    apply app_inj_tail in Heq. destruct Heq as [_ Hd].
    exists e, later. now split.
Qed.

(** A non-empty list ends with some element. *)
Lemma ends_with_last {A : Type} (xs : list A) :
  xs <> [] -> exists (before : list A) (d : A), xs = before ++ [d].
Proof.
  intros Hne. destruct (exists_last Hne) as [before [d Heq]].
  now exists before, d.
Qed.

(** X1. Without a system message in front, [truncateMessagesToFit] returns
    the most recent messages, in their order: a suffix of the conversation,
    within the budget unless it is empty, and stopped only by a message that
    would not fit; when the whole conversation fits, nothing is dropped. *)
Theorem truncate_keeps_recent_suffix :
  forall (messages : list Chat.Message) (maxTokens : Z),
    (forall (m0 : Chat.Message) (rest : list Chat.Message),
        messages = m0 :: rest -> Chat.role m0 <> "system"%string) ->
    exists dropped kept : list Chat.Message,
      messages = dropped ++ kept
      /\ Chat.truncateMessagesToFit messages maxTokens = Returned kept
      /\ (kept <> [] -> totalTokens kept <= maxTokens)
      /\ (forall (before : list Chat.Message) (d : Chat.Message),
             dropped = before ++ [d] ->
             maxTokens < totalTokens kept + messageTokens d)
      /\ (totalTokens messages <= maxTokens -> dropped = []).
Proof.
  intros messages maxTokens Hplain.
  assert (Chat.truncateIndexed messages maxTokens
          = Returned (Chat.backwards false maxTokens
                        (rev (Chat.indexFrom 0 messages)) [] 0)) as Hrun.
  { unfold Chat.truncateIndexed.
    destruct messages as [| m0 rest]; [reflexivity |].
    destruct (String.eqb (Chat.role m0) "system") eqn:E; [| reflexivity].
    apply String.eqb_eq in E. now destruct (Hplain m0 rest eq_refl). }
  destruct (backwards_plain maxTokens (rev (Chat.indexFrom 0 messages)) [] 0)
    as [taken [skipped [Hsplit [Hloop [Hbudget Hstop]]]]].
  destruct (split_of_reversed 0 messages taken skipped Hsplit)
    as [Hmessages Htotal].
  exists (map snd (rev skipped)), (map snd (rev taken)).
  assert (forall (before : list Chat.Message) (d : Chat.Message),
             map snd (rev skipped) = before ++ [d] ->
             maxTokens < totalTokens (map snd (rev taken)) + messageTokens d)
    as Hlast.
  { intros before d Hlast.
    destruct (last_of_reversed skipped before d Hlast)
      as [e [later [Hskipped <-]]].
    rewrite Htotal. specialize (Hstop e later Hskipped). lia. }
  split; [exact Hmessages | split; [| split; [| split]]].
  - unfold Chat.truncateMessagesToFit. rewrite Hrun, Hloop. simpl.
    now rewrite app_nil_r.
  - intros Hne. rewrite Htotal.
    assert (taken <> []) as Hne'.
    { intros ->. now apply Hne. }
    specialize (Hbudget Hne'). lia.
  - exact Hlast.
  - intros Hfits.
    destruct (map snd (rev skipped)) as [| x xs] eqn:Hdropped;
      [reflexivity |].
    destruct (ends_with_last (x :: xs)) as [before [d Heq]]; [discriminate |].
    specialize (Hlast before d Heq).
    rewrite Hmessages, Heq, !totalTokens_app in Hfits. simpl in Hfits.
    pose proof (totalTokens_nonneg before). lia.
Qed.

Lemma truncate_keeps_recent_suffix_witness :
  exists dropped kept : list Chat.Message,
    [userHello; userHello; userHello] = dropped ++ kept
    /\ Chat.truncateMessagesToFit [userHello; userHello; userHello] 7
       = Returned kept
    /\ (kept <> [] -> totalTokens kept <= 7)
    /\ (forall (before : list Chat.Message) (d : Chat.Message),
           dropped = before ++ [d] -> 7 < totalTokens kept + messageTokens d)
    /\ (totalTokens [userHello; userHello; userHello] <= 7 -> dropped = []).
Proof.
  apply (truncate_keeps_recent_suffix [userHello; userHello; userHello] 7).
  intros m0 rest Heq. injection Heq as <- _. discriminate.
Defined.

(** The shape of the result with a system message in front. *)
Lemma truncate_system_shape :
  forall (m0 : Chat.Message) (rest : list Chat.Message)
         (maxTokens systemTokens : Z),
    Chat.role m0 = "system"%string ->
    Chat.estimateSystem (Chat.content m0) = Returned systemTokens ->
    exists dropped kept : list Chat.Message,
      rest = dropped ++ kept
      /\ Chat.truncateMessagesToFit (m0 :: rest) maxTokens
         = Returned (kept ++ [m0])
      /\ (kept <> [] -> systemTokens + totalTokens kept <= maxTokens)
      /\ (forall (before : list Chat.Message) (d : Chat.Message),
             dropped = before ++ [d] ->
             maxTokens < systemTokens + totalTokens kept + messageTokens d)
      /\ (maxTokens < systemTokens -> kept = [])
      /\ (systemTokens + totalTokens rest <= maxTokens -> dropped = []).
Proof.
  intros m0 rest maxTokens systemTokens Hrole Hsystem.
  pose proof (truncateIndexed_system m0 rest maxTokens Hrole) as Hrun.
  rewrite Hsystem, backwards_skips_index_zero in Hrun.
  rewrite (filter_positive_indices _ m0
             (Forall_rev (indexFrom_positive 0 rest))) in Hrun.
  destruct (backwards_plain maxTokens (rev (Chat.indexFrom 1 rest))
              [(0%nat, m0)] systemTokens)
    as [taken [skipped [Hsplit [Hloop [Hbudget Hstop]]]]].
  destruct (split_of_reversed 1 rest taken skipped Hsplit)
    as [Hrest Htotal].
  assert (map snd (rev taken) <> [] ->
          systemTokens + totalTokens (map snd (rev taken)) <= maxTokens)
    as Hfit.
  { intros Hne. rewrite Htotal. apply Hbudget. intros ->. now apply Hne. }
  assert (forall (before : list Chat.Message) (d : Chat.Message),
             map snd (rev skipped) = before ++ [d] ->
             maxTokens
             < systemTokens + totalTokens (map snd (rev taken))
               + messageTokens d) as Hlast.
  { intros before d Hlast.
    destruct (last_of_reversed skipped before d Hlast)
      as [e [later [Hskipped <-]]].
    rewrite Htotal. now apply (Hstop e later). }
  exists (map snd (rev skipped)), (map snd (rev taken)).
  split; [exact Hrest | split; [| split; [| split; [| split]]]].
  - unfold Chat.truncateMessagesToFit. rewrite Hrun, Hloop. simpl.
    now rewrite map_app.
  - exact Hfit.
  - exact Hlast.
  - intros Hover.
    destruct (map snd (rev taken)) as [| x xs] eqn:Hkept; [reflexivity |].
    assert (x :: xs <> []) as Hne by discriminate.
    specialize (Hfit Hne).
    pose proof (totalTokens_nonneg (x :: xs)). lia.
  - intros Hfits.
    destruct (map snd (rev skipped)) as [| x xs] eqn:Hdropped;
      [reflexivity |].
    destruct (ends_with_last (x :: xs)) as [before [d Heq]]; [discriminate |].
    specialize (Hlast before d Heq).
    rewrite Hrest, Heq, !totalTokens_app in Hfits. simpl in Hfits.
    pose proof (totalTokens_nonneg before). lia.
Qed.

(** X2. With a system message in front whose content is a string or an
    array of parts, [truncateMessagesToFit] returns a suffix of the later
    messages followed by the system message, which therefore comes last.
    The system message is charged first: the later messages kept fit in
    what it leaves, none is kept when the system message alone exceeds the
    budget, and all are kept when everything fits. *)
Theorem truncate_with_system_message :
  forall (m0 : Chat.Message) (rest : list Chat.Message)
         (maxTokens systemTokens : Z),
    Chat.role m0 = "system"%string ->
    Chat.estimateSystem (Chat.content m0) = Returned systemTokens ->
    exists dropped kept : list Chat.Message,
      rest = dropped ++ kept
      /\ Chat.truncateMessagesToFit (m0 :: rest) maxTokens
         = Returned (kept ++ [m0])
      /\ (kept <> [] -> systemTokens + totalTokens kept <= maxTokens)
      /\ (forall (before : list Chat.Message) (d : Chat.Message),
             dropped = before ++ [d] ->
             maxTokens < systemTokens + totalTokens kept + messageTokens d)
      /\ (maxTokens < systemTokens -> kept = [])
      /\ (systemTokens + totalTokens rest <= maxTokens -> dropped = []).
Proof.
  intros m0 rest maxTokens systemTokens Hrole Hsystem.
  destruct (truncate_system_shape m0 rest maxTokens systemTokens Hrole
              Hsystem)
    as [dropped [kept [Hrest [Hrun [Hbudget [Hstop [Hover Hall]]]]]]].
  exists dropped, kept.
  split; [exact Hrest | split; [exact Hrun | split; [exact Hbudget |]]].
  split; [exact Hstop | split; [exact Hover | exact Hall]].
Qed.

Lemma truncate_with_system_message_witness :
  exists dropped kept : list Chat.Message,
    [userHello; userHello] = dropped ++ kept
    /\ Chat.truncateMessagesToFit [systemPrompt; userHello; userHello] 10
       = Returned (kept ++ [systemPrompt])
    /\ (kept <> [] -> 7 + totalTokens kept <= 10)
    /\ (forall (before : list Chat.Message) (d : Chat.Message),
           dropped = before ++ [d] ->
           10 < 7 + totalTokens kept + messageTokens d)
    /\ (10 < 7 -> kept = [])
    /\ (7 + totalTokens [userHello; userHello] <= 10 -> dropped = []).
Proof.
  apply (truncate_with_system_message systemPrompt [userHello; userHello]
           10 7).
  - reflexivity.
  - reflexivity.
Defined.

(** ** chat_completion: the handler *)

Section ChatHandler.

Variable parseInt10 : string -> ChatCompletion.MaybeNaN.

Context {W : Type} `{Runtime W}.

(** The model the handler settles on: the argument when it is a non-empty
    string, the default otherwise. *)
Lemma orElse_argument (a b : option string) (s : string) :
  a = Some s -> s <> EmptyString -> ChatCompletion.orElse a b = Some s.
Proof.
  intros -> Hne. unfold ChatCompletion.orElse. simpl.
  destruct (String.eqb s "") eqn:E; [| reflexivity].
  apply String.eqb_eq in E. contradiction.
Qed.

Lemma orElse_default (a b : option string) :
  Js.truthyString a = false -> ChatCompletion.orElse a b = b.
Proof. intros E. unfold ChatCompletion.orElse. now rewrite E. Qed.

Lemma attempt_truncated (openai : OpenAISdk.Client W)
  (request : list Chat.Message -> OpenAISdk.ChatCompletionCreateParams)
  (selected : string) (given kept : list Chat.Message) (w : W) :
  Chat.truncateMessagesToFit given Chat.MAX_CONTEXT_TOKENS = Returned kept ->
  tryCatch (ChatCompletion.attempt openai request selected given)
    ChatCompletion.chatCatch w
  = respond selected (OpenAISdk.create openai (request kept) w).
Proof.
  intros Hkept. unfold tryCatch, ChatCompletion.attempt, bind, respond.
  rewrite Hkept.
  destruct (OpenAISdk.create openai (request kept) w) as [[c | e] w'];
    [| reflexivity].
  destruct (ChatCompletion.formatResponse c selected (dateNow w'));
    reflexivity.
Qed.

Lemma attempt_not_truncated (openai : OpenAISdk.Client W)
  (request : list Chat.Message -> OpenAISdk.ChatCompletionCreateParams)
  (selected : string) (given : list Chat.Message) (e : Thrown) (w : W) :
  Chat.truncateMessagesToFit given Chat.MAX_CONTEXT_TOKENS = Threw e ->
  tryCatch (ChatCompletion.attempt openai request selected given)
    ChatCompletion.chatCatch w
  = (ChatCompletion.chatCatch e, w).
Proof.
  intros Hthrew. unfold tryCatch, ChatCompletion.attempt, bind.
  now rewrite Hthrew.
Qed.

(** The handler, once a model is settled on and there are messages. *)
Lemma handleChatCompletion_attempts
  (args : ChatCompletion.ChatCompletionToolRequest)
  (openai : OpenAISdk.Client W) (defaults : ChatCompletion.Defaults)
  (selected : string) (given : list Chat.Message) (w : W) :
  ChatCompletion.orElse (ChatCompletion.model args)
    (ChatCompletion.defaultModel defaults) = Some selected ->
  selected <> EmptyString ->
  ChatCompletion.messages args = Some given ->
  given <> [] ->
  ChatCompletion.handleChatCompletion parseInt10 args openai defaults w
  = tryCatch
      (ChatCompletion.attempt openai
         (ChatCompletion.completionRequest parseInt10 args defaults selected)
         selected given)
      ChatCompletion.chatCatch w.
Proof.
  intros Hmodel Hne Hmessages Hgiven.
  unfold ChatCompletion.handleChatCompletion. rewrite Hmodel, Hmessages.
  destruct (String.eqb selected "") eqn:E;
    [apply String.eqb_eq in E; contradiction |].
  destruct given as [| m rest]; [contradiction | reflexivity].
Qed.

Lemma handleChatCompletion_no_model
  (args : ChatCompletion.ChatCompletionToolRequest)
  (openai : OpenAISdk.Client W) (defaults : ChatCompletion.Defaults) (w : W) :
  Js.truthyString (ChatCompletion.model args) = false ->
  Js.truthyString (ChatCompletion.defaultModel defaults) = false ->
  ChatCompletion.handleChatCompletion parseInt10 args openai defaults w
  = (ChatCompletion.chatError ChatCompletion.noModelMessage, w).
Proof.
  intros Hargument Hdefault.
  unfold ChatCompletion.handleChatCompletion.
  rewrite (orElse_default _ _ Hargument).
  destruct (ChatCompletion.defaultModel defaults) as [s |]; [| reflexivity].
  simpl in Hdefault. apply negb_false_iff in Hdefault.
  now rewrite Hdefault.
Qed.

End ChatHandler.

(** X3. chat_completion refuses a call before anything is sent to the API:
    with no usable model (none given or the empty string, and no default)
    it returns the no-model error, also when the messages are missing; with
    a model but missing or empty messages it returns the empty-messages
    error; and a leading system message whose content is [null] ends in
    the error of the [catch], which carries the message of the TypeError
    thrown on reading [null.length].  In each case the world is left as it
    was, whatever the client. *)
Theorem chat_refused_before_api :
  forall (parseInt10 : string -> ChatCompletion.MaybeNaN) (W : Type)
         (R : Runtime W) (args : ChatCompletion.ChatCompletionToolRequest)
         (openai : OpenAISdk.Client W) (defaults : ChatCompletion.Defaults)
         (w : W),
    (Js.truthyString (ChatCompletion.model args) = false ->
     Js.truthyString (ChatCompletion.defaultModel defaults) = false ->
     ChatCompletion.handleChatCompletion parseInt10 args openai defaults w
     = (ChatCompletion.chatError ChatCompletion.noModelMessage, w))
    /\ (forall selected : string,
           ChatCompletion.orElse (ChatCompletion.model args)
             (ChatCompletion.defaultModel defaults) = Some selected ->
           selected <> EmptyString ->
           (ChatCompletion.messages args = None
            \/ ChatCompletion.messages args = Some [] ->
            ChatCompletion.handleChatCompletion parseInt10 args openai
              defaults w
            = (ChatCompletion.chatError ChatCompletion.noMessagesMessage, w))
           /\ forall (m0 : Chat.Message) (rest : list Chat.Message),
               ChatCompletion.messages args = Some (m0 :: rest) ->
               Chat.role m0 = "system"%string ->
               Chat.content m0 = Chat.Nothing ->
               ChatCompletion.handleChatCompletion parseInt10 args openai
                 defaults w
               = (ChatCompletion.chatError
                    "Error: OpenRouter API error: Cannot read properties of null (reading 'length')",
                  w)).
Proof.
  intros parseInt10 W R args openai defaults w. split.
  - apply handleChatCompletion_no_model.
  - intros selected Hmodel Hne. split.
    + intros Hmessages. unfold ChatCompletion.handleChatCompletion.
      rewrite Hmodel.
      destruct (String.eqb selected "") eqn:E;
        [apply String.eqb_eq in E; contradiction |].
      destruct Hmessages as [-> | ->]; reflexivity.
    + intros m0 rest Hmessages Hrole Hcontent.
      rewrite (handleChatCompletion_attempts parseInt10 args openai defaults
                 selected (m0 :: rest) w Hmodel Hne Hmessages)
        by discriminate.
      apply (attempt_not_truncated openai _ selected (m0 :: rest)
               (ErrorObject
                  "Cannot read properties of null (reading 'length')") w).
      unfold Chat.truncateMessagesToFit.
      rewrite (truncateIndexed_system m0 rest _ Hrole), Hcontent.
      reflexivity.
Qed.

Lemma chat_refused_before_api_witness :
  ChatCompletion.handleChatCompletion noInt
    (chatArgs (Some ""%string) None) (answering sampleCompletion)
    noDefaults quiet
  = (ChatCompletion.chatError ChatCompletion.noModelMessage, quiet)
  /\ ChatCompletion.handleChatCompletion noInt
       (chatArgs (Some "openai/gpt-4"%string) (Some []))
       (answering sampleCompletion) noDefaults quiet
     = (ChatCompletion.chatError ChatCompletion.noMessagesMessage, quiet)
  /\ ChatCompletion.handleChatCompletion noInt
       (chatArgs (Some "openai/gpt-4"%string) (Some [nullSystem; userHello]))
       (answering sampleCompletion) noDefaults quiet
     = (ChatCompletion.chatError
          "Error: OpenRouter API error: Cannot read properties of null (reading 'length')",
        quiet).
Proof.
  split; [| split].
  - apply (chat_refused_before_api noInt Exchange ExchangeRuntime
             (chatArgs (Some ""%string) None) (answering sampleCompletion)
             noDefaults quiet); reflexivity.
  - destruct (chat_refused_before_api noInt Exchange ExchangeRuntime
                (chatArgs (Some "openai/gpt-4"%string) (Some []))
                (answering sampleCompletion) noDefaults quiet)
      as [_ with_model].
    destruct (with_model "openai/gpt-4"%string) as [no_messages _].
    + reflexivity.
    + discriminate.
    + apply no_messages. right. reflexivity.
  - destruct (chat_refused_before_api noInt Exchange ExchangeRuntime
                (chatArgs (Some "openai/gpt-4"%string)
                   (Some [nullSystem; userHello]))
                (answering sampleCompletion) noDefaults quiet)
      as [_ with_model].
    destruct (with_model "openai/gpt-4"%string) as [_ null_content].
    + reflexivity.
    + discriminate.
    + apply (null_content nullSystem [userHello]); reflexivity.
Defined.

(** X4. chat_completion returns a result that is not an error exactly when
    a usable model was settled on, there is at least one message, the
    truncation went through, and the API, called with the request built
    from them, returned a completion with at least one choice. *)
Theorem chat_succeeds_iff :
  forall (parseInt10 : string -> ChatCompletion.MaybeNaN) (W : Type)
         (R : Runtime W) (args : ChatCompletion.ChatCompletionToolRequest)
         (openai : OpenAISdk.Client W) (defaults : ChatCompletion.Defaults)
         (w : W),
    ChatCompletion.isError
      (fst (ChatCompletion.handleChatCompletion parseInt10 args openai
              defaults w)) = false
    <-> exists (selected : string) (given kept : list Chat.Message)
               (completion : OpenAISdk.ChatCompletion) (w' : W),
        ChatCompletion.orElse (ChatCompletion.model args)
          (ChatCompletion.defaultModel defaults) = Some selected
        /\ selected <> EmptyString
        /\ ChatCompletion.messages args = Some given
        /\ given <> []
        /\ Chat.truncateMessagesToFit given Chat.MAX_CONTEXT_TOKENS
           = Returned kept
        /\ OpenAISdk.create openai
             (ChatCompletion.completionRequest parseInt10 args defaults
                selected kept) w
           = (Returned completion, w')
        /\ OpenAISdk.choices completion <> [].
Proof.
  intros parseInt10 W R args openai defaults w. split.
  - intros Hok.
    destruct (ChatCompletion.orElse (ChatCompletion.model args)
                (ChatCompletion.defaultModel defaults))
      as [selected |] eqn:Hmodel.
    2:{ unfold ChatCompletion.handleChatCompletion in Hok.
        rewrite Hmodel in Hok. discriminate Hok. }
    destruct (String.eqb selected "") eqn:Hempty.
    { unfold ChatCompletion.handleChatCompletion in Hok.
      rewrite Hmodel, Hempty in Hok. discriminate Hok. }
    apply String.eqb_neq in Hempty.
    destruct (ChatCompletion.messages args) as [[| m rest] |] eqn:Hmessages;
      try (unfold ChatCompletion.handleChatCompletion in Hok;
           rewrite Hmodel, Hmessages in Hok;
           destruct (String.eqb selected ""); discriminate Hok).
    rewrite (handleChatCompletion_attempts parseInt10 args openai defaults
               selected (m :: rest) w Hmodel Hempty Hmessages) in Hok
      by discriminate.
    destruct (Chat.truncateMessagesToFit (m :: rest) Chat.MAX_CONTEXT_TOKENS)
      as [kept | e] eqn:Hkept.
    2:{ rewrite (attempt_not_truncated openai _ selected (m :: rest) e w Hkept)
          in Hok.
        destruct e; discriminate Hok. }
    rewrite (attempt_truncated openai _ selected (m :: rest) kept w Hkept)
      in Hok.
    unfold respond in Hok.
    destruct (OpenAISdk.create openai
                (ChatCompletion.completionRequest parseInt10 args defaults
                   selected kept) w) as [[completion | e] w'] eqn:Hcall.
    2:{ destruct e; discriminate Hok. }
    exists selected, (m :: rest), kept, completion, w'.
    repeat split; try assumption; try discriminate.
    intros Hnone. unfold ChatCompletion.formatResponse in Hok.
    rewrite Hnone in Hok. discriminate Hok.
  - intros [selected [given [kept [completion [w' [Hmodel [Hne [Hmessages
             [Hgiven [Hkept [Hcall Hchoices]]]]]]]]]]].
    rewrite (handleChatCompletion_attempts parseInt10 args openai defaults
               selected given w Hmodel Hne Hmessages Hgiven).
    rewrite (attempt_truncated openai _ selected given kept w Hkept).
    rewrite Hcall. unfold respond, ChatCompletion.formatResponse.
    destruct (OpenAISdk.choices completion); [contradiction | reflexivity].
Qed.

(** X5. When chat_completion reaches the API, the request carries the model
    settled on (the argument when it is a non-empty string, otherwise the
    default), the truncated messages, the temperature given (zero included)
    or else 1, and [max_tokens] as given, or else as parsed from the
    default; a default that does not parse to a number is left out and the
    call goes ahead. *)
Theorem chat_request_sent :
  forall (parseInt10 : string -> ChatCompletion.MaybeNaN) (W : Type)
         (R : Runtime W) (args : ChatCompletion.ChatCompletionToolRequest)
         (openai : OpenAISdk.Client W) (defaults : ChatCompletion.Defaults)
         (w : W) (selected : string) (given kept : list Chat.Message),
    ChatCompletion.orElse (ChatCompletion.model args)
      (ChatCompletion.defaultModel defaults) = Some selected ->
    selected <> EmptyString ->
    ChatCompletion.messages args = Some given ->
    given <> [] ->
    Chat.truncateMessagesToFit given Chat.MAX_CONTEXT_TOKENS = Returned kept ->
    exists request : OpenAISdk.ChatCompletionCreateParams,
      ChatCompletion.handleChatCompletion parseInt10 args openai defaults w
      = respond selected (OpenAISdk.create openai request w)
      /\ OpenAISdk.model request = selected
      /\ (forall s : string,
             ChatCompletion.model args = Some s -> s <> EmptyString ->
             selected = s)
      /\ (Js.truthyString (ChatCompletion.model args) = false ->
          ChatCompletion.defaultModel defaults = Some selected)
      /\ OpenAISdk.messages request = kept
      /\ (forall t : Q,
             ChatCompletion.temperature args = Some t ->
             OpenAISdk.temperature request = t)
      /\ (ChatCompletion.temperature args = None ->
          OpenAISdk.temperature request = 1%Q)
      /\ (forall n : Z,
             ChatCompletion.max_tokens args = Some n ->
             OpenAISdk.max_tokens request = Some n)
      /\ (ChatCompletion.max_tokens args = None ->
          forall s : string,
            ChatCompletion.defaultMaxTokens defaults = Some s ->
            s <> EmptyString ->
            OpenAISdk.max_tokens request = parseInt10 s)
      /\ (ChatCompletion.max_tokens args = None ->
          Js.truthyString (ChatCompletion.defaultMaxTokens defaults) = false ->
          OpenAISdk.max_tokens request = None).
Proof.
  intros parseInt10 W R args openai defaults w selected given kept
    Hmodel Hne Hmessages Hgiven Hkept.
  exists (ChatCompletion.completionRequest parseInt10 args defaults selected
            kept).
  split; [| split; [reflexivity | split; [| split; [| split;
    [reflexivity | split; [| split; [| split; [| split]]]]]]]].
  - rewrite (handleChatCompletion_attempts parseInt10 args openai defaults
               selected given w Hmodel Hne Hmessages Hgiven).
    now apply attempt_truncated.
  - intros s Hs Hsne.
    rewrite (orElse_argument _ _ s Hs Hsne) in Hmodel. congruence.
  - intros Hfalsy. now rewrite (orElse_default _ _ Hfalsy) in Hmodel.
  - intros t Ht. simpl. unfold ChatCompletion.effectiveTemperature.
    now rewrite Ht.
  - intros Ht. simpl. unfold ChatCompletion.effectiveTemperature.
    now rewrite Ht.
  - intros n Hn. simpl. unfold ChatCompletion.effectiveMaxTokens.
    now rewrite Hn.
  - intros Hn s Hs Hsne. simpl. unfold ChatCompletion.effectiveMaxTokens.
    rewrite Hn, Hs. simpl.
    destruct (String.eqb s "") eqn:E;
      [apply String.eqb_eq in E; contradiction |].
    simpl. destruct (parseInt10 s); reflexivity.
  - intros Hn Hfalsy. simpl. unfold ChatCompletion.effectiveMaxTokens.
    now rewrite Hn, Hfalsy.
Qed.

Lemma chat_request_sent_witness :
  exists request : OpenAISdk.ChatCompletionCreateParams,
    ChatCompletion.handleChatCompletion noInt
      (chatArgs (Some "openai/gpt-4"%string) (Some [userHello]))
      (answering sampleCompletion) noDefaults quiet
    = respond "openai/gpt-4"
        (OpenAISdk.create (answering sampleCompletion) request quiet)
    /\ OpenAISdk.model request = "openai/gpt-4"%string
    /\ OpenAISdk.messages request = [userHello]
    /\ OpenAISdk.temperature request = 1%Q
    /\ OpenAISdk.max_tokens request = None.
Proof.
  destruct (chat_request_sent noInt Exchange ExchangeRuntime
              (chatArgs (Some "openai/gpt-4"%string) (Some [userHello]))
              (answering sampleCompletion) noDefaults quiet
              "openai/gpt-4"%string [userHello] [userHello])
    as [request [Hrun [Hmodel [_ [_ [Hmessages [_ [Htemperature
          [_ [_ Hmax]]]]]]]]]].
  - reflexivity.
  - discriminate.
  - reflexivity.
  - discriminate.
  - reflexivity.
  - exists request. repeat split; try assumption.
    + now apply Htemperature.
    + apply Hmax; reflexivity.
Defined.

(** ** chat_completion: provider routing *)

Lemma providerConfig_no_keys (parseInt10 : string -> ChatCompletion.MaybeNaN)
  (args : ChatCompletion.ChatCompletionToolRequest)
  (defaults : ChatCompletion.Defaults) :
  ChatCompletion.hasKeys (ChatCompletion.providerConfig args defaults) = false ->
  ChatCompletion.providerConfig args defaults = OpenAISdk.noOptions.
Proof.
  destruct (ChatCompletion.providerConfig args defaults)
    as [q i s o r d a].
  unfold ChatCompletion.hasKeys, OpenAISdk.noOptions. simpl.
  destruct q, i, s, o, r, d, a; simpl; intros E;
    try discriminate E; reflexivity.
Qed.

(** What the request carries for a key is what the merge set for it. *)
Lemma routed_list (parseInt10 : string -> ChatCompletion.MaybeNaN)
  (args : ChatCompletion.ChatCompletionToolRequest)
  (defaults : ChatCompletion.Defaults) (selected : string)
  (kept : list Chat.Message) (k : ListKey) :
  routed (listOption k)
    (ChatCompletion.completionRequest parseInt10 args defaults selected kept)
  = listOption k (ChatCompletion.providerConfig args defaults).
Proof.
  unfold routed. simpl.
  destruct (ChatCompletion.hasKeys (ChatCompletion.providerConfig args defaults))
    eqn:E; [reflexivity |].
  rewrite (providerConfig_no_keys parseInt10 args defaults E).
  destruct k; reflexivity.
Qed.

Lemma routed_string (parseInt10 : string -> ChatCompletion.MaybeNaN)
  (args : ChatCompletion.ChatCompletionToolRequest)
  (defaults : ChatCompletion.Defaults) (selected : string)
  (kept : list Chat.Message) (k : StringKey) :
  routed (stringOption k)
    (ChatCompletion.completionRequest parseInt10 args defaults selected kept)
  = stringOption k (ChatCompletion.providerConfig args defaults).
Proof.
  unfold routed. simpl.
  destruct (ChatCompletion.hasKeys (ChatCompletion.providerConfig args defaults))
    eqn:E; [reflexivity |].
  rewrite (providerConfig_no_keys parseInt10 args defaults E).
  destruct k; reflexivity.
Qed.

Lemma routed_flag (parseInt10 : string -> ChatCompletion.MaybeNaN)
  (args : ChatCompletion.ChatCompletionToolRequest)
  (defaults : ChatCompletion.Defaults) (selected : string)
  (kept : list Chat.Message) (k : FlagKey) :
  routed (flagOption k)
    (ChatCompletion.completionRequest parseInt10 args defaults selected kept)
  = flagOption k (ChatCompletion.providerConfig args defaults).
Proof.
  unfold routed. simpl.
  destruct (ChatCompletion.hasKeys (ChatCompletion.providerConfig args defaults))
    eqn:E; [reflexivity |].
  rewrite (providerConfig_no_keys parseInt10 args defaults E).
  destruct k; reflexivity.
Qed.

Lemma listOption_config (args : ChatCompletion.ChatCompletionToolRequest)
  (defaults : ChatCompletion.Defaults) (k : ListKey) :
  listOption k (ChatCompletion.providerConfig args defaults)
  = ChatCompletion.nonEmptyList
      (ChatCompletion.nullish (listOption k (explicitOptions args))
         (listDefault k defaults)).
Proof. destruct k; reflexivity. Qed.

Lemma stringOption_config (args : ChatCompletion.ChatCompletionToolRequest)
  (defaults : ChatCompletion.Defaults) (k : StringKey) :
  stringOption k (ChatCompletion.providerConfig args defaults)
  = ChatCompletion.truthyOnly
      (ChatCompletion.nullish (stringOption k (explicitOptions args))
         (stringDefault k defaults)).
Proof. destruct k; reflexivity. Qed.

Lemma flagOption_config (args : ChatCompletion.ChatCompletionToolRequest)
  (defaults : ChatCompletion.Defaults) (k : FlagKey) :
  flagOption k (ChatCompletion.providerConfig args defaults)
  = ChatCompletion.nullish (flagOption k (explicitOptions args))
      (flagDefault k defaults).
Proof. destruct k; reflexivity. Qed.

Lemma nonEmptyList_never_empty (xs : option (list string)) :
  ChatCompletion.nonEmptyList xs <> Some [].
Proof. destruct xs as [[| x rest] |]; discriminate. Qed.

Lemma truthyOnly_never_empty (s : option string) :
  ChatCompletion.truthyOnly s <> Some EmptyString.
Proof.
  unfold ChatCompletion.truthyOnly.
  destruct s as [[| c s] |]; simpl; discriminate.
Qed.

(** X6. The request chat_completion sends never carries an empty [provider]
    object, an empty list or an empty string in it: the key [provider] is
    there only when at least one option is set, and a list or string option
    that is set is not empty. *)
Theorem chat_provider_never_empty :
  forall (parseInt10 : string -> ChatCompletion.MaybeNaN) (W : Type)
         (R : Runtime W) (args : ChatCompletion.ChatCompletionToolRequest)
         (openai : OpenAISdk.Client W) (defaults : ChatCompletion.Defaults)
         (w : W) (selected : string) (given kept : list Chat.Message),
    ChatCompletion.orElse (ChatCompletion.model args)
      (ChatCompletion.defaultModel defaults) = Some selected ->
    selected <> EmptyString ->
    ChatCompletion.messages args = Some given ->
    given <> [] ->
    Chat.truncateMessagesToFit given Chat.MAX_CONTEXT_TOKENS = Returned kept ->
    exists request : OpenAISdk.ChatCompletionCreateParams,
      ChatCompletion.handleChatCompletion parseInt10 args openai defaults w
      = respond selected (OpenAISdk.create openai request w)
      /\ forall p : OpenAISdk.ProviderOptions,
          OpenAISdk.provider request = Some p ->
          p <> OpenAISdk.noOptions
          /\ (forall k : ListKey, listOption k p <> Some [])
          /\ (forall k : StringKey, stringOption k p <> Some EmptyString).
Proof.
  intros parseInt10 W R args openai defaults w selected given kept
    Hmodel Hne Hmessages Hgiven Hkept.
  exists (ChatCompletion.completionRequest parseInt10 args defaults selected
            kept).
  split.
  - rewrite (handleChatCompletion_attempts parseInt10 args openai defaults
               selected given w Hmodel Hne Hmessages Hgiven).
    now apply attempt_truncated.
  - simpl. intros p Hp.
    destruct (ChatCompletion.hasKeys
                (ChatCompletion.providerConfig args defaults)) eqn:E;
      [| discriminate Hp].
    injection Hp as <-. split; [| split].
    + intros Hnone. rewrite Hnone in E. discriminate E.
    + intros k. rewrite listOption_config. apply nonEmptyList_never_empty.
    + intros k. rewrite stringOption_config. apply truthyOnly_never_empty.
Qed.

Lemma chat_provider_never_empty_witness :
  exists request : OpenAISdk.ChatCompletionCreateParams,
    ChatCompletion.handleChatCompletion noInt (routingArgs overriding)
      (answering sampleCompletion) routingDefaults quiet
    = respond "openai/gpt-4"
        (OpenAISdk.create (answering sampleCompletion) request quiet)
    /\ forall p : OpenAISdk.ProviderOptions,
        OpenAISdk.provider request = Some p ->
        p <> OpenAISdk.noOptions
        /\ (forall k : ListKey, listOption k p <> Some [])
        /\ (forall k : StringKey, stringOption k p <> Some EmptyString).
Proof.
  apply (chat_provider_never_empty noInt Exchange ExchangeRuntime
           (routingArgs overriding) (answering sampleCompletion)
           routingDefaults quiet "openai/gpt-4"%string [userHello]
           [userHello]).
  - reflexivity.
  - discriminate.
  - reflexivity.
  - discriminate.
  - reflexivity.
Defined.

(** X7. In the request chat_completion sends, every provider option is
    taken from the [provider] argument when the argument sets it and from
    the server default otherwise.  A list or string option set to empty in
    the argument is left out and hides the default; a flag set to [false]
    in the argument is sent as [false] whatever the default. *)
Theorem chat_provider_precedence :
  forall (parseInt10 : string -> ChatCompletion.MaybeNaN) (W : Type)
         (R : Runtime W) (args : ChatCompletion.ChatCompletionToolRequest)
         (openai : OpenAISdk.Client W) (defaults : ChatCompletion.Defaults)
         (w : W) (selected : string) (given kept : list Chat.Message),
    ChatCompletion.orElse (ChatCompletion.model args)
      (ChatCompletion.defaultModel defaults) = Some selected ->
    selected <> EmptyString ->
    ChatCompletion.messages args = Some given ->
    given <> [] ->
    Chat.truncateMessagesToFit given Chat.MAX_CONTEXT_TOKENS = Returned kept ->
    exists request : OpenAISdk.ChatCompletionCreateParams,
      ChatCompletion.handleChatCompletion parseInt10 args openai defaults w
      = respond selected (OpenAISdk.create openai request w)
      /\ (forall k : ListKey,
             (listOption k (explicitOptions args) = Some [] ->
              routed (listOption k) request = None)
             /\ (forall (x : string) (xs : list string),
                    listOption k (explicitOptions args) = Some (x :: xs) ->
                    routed (listOption k) request = Some (x :: xs))
             /\ (listOption k (explicitOptions args) = None ->
                 (forall (x : string) (xs : list string),
                     listDefault k defaults = Some (x :: xs) ->
                     routed (listOption k) request = Some (x :: xs))
                 /\ (listDefault k defaults = None
                     \/ listDefault k defaults = Some [] ->
                     routed (listOption k) request = None)))
      /\ (forall k : StringKey,
             (stringOption k (explicitOptions args) = Some EmptyString ->
              routed (stringOption k) request = None)
             /\ (forall s : string,
                    stringOption k (explicitOptions args) = Some s ->
                    s <> EmptyString ->
                    routed (stringOption k) request = Some s)
             /\ (stringOption k (explicitOptions args) = None ->
                 (forall s : string,
                     stringDefault k defaults = Some s ->
                     s <> EmptyString ->
                     routed (stringOption k) request = Some s)
                 /\ (Js.truthyString (stringDefault k defaults) = false ->
                     routed (stringOption k) request = None)))
      /\ (forall k : FlagKey,
             (forall b : bool,
                 flagOption k (explicitOptions args) = Some b ->
                 routed (flagOption k) request = Some b)
             /\ (flagOption k (explicitOptions args) = None ->
                 routed (flagOption k) request = flagDefault k defaults)).
Proof.
  intros parseInt10 W R args openai defaults w selected given kept
    Hmodel Hne Hmessages Hgiven Hkept.
  exists (ChatCompletion.completionRequest parseInt10 args defaults selected
            kept).
  split; [| split; [| split]].
  - rewrite (handleChatCompletion_attempts parseInt10 args openai defaults
               selected given w Hmodel Hne Hmessages Hgiven).
    now apply attempt_truncated.
  - intros k. rewrite routed_list, listOption_config.
    split; [| split].
    + intros ->. reflexivity.
    + intros x xs ->. reflexivity.
    + intros ->. split.
      * intros x xs ->. reflexivity.
      * intros [-> | ->]; reflexivity.
  - intros k. rewrite routed_string, stringOption_config.
    unfold ChatCompletion.truthyOnly.
    split; [| split].
    + intros ->. reflexivity.
    + intros s -> Hs. simpl.
      destruct (String.eqb s "") eqn:E;
        [apply String.eqb_eq in E; contradiction | reflexivity].
    + intros ->. split.
      * intros s -> Hs. simpl.
        destruct (String.eqb s "") eqn:E;
          [apply String.eqb_eq in E; contradiction | reflexivity].
      * intros Hfalsy. simpl. now rewrite Hfalsy.
  - intros k. rewrite routed_flag, flagOption_config. split.
    + intros b ->. reflexivity.
    + intros ->. reflexivity.
Qed.

Lemma chat_provider_precedence_witness :
  exists request : OpenAISdk.ChatCompletionCreateParams,
    ChatCompletion.handleChatCompletion noInt (routingArgs overriding)
      (answering sampleCompletion) routingDefaults quiet
    = respond "openai/gpt-4"
        (OpenAISdk.create (answering sampleCompletion) request quiet)
    /\ routed (listOption Quantizations) request = None
    /\ routed (stringOption Sort) request = Some "price"%string
    /\ routed (flagOption AllowFallbacks) request = Some false.
Proof.
  destruct (chat_provider_precedence noInt Exchange ExchangeRuntime
              (routingArgs overriding) (answering sampleCompletion)
              routingDefaults quiet "openai/gpt-4"%string [userHello]
              [userHello])
    as [request [Hrun [Hlists [Hstrings Hflags]]]].
  - reflexivity.
  - discriminate.
  - reflexivity.
  - discriminate.
  - reflexivity.
  - exists request. split; [exact Hrun | split; [| split]].
    + destruct (Hlists Quantizations) as [Hempty _]. now apply Hempty.
    + destruct (Hstrings Sort) as [_ [_ Hunset]].
      destruct Hunset as [Hdefault _]; [reflexivity |].
      apply Hdefault; [reflexivity | discriminate].
    + destruct (Hflags AllowFallbacks) as [Hset _]. now apply Hset.
Defined.

(** ** chat_completion: the result *)

(** X8. When the API returns a completion, chat_completion reports its
    first choice only: the finish reason, the role, the tool calls and the
    content, with the empty string for a content that is [null] or empty;
    the model reported is the model requested, the usage is that of the
    completion or else all zeros, and [created] is the time of the reply in
    whole seconds. *)
Theorem chat_reports_first_choice :
  forall (parseInt10 : string -> ChatCompletion.MaybeNaN) (W : Type)
         (R : Runtime W) (args : ChatCompletion.ChatCompletionToolRequest)
         (openai : OpenAISdk.Client W) (defaults : ChatCompletion.Defaults)
         (w w' : W) (selected : string) (given kept : list Chat.Message)
         (completion : OpenAISdk.ChatCompletion) (first : OpenAISdk.Choice)
         (others : list OpenAISdk.Choice),
    ChatCompletion.orElse (ChatCompletion.model args)
      (ChatCompletion.defaultModel defaults) = Some selected ->
    selected <> EmptyString ->
    ChatCompletion.messages args = Some given ->
    given <> [] ->
    Chat.truncateMessagesToFit given Chat.MAX_CONTEXT_TOKENS = Returned kept ->
    OpenAISdk.create openai
      (ChatCompletion.completionRequest parseInt10 args defaults selected kept)
      w
    = (Returned completion, w') ->
    OpenAISdk.choices completion = first :: others ->
    exists response : ChatCompletion.ChatResponse,
      ChatCompletion.handleChatCompletion parseInt10 args openai defaults w
      = (ChatCompletion.chatSuccess response, w')
      /\ ChatCompletion.cr_model response = selected
      /\ ChatCompletion.cr_finish_reason response
         = OpenAISdk.finish_reason first
      /\ ChatCompletion.cr_role response
         = OpenAISdk.role (OpenAISdk.message first)
      /\ ChatCompletion.cr_tool_calls response
         = OpenAISdk.tool_calls (OpenAISdk.message first)
      /\ (OpenAISdk.content (OpenAISdk.message first) = None
          \/ OpenAISdk.content (OpenAISdk.message first) = Some EmptyString ->
          ChatCompletion.cr_content response = EmptyString)
      /\ (forall s : string,
             OpenAISdk.content (OpenAISdk.message first) = Some s ->
             ChatCompletion.cr_content response = s)
      /\ (OpenAISdk.usage completion = None ->
          ChatCompletion.cr_usage response = ChatCompletion.zeroUsage)
      /\ (forall u : OpenAISdk.Usage,
             OpenAISdk.usage completion = Some u ->
             ChatCompletion.cr_usage response = u)
      /\ ChatCompletion.cr_created response = dateNow w' / 1000.
Proof.
  intros parseInt10 W R args openai defaults w w' selected given kept
    completion first others Hmodel Hne Hmessages Hgiven Hkept Hcall Hchoices.
  rewrite (handleChatCompletion_attempts parseInt10 args openai defaults
             selected given w Hmodel Hne Hmessages Hgiven).
  rewrite (attempt_truncated openai _ selected given kept w Hkept), Hcall.
  unfold respond, ChatCompletion.formatResponse. rewrite Hchoices.
  eexists. split; [reflexivity |]. simpl.
  repeat split.
  - intros [-> | ->]; reflexivity.
  - intros s ->. simpl. destruct (String.eqb s "") eqn:E; [| reflexivity].
    apply String.eqb_eq in E. now subst s.
  - intros ->. reflexivity.
  - intros u ->. reflexivity.
Qed.

Lemma chat_reports_first_choice_witness :
  exists response : ChatCompletion.ChatResponse,
    fst (ChatCompletion.handleChatCompletion noInt
           (chatArgs (Some "openai/gpt-4"%string) (Some [userHello]))
           (answering twoChoices) noDefaults quiet)
    = ChatCompletion.chatSuccess response
    /\ ChatCompletion.cr_content response = EmptyString
    /\ ChatCompletion.cr_usage response = ChatCompletion.zeroUsage
    /\ ChatCompletion.cr_created response = 5.
Proof.
  destruct (chat_reports_first_choice noInt Exchange ExchangeRuntime
              (chatArgs (Some "openai/gpt-4"%string) (Some [userHello]))
              (answering twoChoices) noDefaults quiet
              {| exchange_clock := 5000;
                 received :=
                   [ChatCompletion.completionRequest noInt
                      (chatArgs (Some "openai/gpt-4"%string)
                         (Some [userHello]))
                      noDefaults "openai/gpt-4" [userHello]] |}
              "openai/gpt-4"%string [userHello] [userHello] twoChoices
              (sampleChoice None) [sampleChoice (Some "Hi!"%string)])
    as [response [Hrun [_ [_ [_ [_ [Hnull [_ [Hzero [_ Hcreated]]]]]]]]]].
  - reflexivity.
  - discriminate.
  - reflexivity.
  - discriminate.
  - reflexivity.
  - reflexivity.
  - reflexivity.
  - exists response. rewrite Hrun. split; [reflexivity | split; [| split]].
    + apply Hnull. left. reflexivity.
    + now apply Hzero.
    + exact Hcreated.
Defined.

(** X9. When the call to the API fails, chat_completion returns an error
    result and never throws: a rejection with an [Error] is reported with
    its message after the prefix of the handler, any other rejection with
    the fixed unknown-error text, and a completion without choices as the
    TypeError its formatting raises. *)
Theorem chat_failure_reported :
  forall (parseInt10 : string -> ChatCompletion.MaybeNaN) (W : Type)
         (R : Runtime W) (args : ChatCompletion.ChatCompletionToolRequest)
         (openai : OpenAISdk.Client W) (defaults : ChatCompletion.Defaults)
         (w w' : W) (selected : string) (given kept : list Chat.Message),
    ChatCompletion.orElse (ChatCompletion.model args)
      (ChatCompletion.defaultModel defaults) = Some selected ->
    selected <> EmptyString ->
    ChatCompletion.messages args = Some given ->
    given <> [] ->
    Chat.truncateMessagesToFit given Chat.MAX_CONTEXT_TOKENS = Returned kept ->
    let outcome :=
      OpenAISdk.create openai
        (ChatCompletion.completionRequest parseInt10 args defaults selected
           kept) w in
    let result :=
      ChatCompletion.handleChatCompletion parseInt10 args openai defaults w in
    (forall msg : string,
        outcome = (Threw (ErrorObject msg), w') ->
        result
        = (ChatCompletion.chatError
             ("Error: OpenRouter API error: " ++ msg)%string, w'))
    /\ (outcome = (Threw NonError, w') ->
        result
        = (ChatCompletion.chatError
             "Error: An unknown error occurred during chat completion.", w'))
    /\ (forall completion : OpenAISdk.ChatCompletion,
           outcome = (Returned completion, w') ->
           OpenAISdk.choices completion = [] ->
           result
           = (ChatCompletion.chatError
                "Error: OpenRouter API error: Cannot read properties of undefined (reading 'finish_reason')",
              w')).
Proof.
  intros parseInt10 W R args openai defaults w w' selected given kept
    Hmodel Hne Hmessages Hgiven Hkept outcome result.
  unfold result.
  rewrite (handleChatCompletion_attempts parseInt10 args openai defaults
             selected given w Hmodel Hne Hmessages Hgiven).
  rewrite (attempt_truncated openai _ selected given kept w Hkept).
  fold outcome. unfold respond.
  split; [| split].
  - intros msg ->. reflexivity.
  - intros ->. reflexivity.
  - intros completion -> Hnone.
    unfold ChatCompletion.formatResponse. now rewrite Hnone.
Qed.

Lemma chat_failure_reported_witness :
  fst (ChatCompletion.handleChatCompletion noInt
         (chatArgs (Some "openai/gpt-4"%string) (Some [userHello]))
         (answering noChoices) noDefaults quiet)
  = ChatCompletion.chatError
      "Error: OpenRouter API error: Cannot read properties of undefined (reading 'finish_reason')".
Proof.
  destruct (chat_failure_reported noInt Exchange ExchangeRuntime
              (chatArgs (Some "openai/gpt-4"%string) (Some [userHello]))
              (answering noChoices) noDefaults quiet
              {| exchange_clock := 5000;
                 received :=
                   [ChatCompletion.completionRequest noInt
                      (chatArgs (Some "openai/gpt-4"%string)
                         (Some [userHello]))
                      noDefaults "openai/gpt-4" [userHello]] |}
              "openai/gpt-4"%string [userHello] [userHello])
    as [_ [_ Hempty]].
  - reflexivity.
  - discriminate.
  - reflexivity.
  - discriminate.
  - reflexivity.
  - rewrite (Hempty noChoices); reflexivity.
Defined.

(** X10. Without [max_tokens] and [provider] in the arguments and with no
    routing defaults (none set, or set to nothing usable), the handler with
    provider routing sends the request of the handler without it and
    returns the same result: the request then has no [max_tokens] and no
    [provider] key. *)
Theorem chat_routing_is_an_extension :
  forall (parseInt10 : string -> ChatCompletion.MaybeNaN) (W : Type)
         (R : Runtime W) (args : ChatCompletion.ChatCompletionToolRequest)
         (openai : OpenAISdk.Client W) (defaults : ChatCompletion.Defaults)
         (w : W),
    ChatCompletion.max_tokens args = None ->
    ChatCompletion.provider args = None ->
    Js.truthyString (ChatCompletion.defaultMaxTokens defaults) = false ->
    (forall k : ListKey,
        listDefault k defaults = None \/ listDefault k defaults = Some []) ->
    (forall k : StringKey, Js.truthyString (stringDefault k defaults) = false) ->
    (forall k : FlagKey, flagDefault k defaults = None) ->
    ChatCompletion.handleChatCompletion parseInt10 args openai defaults w
    = ChatCompletion.handleChatCompletionBasic args openai
        (ChatCompletion.defaultModel defaults) w.
Proof.
  intros parseInt10 W R args openai defaults w Hmax Hprovider Hdefault
    Hlists Hstrings Hflags.
  assert (forall (selected : string) (kept : list Chat.Message),
             ChatCompletion.completionRequest parseInt10 args defaults
               selected kept
             = ChatCompletion.basicRequest args selected kept) as Hsame.
  { intros selected kept.
    unfold ChatCompletion.completionRequest, ChatCompletion.basicRequest.
    assert (ChatCompletion.providerConfig args defaults = OpenAISdk.noOptions)
      as ->.
    { unfold ChatCompletion.providerConfig. rewrite Hprovider. simpl.
      pose proof (Hlists Quantizations) as Hq.
      pose proof (Hlists Ignore) as Hi.
      pose proof (Hlists Order) as Ho.
      pose proof (Hstrings Sort) as Hs.
      pose proof (Hstrings DataCollection) as Hd.
      pose proof (Hflags RequireParameters) as Hr.
      pose proof (Hflags AllowFallbacks) as Ha.
      simpl in Hq, Hi, Ho, Hs, Hd, Hr, Ha.
      unfold ChatCompletion.truthyOnly. rewrite Hs, Hd, Hr, Ha.
      destruct Hq as [-> | ->], Hi as [-> | ->], Ho as [-> | ->];
        reflexivity. }
    unfold ChatCompletion.effectiveMaxTokens. rewrite Hmax, Hdefault.
    reflexivity. }
  unfold ChatCompletion.handleChatCompletion,
    ChatCompletion.handleChatCompletionBasic.
  destruct (ChatCompletion.orElse (ChatCompletion.model args)
              (ChatCompletion.defaultModel defaults)) as [selected |];
    [| reflexivity].
  destruct (String.eqb selected ""); [reflexivity |].
  destruct (ChatCompletion.messages args) as [[| m rest] |];
    try reflexivity.
  unfold tryCatch, ChatCompletion.attempt, bind.
  destruct (Chat.truncateMessagesToFit (m :: rest) Chat.MAX_CONTEXT_TOKENS)
    as [kept | e]; [| reflexivity].
  now rewrite Hsame.
Qed.

Lemma chat_routing_is_an_extension_witness :
  ChatCompletion.handleChatCompletion noInt
    (chatArgs (Some "openai/gpt-4"%string) (Some [userHello]))
    (answering sampleCompletion) noDefaults quiet
  = ChatCompletion.handleChatCompletionBasic
      (chatArgs (Some "openai/gpt-4"%string) (Some [userHello]))
      (answering sampleCompletion) None quiet.
Proof.
  apply (chat_routing_is_an_extension noInt Exchange ExchangeRuntime
           (chatArgs (Some "openai/gpt-4"%string) (Some [userHello]))
           (answering sampleCompletion) noDefaults quiet).
  - reflexivity.
  - reflexivity.
  - reflexivity.
  - intros k. left. destruct k; reflexivity.
  - intros k. destruct k; reflexivity.
  - intros k. destruct k; reflexivity.
Defined.

(** ** search_models: where the catalog comes from *)

(** X11. With a catalog in the cache, search_models answers from it and
    does nothing else: the client is not called and the cache is not
    written, so that the result and the world are those of any other
    client. *)
Theorem search_answers_from_cache :
  forall (parseFloat : string -> Js.JsNumber) (W : Type) (R : Runtime W)
         (args : Request.SearchModelsToolRequest)
         (apiClient other : OpenRouterAPIClient W)
         (modelCache : ModelCache W) (w w1 : W) (ms : ModelsResponse),
    getCachedModels modelCache w = (Returned (Some ms), w1) ->
    handleSearchModels parseFloat args apiClient modelCache w
    = (successResult (JsonSearch (searchResponse parseFloat args ms (dateNow w1))),
       w1)
    /\ handleSearchModels parseFloat args apiClient modelCache w
       = handleSearchModels parseFloat args other modelCache w.
Proof.
  intros parseFloat W R args apiClient other modelCache w w1 ms Hcached.
  assert (forall client : OpenRouterAPIClient W,
             acquireModels client modelCache w = (Returned (Some ms), w1))
    as Hacquire.
  { intros client. unfold acquireModels, bind. now rewrite Hcached. }
  rewrite (handleSearchModels_acquired parseFloat args apiClient modelCache
             w w1 ms (Hacquire apiClient)).
  rewrite (handleSearchModels_acquired parseFloat args other modelCache
             w w1 ms (Hacquire other)).
  split; reflexivity.
Qed.

Lemma search_answers_from_cache_witness :
  handleSearchModels noPrice (limitArgs None)
    (Cache.apiClient defaultConfig unreachable)
    (Cache.modelCache defaultConfig unreachable)
    (populatedWorld threeModels 5)
  = handleSearchModels noPrice (limitArgs None)
      (Cache.apiClient defaultConfig (serving []))
      (Cache.modelCache defaultConfig unreachable)
      (populatedWorld threeModels 5).
Proof.
  apply (search_answers_from_cache noPrice World WorldRuntime
           (limitArgs None)
           (Cache.apiClient defaultConfig unreachable)
           (Cache.apiClient defaultConfig (serving []))
           (Cache.modelCache defaultConfig unreachable)
           (populatedWorld threeModels 5) (populatedWorld threeModels 5)
           {| data := threeModels; timestamp := Some 0 |}).
  reflexivity.
Defined.

(** X12. With nothing in the cache, search_models fetches: a catalog
    fetched is written to the cache with the current time as its timestamp
    and the search is answered from it; a fetch that returns nothing gives
    the fetch error and a rejected fetch the search error with its
    message, and in both cases the cache is not written. *)
Theorem search_fetches_on_miss :
  forall (parseFloat : string -> Js.JsNumber) (W : Type) (R : Runtime W)
         (args : Request.SearchModelsToolRequest)
         (apiClient : OpenRouterAPIClient W) (modelCache : ModelCache W)
         (w w1 w2 : W),
    getCachedModels modelCache w = (Returned None, w1) ->
    (forall (ms : ModelsResponse) (w3 : W),
        fetchModels apiClient w1 = (Returned (Some ms), w2) ->
        setCachedModels modelCache (withTimestamp ms (dateNow w2)) w2
        = (Returned tt, w3) ->
        handleSearchModels parseFloat args apiClient modelCache w
        = (successResult
             (JsonSearch (searchResponse parseFloat args ms (dateNow w3))),
           w3))
    /\ (fetchModels apiClient w1 = (Returned None, w2) ->
        handleSearchModels parseFloat args apiClient modelCache w
        = (errorResult "Error: Failed to fetch models. Please try again.",
           w2))
    /\ (forall msg : string,
           fetchModels apiClient w1 = (Threw (ErrorObject msg), w2) ->
           handleSearchModels parseFloat args apiClient modelCache w
           = (errorResult ("Error: Failed to search models: " ++ msg)%string,
              w2)).
Proof.
  intros parseFloat W R args apiClient modelCache w w1 w2 Hmiss.
  split; [| split].
  - intros ms w3 Hfetch Hset.
    apply handleSearchModels_acquired.
    unfold acquireModels, bind. now rewrite Hmiss, Hfetch, Hset.
  - intros Hfetch. unfold handleSearchModels.
    apply tryCatch_returned.
    unfold acquireModels, bind. now rewrite Hmiss, Hfetch.
  - intros msg Hfetch.
    rewrite (handleSearchModels_rejected parseFloat args apiClient modelCache
               w w2 (ErrorObject msg)); [reflexivity |].
    unfold acquireModels, bind. now rewrite Hmiss, Hfetch.
Qed.

Lemma search_fetches_on_miss_witness :
  handleSearchModels noPrice (limitArgs None)
    (Cache.apiClient defaultConfig unreachable)
    (Cache.modelCache defaultConfig unreachable)
    (initialWorld 0)
  = (errorResult "Error: Failed to search models: upstream unavailable",
     snd (Registry.fetchModels defaultConfig unreachable (initialWorld 0))).
Proof.
  destruct (search_fetches_on_miss noPrice World WorldRuntime
              (limitArgs None)
              (Cache.apiClient defaultConfig unreachable)
              (Cache.modelCache defaultConfig unreachable)
              (initialWorld 0) (initialWorld 0)
              (snd (Registry.fetchModels defaultConfig unreachable
                      (initialWorld 0))))
    as [_ [_ Hrejected]].
  - reflexivity.
  - apply (Hrejected "upstream unavailable"%string). reflexivity.
Defined.

(** ** search_models: what is returned *)

Lemma slice0_is_prefix {A : Type} (xs : list A) (k : Z) :
  exists j : nat, Js.slice0 xs k = firstn j xs.
Proof. unfold Js.slice0. eexists. reflexivity. Qed.

Lemma firstn_incl {A : Type} (j : nat) (xs : list A) (x : A) :
  In x (firstn j xs) -> In x xs.
Proof.
  revert xs. induction j as [| j IH]; intros [| y ys]; simpl; try tauto.
  intros [-> | Hin]; [now left | right; now apply IH].
Qed.

(** X13. The entries search_models returns are those of a prefix of the
    models that pass the filters, in catalog order, whatever the limit is
    (a negative one included).  [filtered_count] is the number of entries
    returned, after the limit, and so never exceeds a positive limit nor
    [total_models], which is the size of the catalog; the arguments are
    echoed as [applied_filters]. *)
Theorem search_results_are_a_filtered_prefix :
  forall (parseFloat : string -> Js.JsNumber) (W : Type) (R : Runtime W)
         (apiClient : OpenRouterAPIClient W) (modelCache : ModelCache W)
         (args : Request.SearchModelsToolRequest) (w w' : W)
         (ms : ModelsResponse),
    acquireModels apiClient modelCache w = (Returned (Some ms), w') ->
    exists r : SearchResponse,
      fst (handleSearchModels parseFloat args apiClient modelCache w)
      = successResult (JsonSearch r)
      /\ (exists j : nat,
             sr_data r
             = map describe
                 (firstn j (filter (keeps parseFloat args) (data ms))))
      /\ sr_filtered_count r = length (sr_data r)
      /\ sr_total_models r = length (data ms)
      /\ (sr_filtered_count r <= sr_total_models r)%nat
      /\ (forall k : Z,
             Request.limit args = Some k -> 0 < k ->
             (sr_filtered_count r <= Z.to_nat k)%nat)
      /\ sr_applied_filters r = args.
Proof.
  intros parseFloat W R apiClient modelCache args w w' ms Hacquire.
  exists (searchResponse parseFloat args ms (dateNow w')).
  rewrite (handleSearchModels_acquired parseFloat args _ _ w w' ms Hacquire).
  destruct (slice0_is_prefix (filter (keeps parseFloat args) (data ms))
              (effectiveLimit args)) as [j Hj].
  simpl. unfold searchResults, selected.
  split; [reflexivity | split; [| split; [reflexivity | split;
    [reflexivity | split; [| split; [| reflexivity]]]]]].
  - exists j. now rewrite Hj.
  - rewrite Hj, length_map, length_firstn.
    pose proof (filter_length_le (keeps parseFloat args) (data ms)). lia.
  - intros k Hk Hpos.
    rewrite (effectiveLimit_positive args k Hk Hpos).
    rewrite slice0_positive by assumption.
    rewrite length_map, length_firstn. lia.
Qed.

Lemma search_results_are_a_filtered_prefix_witness :
  exists r : SearchResponse,
    fst (handleSearchModels noPrice (limitArgs (Some (-1)))
           (Cache.apiClient defaultConfig unreachable)
           (Cache.modelCache defaultConfig unreachable)
           (populatedWorld threeModels 5))
    = successResult (JsonSearch r)
    /\ sr_filtered_count r = length (sr_data r)
    /\ (sr_filtered_count r <= sr_total_models r)%nat.
Proof.
  destruct (search_results_are_a_filtered_prefix noPrice World WorldRuntime
              (Cache.apiClient defaultConfig unreachable)
              (Cache.modelCache defaultConfig unreachable)
              (limitArgs (Some (-1)))
              (populatedWorld threeModels 5) (populatedWorld threeModels 5)
              {| data := threeModels; timestamp := Some 0 |})
    as [r [Hrun [_ [Hcount [_ [Hle _]]]]]].
  - reflexivity.
  - exists r. split; [exact Hrun | split; assumption].
Defined.

(** ** search_models: the text query *)

Lemma startsWith_spec (s t : string) :
  Js.startsWith s t = true <-> exists post : string, s = (t ++ post)%string.
Proof.
  revert s. induction t as [| b t IH]; intros s.
  - split; [intros _; now exists s | intros _; destruct s; reflexivity].
  - destruct s as [| a s]; simpl.
    + split; [discriminate | intros [post Heq]; discriminate Heq].
    + destruct (Ascii.eqb_spec a b) as [-> | Hneq]; simpl.
      * rewrite IH. split; intros [post Heq]; exists post.
        -- now rewrite Heq.
        -- now injection Heq.
      * split; [discriminate |].
        intros [post Heq]. injection Heq as Hab _. contradiction.
Qed.

Lemma includes_unfold (s t : string) :
  Js.includes s t
  = Js.startsWith s t
    || match s with
       | EmptyString => false
       | String _ s' => Js.includes s' t
       end.
Proof. destruct s; reflexivity. Qed.

Lemma includes_spec (s t : string) : Js.includes s t = true <-> occurs t s.
Proof.
  unfold occurs. split.
  - induction s as [| c s IH]; rewrite includes_unfold, orb_true_iff.
    + intros [Hstart | Hfalse]; [| discriminate].
      apply startsWith_spec in Hstart. destruct Hstart as [post ->].
      now exists EmptyString, post.
    + intros [Hstart | Hlater].
      * apply startsWith_spec in Hstart. destruct Hstart as [post Heq].
        exists EmptyString, post. exact Heq.
      * destruct (IH Hlater) as [pre [post ->]].
        now exists (String c pre), post.
  - intros [pre [post ->]].
    induction pre as [| c pre IH]; rewrite includes_unfold, orb_true_iff.
    + left. apply startsWith_spec. now exists post.
    + right. exact IH.
Qed.

Lemma occurs_in_empty (t : string) :
  t <> EmptyString -> ~ occurs t EmptyString.
Proof.
  intros Hne [pre [post Heq]].
  destruct pre; [| discriminate Heq].
  destruct t; [contradiction | discriminate Heq].
Qed.

(** X14. With a query that is a non-empty string, the text filter keeps a
    model exactly when the query occurs, letter case aside, in the id, in
    the name or in the description of the model; without a query, or with
    the empty string, it keeps every model. *)
Theorem query_filter_is_substring_search :
  forall (args : Request.SearchModelsToolRequest) (m : OpenRouterModel),
    (forall q : string,
        Request.query args = Some q ->
        q <> EmptyString ->
        (queryFilter args m = true
         <-> occurs (Js.toLowerCase q) (Js.toLowerCase (id m))
             \/ occurs (Js.toLowerCase q) (Js.toLowerCase (name m))
             \/ exists d : string,
                 description m = Some d
                 /\ occurs (Js.toLowerCase q) (Js.toLowerCase d)))
    /\ (Request.query args = None \/ Request.query args = Some EmptyString ->
        queryFilter args m = true).
Proof.
  intros args m. split.
  - intros q Hq Hne.
    assert (Js.toLowerCase q <> EmptyString) as Hterm.
    { intros Hempty. apply Hne. now apply toLowerCase_empty. }
    assert (forall s : string,
               negb (String.eqb s "")
               && Js.includes (Js.toLowerCase s) (Js.toLowerCase q) = true
               <-> occurs (Js.toLowerCase q) (Js.toLowerCase s)) as Hfield.
    { intros s. rewrite andb_true_iff, includes_spec. split.
      - now intros [_ Hocc].
      - intros Hocc. split; [| exact Hocc].
        destruct s; [| reflexivity].
        now destruct (occurs_in_empty _ Hterm Hocc). }
    unfold queryFilter. rewrite Hq. simpl.
    destruct (String.eqb q "") eqn:E;
      [apply String.eqb_eq in E; contradiction |].
    simpl. unfold matchesQuery.
    rewrite !orb_true_iff, includes_spec, Hfield.
    destruct (description m) as [d |].
    + rewrite Hfield. split.
      * intros [[Hid | Hname] | Hd]; [now left | right; now left |].
        right. right. now exists d.
      * intros [Hid | [Hname | [d' [Hd' Hocc]]]];
          [left; now left | left; now right |].
        right. congruence.
    + split.
      * intros [[Hid | Hname] | Hfalse];
          [now left | right; now left | discriminate].
      * intros [Hid | [Hname | [d' [Hd' _]]]];
          [left; now left | left; now right | discriminate].
  - intros [Hq | Hq]; unfold queryFilter; now rewrite Hq.
Qed.

Lemma query_filter_is_substring_search_witness :
  queryFilter (queryArgs (Some "GPT"%string)) (sampleModel "openai/gpt-4")
  = true.
Proof.
  destruct (query_filter_is_substring_search (queryArgs (Some "GPT"%string))
              (sampleModel "openai/gpt-4")) as [with_query _].
  apply (with_query "GPT"%string).
  - reflexivity.
  - discriminate.
  - left. exists "openai/"%string, "-4"%string. reflexivity.
Defined.

(** ** search_models: the filters *)

Section Filters.

Variable parseFloat : string -> Js.JsNumber.

(** What passing the callback of [filter] gives, block by block. *)
Lemma keeps_blocks (args : Request.SearchModelsToolRequest)
  (m : OpenRouterModel) :
  keeps parseFloat args m = true ->
  queryFilter args m = true
  /\ providerFilter args m = true
  /\ contextFilter args m = true
  /\ priceFilter parseFloat args m = true
  /\ capabilitiesFilter args m = true.
Proof.
  unfold keeps. rewrite !andb_true_iff. tauto.
Qed.

Lemma contextFilter_bounds (args : Request.SearchModelsToolRequest)
  (m : OpenRouterModel) :
  contextFilter args m = true ->
  (forall n : Z,
      Request.minContextLength args = Some n -> n <> 0 ->
      n <= context_length m)
  /\ (forall n : Z,
         Request.maxContextLength args = Some n -> n <> 0 ->
         context_length m <= n).
Proof.
  unfold contextFilter. rewrite andb_true_iff, !negb_true_iff.
  intros [Hmin Hmax]. split; intros n Hn Hnz.
  - rewrite Hn in Hmin. apply Z.eqb_neq in Hnz. rewrite Hnz in Hmin.
    simpl in Hmin. apply Z.ltb_ge in Hmin. exact Hmin.
  - rewrite Hn in Hmax. apply Z.eqb_neq in Hnz. rewrite Hnz in Hmax.
    simpl in Hmax.
    destruct (Z.gtb_spec (context_length m) n); [discriminate | lia].
Qed.

Lemma priceFilter_bounds (args : Request.SearchModelsToolRequest)
  (m : OpenRouterModel) :
  priceFilter parseFloat args m = true ->
  (forall q : Q,
      Request.maxPromptPrice args = Some q -> Qeq_bool q 0 = false ->
      Js.gtFinite (parseFloat (prompt (pricing m))) q = false)
  /\ (forall q : Q,
         Request.maxCompletionPrice args = Some q -> Qeq_bool q 0 = false ->
         Js.gtFinite (parseFloat (completion (pricing m))) q = false).
Proof.
  unfold priceFilter. rewrite andb_true_iff, !negb_true_iff.
  intros [Hprompt Hcompletion]. split; intros q Hq Hnz.
  - rewrite Hq in Hprompt. simpl in Hprompt. rewrite Hnz in Hprompt.
    exact Hprompt.
  - rewrite Hq in Hcompletion. simpl in Hcompletion.
    rewrite Hnz in Hcompletion. exact Hcompletion.
Qed.

Lemma capabilitiesFilter_wanted (args : Request.SearchModelsToolRequest)
  (m : OpenRouterModel) (wanted : Capabilities) (f : CapabilityName) :
  capabilitiesFilter args m = true ->
  Request.capabilities args = Some wanted ->
  capabilityFlag f (Some wanted) = Some true ->
  Js.truthyBool (capabilityFlag f (capabilities m)) = true.
Proof.
  unfold capabilitiesFilter. intros Hfilter Hwanted Hflag.
  rewrite Hwanted in Hfilter.
  rewrite !andb_true_iff, !negb_true_iff in Hfilter.
  destruct Hfilter as [[[Hf Ht] Hv] Hj].
  unfold lacks in Hf, Ht, Hv, Hj.
  destruct f; simpl in Hflag;
    [ rewrite (Hflag : capabilityFlag Functions (Some wanted) = Some true) in Hf;
      simpl in Hf; now apply negb_false_iff in Hf
    | rewrite (Hflag : capabilityFlag Tools (Some wanted) = Some true) in Ht;
      simpl in Ht; now apply negb_false_iff in Ht
    | rewrite (Hflag : capabilityFlag Vision (Some wanted) = Some true) in Hv;
      simpl in Hv; now apply negb_false_iff in Hv
    | rewrite (Hflag : capabilityFlag JsonMode (Some wanted) = Some true) in Hj;
      simpl in Hj; now apply negb_false_iff in Hj ].
Qed.

Lemma selected_kept (args : Request.SearchModelsToolRequest)
  (ms : ModelsResponse) (m : OpenRouterModel) :
  In m (selected parseFloat args ms) ->
  In m (data ms) /\ keeps parseFloat args m = true.
Proof.
  unfold selected. intros Hin.
  destruct (slice0_is_prefix (filter (keeps parseFloat args) (data ms))
              (effectiveLimit args)) as [j Hj].
  rewrite Hj in Hin. apply firstn_incl in Hin.
  now apply filter_In in Hin.
Qed.

Lemma keeps_without_zero_bounds (args : Request.SearchModelsToolRequest)
  (m : OpenRouterModel) :
  keeps parseFloat (withoutZeroBounds args) m = keeps parseFloat args m.
Proof.
  assert (contextFilter (withoutZeroBounds args) m = contextFilter args m)
    as Hcontext.
  { unfold contextFilter, withoutZeroBounds. simpl.
    destruct (Request.minContextLength args) as [a |],
             (Request.maxContextLength args) as [b |]; simpl;
      try destruct (a =? 0) eqn:Ea; try destruct (b =? 0) eqn:Eb; simpl;
      rewrite ?Ea, ?Eb; reflexivity. }
  assert (priceFilter parseFloat (withoutZeroBounds args) m
          = priceFilter parseFloat args m) as Hprice.
  { unfold priceFilter, withoutZeroBounds. simpl.
    destruct (Request.maxPromptPrice args) as [a |],
             (Request.maxCompletionPrice args) as [b |]; simpl;
      try destruct (Qeq_bool a 0) eqn:Ea;
      try destruct (Qeq_bool b 0) eqn:Eb; simpl;
      rewrite ?Ea, ?Eb; reflexivity. }
  unfold keeps. rewrite Hcontext, Hprice. reflexivity.
Qed.

End Filters.

(** X15. Every entry search_models returns describes a model of the catalog
    that meets the request: its context length is within the bounds given
    (a bound of zero aside), its id starts with the lower-cased provider
    given, it reports as [true] every capability the request asks for, and
    its prices, as [parseFloat] reads them, do not exceed the price bounds
    given. *)
Theorem search_results_meet_request :
  forall (parseFloat : string -> Js.JsNumber) (W : Type) (R : Runtime W)
         (apiClient : OpenRouterAPIClient W) (modelCache : ModelCache W)
         (args : Request.SearchModelsToolRequest) (w w' : W)
         (ms : ModelsResponse),
    acquireModels apiClient modelCache w = (Returned (Some ms), w') ->
    exists r : SearchResponse,
      fst (handleSearchModels parseFloat args apiClient modelCache w)
      = successResult (JsonSearch r)
      /\ forall e : ModelData,
          In e (sr_data r) ->
          exists m : OpenRouterModel,
            In m (data ms)
            /\ e = describe m
            /\ (forall n : Z,
                   Request.minContextLength args = Some n -> n <> 0 ->
                   n <= md_context_length e)
            /\ (forall n : Z,
                   Request.maxContextLength args = Some n -> n <> 0 ->
                   md_context_length e <= n)
            /\ (forall p : string,
                   Request.provider args = Some p -> p <> EmptyString ->
                   Js.splitFirst "/"%char (md_id e) = Js.toLowerCase p)
            /\ (forall (wanted : Capabilities) (f : CapabilityName),
                   Request.capabilities args = Some wanted ->
                   capabilityFlag f (Some wanted) = Some true ->
                   reported f (md_capabilities e) = true)
            /\ (forall q : Q,
                   Request.maxPromptPrice args = Some q ->
                   Qeq_bool q 0 = false ->
                   Js.gtFinite (parseFloat (prompt (pricing m))) q = false)
            /\ (forall q : Q,
                   Request.maxCompletionPrice args = Some q ->
                   Qeq_bool q 0 = false ->
                   Js.gtFinite (parseFloat (completion (pricing m))) q = false).
Proof.
  intros parseFloat W R apiClient modelCache args w w' ms Hacquire.
  exists (searchResponse parseFloat args ms (dateNow w')).
  rewrite (handleSearchModels_acquired parseFloat args _ _ w w' ms Hacquire).
  split; [reflexivity |].
  simpl. unfold searchResults. intros e He.
  apply in_map_iff in He. destruct He as [m [<- Hm]].
  destruct (selected_kept parseFloat args ms m Hm) as [Hin Hkeeps].
  destruct (keeps_blocks parseFloat args m Hkeeps)
    as [_ [Hprovider [Hcontext [Hprice Hcaps]]]].
  destruct (contextFilter_bounds args m Hcontext) as [Hmin Hmax].
  destruct (priceFilter_bounds parseFloat args m Hprice)
    as [Hprompt Hcompletion].
  exists m. repeat split; try assumption.
  - intros p Hp Hne. simpl.
    rewrite (providerFilter_truthy args p m Hp Hne) in Hprovider.
    now apply String.eqb_eq in Hprovider.
  - intros wanted f Hwanted Hflag.
    pose proof (capabilitiesFilter_wanted args m wanted f Hcaps Hwanted Hflag)
      as Htrue.
    destruct f; exact Htrue.
Qed.

Lemma search_results_meet_request_witness :
  exists r : SearchResponse,
    fst (handleSearchModels noPrice visionArgs
           (Cache.apiClient defaultConfig unreachable)
           (Cache.modelCache defaultConfig unreachable)
           (populatedWorld (visionModel :: threeModels) 5))
    = successResult (JsonSearch r)
    /\ forall e : ModelData,
        In e (sr_data r) ->
        100000 <= md_context_length e
        /\ reported Vision (md_capabilities e) = true.
Proof.
  destruct (search_results_meet_request noPrice World WorldRuntime
              (Cache.apiClient defaultConfig unreachable)
              (Cache.modelCache defaultConfig unreachable)
              visionArgs
              (populatedWorld (visionModel :: threeModels) 5)
              (populatedWorld (visionModel :: threeModels) 5)
              {| data := visionModel :: threeModels; timestamp := Some 0 |})
    as [r [Hrun Hall]].
  - reflexivity.
  - exists r. split; [exact Hrun |].
    intros e He.
    destruct (Hall e He) as [m [_ [_ [Hmin [_ [_ [Hcaps _]]]]]]].
    split.
    + apply (Hmin 100000); [reflexivity | discriminate].
    + apply (Hcaps visionOnly Vision); reflexivity.
Defined.

(** X16. A numeric bound of zero does nothing: search_models returns the
    same entries as when the bound is left out, so that a maximum price of
    zero does not select the free models.  Nor do the price bounds touch a
    model whose prices do not read as numbers. *)
Theorem search_ignores_zero_bounds :
  forall (parseFloat : string -> Js.JsNumber)
         (args : Request.SearchModelsToolRequest) (ms : ModelsResponse)
         (m : OpenRouterModel),
    searchResults parseFloat args ms
    = searchResults parseFloat (withoutZeroBounds args) ms
    /\ (parseFloat (prompt (pricing m)) = Js.NaN ->
        parseFloat (completion (pricing m)) = Js.NaN ->
        priceFilter parseFloat args m = true).
Proof.
  intros parseFloat args ms m. split.
  - unfold searchResults, selected. f_equal. f_equal.
    apply filter_ext. intros x. symmetry.
    apply keeps_without_zero_bounds.
  - intros Hprompt Hcompletion. unfold priceFilter.
    rewrite Hprompt, Hcompletion. simpl.
    destruct (Request.maxPromptPrice args),
             (Request.maxCompletionPrice args); simpl;
      rewrite ?andb_false_r; reflexivity.
Qed.

Lemma search_ignores_zero_bounds_witness :
  priceFilter noPrice visionArgs visionModel = true.
Proof.
  apply (search_ignores_zero_bounds noPrice visionArgs
           {| data := []; timestamp := None |} visionModel); reflexivity.
Defined.

(** X17. Called without any filter and without a limit, search_models
    returns the entries of the first ten models of the catalog, in catalog
    order. *)
Theorem search_without_arguments :
  forall (parseFloat : string -> Js.JsNumber) (W : Type) (R : Runtime W)
         (apiClient : OpenRouterAPIClient W) (modelCache : ModelCache W)
         (w w' : W) (ms : ModelsResponse),
    acquireModels apiClient modelCache w = (Returned (Some ms), w') ->
    exists r : SearchResponse,
      fst (handleSearchModels parseFloat (limitArgs None) apiClient
             modelCache w)
      = successResult (JsonSearch r)
      /\ sr_data r = map describe (firstn 10 (data ms)).
Proof.
  intros parseFloat W R apiClient modelCache w w' ms Hacquire.
  exists (searchResponse parseFloat (limitArgs None) ms (dateNow w')).
  rewrite (handleSearchModels_acquired parseFloat _ _ _ w w' ms Hacquire).
  split; [reflexivity |].
  cbv beta iota delta [sr_data searchResponse].
  unfold searchResults, selected. f_equal.
  assert (filter (keeps parseFloat (limitArgs None)) (data ms) = data ms)
    as ->.
  { induction (data ms) as [| m rest IH]; [reflexivity |].
    change (filter (keeps parseFloat (limitArgs None)) (m :: rest))
      with (m :: filter (keeps parseFloat (limitArgs None)) rest).
    now rewrite IH. }
  change (effectiveLimit (limitArgs None)) with 10.
  rewrite slice0_positive by lia.
  apply (firstn_min_length (data ms) 10).
Qed.

Lemma search_without_arguments_witness :
  exists r : SearchResponse,
    fst (handleSearchModels noPrice (limitArgs None)
           (Cache.apiClient defaultConfig unreachable)
           (Cache.modelCache defaultConfig unreachable)
           (populatedWorld threeModels 5))
    = successResult (JsonSearch r)
    /\ sr_data r = map describe (firstn 10 threeModels).
Proof.
  apply (search_without_arguments noPrice World WorldRuntime
           (Cache.apiClient defaultConfig unreachable)
           (Cache.modelCache defaultConfig unreachable)
           (populatedWorld threeModels 5) (populatedWorld threeModels 5)
           {| data := threeModels; timestamp := Some 0 |}).
  reflexivity.
Defined.

(** ** get_model_info *)

Lemma splitFirst_prefix (sep : ascii) (s : string) :
  s = Js.splitFirst sep s
  \/ exists rest : string,
      s = (Js.splitFirst sep s ++ String sep rest)%string.
Proof.
  induction s as [| c s IH]; simpl.
  - now left.
  - destruct (Ascii.eqb_spec c sep) as [-> | Hneq].
    + right. now exists s.
    + destruct IH as [IH | [rest IH]].
      * left. now rewrite <- IH.
      * right. exists rest. simpl. now rewrite <- IH.
Qed.

Lemma splitFirst_no_separator (sep : ascii) (s : string) :
  ~ In sep (list_ascii_of_string (Js.splitFirst sep s)).
Proof.
  induction s as [| c s IH]; simpl.
  - tauto.
  - destruct (Ascii.eqb_spec c sep) as [-> | Hneq]; simpl.
    + tauto.
    + intros [Heq | Hin]; [contradiction | now apply IH].
Qed.

Lemma orString_never_empty (o : option string) (dflt : string) :
  dflt <> EmptyString -> Js.orString o dflt <> EmptyString.
Proof.
  intros Hd. unfold Js.orString.
  destruct o as [s |]; [| exact Hd].
  destruct (String.eqb s "") eqn:E; [exact Hd |].
  now apply String.eqb_neq in E.
Qed.

Lemma handleGetModelInfo_outcome {W : Type} `{Runtime W} (wanted : string)
  (modelCache : ModelCache W) (w : W) :
  handleGetModelInfo wanted modelCache w
  = match getModelInfo modelCache wanted w with
    | (Returned (Some info), w') =>
        (successResult (JsonInfo (infoResponse info (dateNow w'))), w')
    | (Returned None, w') =>
        (errorResult ("Error: Model not found: " ++ wanted)%string, w')
    | (Threw e, w') =>
        (errorResult
           ("Error: Failed to get model info: " ++ errorMessage e)%string, w')
    end.
Proof.
  unfold handleGetModelInfo, tryCatch, bind.
  destruct (getModelInfo modelCache wanted w) as [[[info |] | e] w'];
    reflexivity.
Qed.

(** X18. get_model_info returns a result that is not an error exactly when
    the cache returns a descriptor.  Its response then names the model by
    the id of the descriptor, as [root] and in [data]; [owned_by] holds no
    slash and is the id itself or the part of the id before its first
    slash; the description reported is never empty.  A model that is not
    found and a rejected lookup give error results that leave the world as
    the cache left it. *)
Theorem get_model_info_result :
  forall (W : Type) (R : Runtime W) (modelCache : ModelCache W)
         (wanted : string) (w : W),
    (isError (fst (handleGetModelInfo wanted modelCache w)) = false
     <-> exists info : OpenRouterModel,
          fst (getModelInfo modelCache wanted w) = Returned (Some info))
    /\ snd (handleGetModelInfo wanted modelCache w)
       = snd (getModelInfo modelCache wanted w)
    /\ (forall info : OpenRouterModel,
           fst (getModelInfo modelCache wanted w) = Returned (Some info) ->
           exists r : InfoResponse,
             fst (handleGetModelInfo wanted modelCache w)
             = successResult (JsonInfo r)
             /\ ir_root r = id info
             /\ md_id (ir_data r) = id info
             /\ ~ In "/"%char (list_ascii_of_string (ir_owned_by r))
             /\ (ir_root r = ir_owned_by r
                 \/ exists rest : string,
                     ir_root r = (ir_owned_by r ++ String "/" rest)%string)
             /\ md_description (ir_data r) <> EmptyString)
    /\ (fst (getModelInfo modelCache wanted w) = Returned None ->
        fst (handleGetModelInfo wanted modelCache w)
        = errorResult ("Error: Model not found: " ++ wanted)%string)
    /\ (forall e : Thrown,
           fst (getModelInfo modelCache wanted w) = Threw e ->
           fst (handleGetModelInfo wanted modelCache w)
           = errorResult
               ("Error: Failed to get model info: " ++ errorMessage e)%string).
Proof.
  intros W R modelCache wanted w.
  rewrite handleGetModelInfo_outcome.
  destruct (getModelInfo modelCache wanted w) as [[[info |] | e] w']; simpl.
  - split; [| split; [reflexivity | split; [| split]]].
    + split; [intros _; now exists info | reflexivity].
    + intros info' Heq. injection Heq as <-.
      eexists. split; [reflexivity |]. simpl.
      split; [reflexivity | split; [reflexivity | split; [| split]]].
      * apply splitFirst_no_separator.
      * apply splitFirst_prefix.
      * apply orString_never_empty. discriminate.
    + discriminate.
    + discriminate.
  - split; [| split; [reflexivity | split; [| split]]].
    + split; [discriminate | intros [info Heq]; discriminate Heq].
    + discriminate.
    + reflexivity.
    + discriminate.
  - split; [| split; [reflexivity | split; [| split]]].
    + split; [discriminate | intros [info Heq]; discriminate Heq].
    + discriminate.
    + discriminate.
    + intros e' Heq. injection Heq as <-. reflexivity.
Qed.

Lemma get_model_info_result_witness :
  exists r : InfoResponse,
    fst (handleGetModelInfo "openai/gpt-4"
           (Cache.modelCache defaultConfig unreachable)
           (populatedWorld threeModels 5))
    = successResult (JsonInfo r)
    /\ ir_root r = "openai/gpt-4"%string
    /\ md_description (ir_data r) <> EmptyString.
Proof.
  destruct (get_model_info_result World WorldRuntime
              (Cache.modelCache defaultConfig unreachable)
              "openai/gpt-4" (populatedWorld threeModels 5))
    as [_ [_ [Hfound _]]].
  destruct (Hfound (sampleModel "openai/gpt-4") eq_refl)
    as [r [Hrun [Hroot [_ [_ [_ Hdescription]]]]]].
  exists r. split; [exact Hrun | split; assumption].
Defined.

(** ** Tool listing and dispatch *)

(** X19. The four tools the server lists are the four the dispatcher
    routes, each to its handler; a call of any other name, names differing
    only in letter case included, is refused with an error result that
    names the tool, and touches nothing. *)
Theorem dispatch_routes_listed_tools :
  forall (parseFloat : string -> Js.JsNumber)
         (parseInt10 : string -> ChatCompletion.MaybeNaN)
         (W : Type) (R : Runtime W) (handlers : Dispatch.ToolHandlers W)
         (arguments : Dispatch.Arguments) (w : W),
    map Dispatch.tool_name Dispatch.listTools
    = ["chat_completion"%string; "search_models"%string;
       "get_model_info"%string; "validate_model"%string]
    /\ (forall name : string,
           ~ In name (map Dispatch.tool_name Dispatch.listTools) ->
           Dispatch.callTool parseFloat parseInt10 handlers name arguments w
           = (Dispatch.FromTool
                (errorResult ("Error: Tool '" ++ name ++ "' not found.")%string),
              w))
    /\ Dispatch.callTool parseFloat parseInt10 handlers "chat_completion"
         arguments w
       = Dispatch.lift Dispatch.FromChat
           (ChatCompletion.handleChatCompletion parseInt10
              (Dispatch.asChatCompletion arguments)
              (Dispatch.openai handlers) (Dispatch.defaults handlers)) w
    /\ Dispatch.callTool parseFloat parseInt10 handlers "search_models"
         arguments w
       = Dispatch.lift Dispatch.FromTool
           (handleSearchModels parseFloat (Dispatch.asSearchModels arguments)
              (Dispatch.apiClient handlers) (Dispatch.modelCache handlers)) w
    /\ Dispatch.callTool parseFloat parseInt10 handlers "get_model_info"
         arguments w
       = Dispatch.lift Dispatch.FromTool
           (handleGetModelInfo (Dispatch.asGetModelInfo arguments)
              (Dispatch.modelCache handlers)) w
    /\ Dispatch.callTool parseFloat parseInt10 handlers "validate_model"
         arguments w
       = Dispatch.lift Dispatch.FromTool
           (handleValidateModel (Dispatch.asValidateModel arguments)
              (Dispatch.modelCache handlers)) w.
Proof.
  intros parseFloat parseInt10 W R handlers arguments w.
  split; [reflexivity | split; [| repeat split]].
  intros name Hunlisted. unfold Dispatch.callTool.
  simpl in Hunlisted.
  destruct (String.eqb_spec name "chat_completion") as [-> | _];
    [exfalso; apply Hunlisted; tauto |].
  destruct (String.eqb_spec name "search_models") as [-> | _];
    [exfalso; apply Hunlisted; tauto |].
  destruct (String.eqb_spec name "get_model_info") as [-> | _];
    [exfalso; apply Hunlisted; tauto |].
  destruct (String.eqb_spec name "validate_model") as [-> | _];
    [exfalso; apply Hunlisted; tauto |].
  reflexivity.
Qed.

Lemma dispatch_routes_listed_tools_witness :
  Dispatch.callTool noPrice noInt dummyHandlers "Search_Models"
    dummyArguments (initialWorld 0)
  = (Dispatch.FromTool
       (errorResult "Error: Tool 'Search_Models' not found."),
     initialWorld 0).
Proof.
  destruct (dispatch_routes_listed_tools noPrice noInt World WorldRuntime
              dummyHandlers dummyArguments (initialWorld 0))
    as [_ [Hunlisted _]].
  apply (Hunlisted "Search_Models"%string).
  simpl. intros [H | [H | [H | [H | []]]]]; discriminate H.
Defined.

(** ** Server configuration from the environment *)

Lemma trimStart_head (s : string) :
  Env.trimStart s = EmptyString
  \/ exists (c : ascii) (rest : string),
      Env.trimStart s = String c rest /\ Env.isWhiteSpace c = false.
Proof.
  induction s as [| c s IH]; simpl.
  - now left.
  - destruct (Env.isWhiteSpace c) eqn:E; [exact IH |].
    right. now exists c, s.
Qed.

Lemma trimEnd_head (c : ascii) (s : string) :
  Env.isWhiteSpace c = false ->
  exists rest : string, Env.trimEnd (String c s) = String c rest.
Proof.
  intros Hc. simpl. destruct (Env.trimEnd s) as [| d t].
  - rewrite Hc. now exists EmptyString.
  - now exists (String d t).
Qed.

Lemma trimEnd_idempotent (s : string) :
  Env.trimEnd (Env.trimEnd s) = Env.trimEnd s.
Proof.
  induction s as [| c s IH]; simpl; [reflexivity |].
  destruct (Env.trimEnd s) as [| d t] eqn:E.
  - destruct (Env.isWhiteSpace c) eqn:Hc; simpl; [reflexivity |].
    now rewrite Hc.
  - change (Env.trimEnd (String c (String d t)))
      with (match Env.trimEnd (String d t) with
            | EmptyString =>
                if Env.isWhiteSpace c then EmptyString
                else String c EmptyString
            | String d' t' => String c (String d' t')
            end).
    now rewrite IH.
Qed.

Lemma trim_idempotent (s : string) : Env.trim (Env.trim s) = Env.trim s.
Proof.
  unfold Env.trim.
  destruct (trimStart_head s) as [-> | [c [rest [-> Hc]]]]; [reflexivity |].
  destruct (trimEnd_head c rest Hc) as [rest' Heq].
  rewrite Heq. simpl Env.trimStart. rewrite Hc.
  rewrite <- Heq. apply trimEnd_idempotent.
Qed.

Lemma trimStart_chars (s : string) (c : ascii) :
  In c (list_ascii_of_string (Env.trimStart s)) ->
  In c (list_ascii_of_string s).
Proof.
  induction s as [| d s IH]; simpl; [tauto |].
  destruct (Env.isWhiteSpace d); simpl; [intros Hin; right; now apply IH |].
  tauto.
Qed.

Lemma trimEnd_chars (s : string) (c : ascii) :
  In c (list_ascii_of_string (Env.trimEnd s)) ->
  In c (list_ascii_of_string s).
Proof.
  induction s as [| d s IH]; simpl; [tauto |].
  destruct (Env.trimEnd s) as [| e t].
  - destruct (Env.isWhiteSpace d); simpl; tauto.
  - simpl in *. intros [Hd | Hrest]; [now left | right; now apply IH].
Qed.

Lemma split_pieces_no_separator (sep : ascii) (s : string) :
  Forall (fun piece => ~ In sep (list_ascii_of_string piece))
    (Env.split sep s).
Proof.
  induction s as [| c s IH]; simpl.
  - constructor; [simpl; tauto | constructor].
  - destruct (Ascii.eqb_spec c sep) as [-> | Hneq].
    + constructor; [simpl; tauto | exact IH].
    + destruct (Env.split sep s) as [| first rest].
      * constructor; [| constructor]. simpl. tauto.
      * inversion IH as [| ? ? Hfirst Hrest]; subst.
        constructor; [| exact Hrest].
        simpl. intros [Heq | Hin]; [contradiction | now apply Hfirst].
Qed.

(** X20. A comma-separated variable of the environment is read as the list
    of its pieces, trimmed, without the empty ones: every element of the
    list is non-empty, has no white space at either end and holds no comma.
    A variable that is set always gives a list, possibly the empty one; only
    a variable that is not set gives nothing. *)
Theorem comma_list_is_clean :
  forall value : option string,
    (value = None -> Env.commaList value = None)
    /\ (forall s : string,
           value = Some s ->
           exists pieces : list string,
             Env.commaList value = Some pieces
             /\ forall x : string,
                 In x pieces ->
                 x <> EmptyString
                 /\ Env.trim x = x
                 /\ ~ In ","%char (list_ascii_of_string x)).
Proof.
  intros value. split; [intros ->; reflexivity |].
  intros s ->. eexists. split; [reflexivity |].
  intros x Hx. apply filter_In in Hx. destruct Hx as [Hin Hne].
  apply in_map_iff in Hin. destruct Hin as [piece [<- Hpiece]].
  split; [| split].
  - apply negb_true_iff in Hne. now apply String.eqb_neq in Hne.
  - apply trim_idempotent.
  - intros Hcomma. unfold Env.trim in Hcomma.
    apply trimEnd_chars, trimStart_chars in Hcomma.
    pose proof (split_pieces_no_separator ","%char s) as Hall.
    rewrite Forall_forall in Hall. now apply (Hall piece Hpiece).
Qed.

Lemma comma_list_is_clean_witness :
  exists pieces : list string,
    Env.commaList (Some " fp16, ,int8 ,"%string) = Some pieces
    /\ forall x : string,
        In x pieces ->
        x <> EmptyString
        /\ Env.trim x = x
        /\ ~ In ","%char (list_ascii_of_string x).
Proof.
  destruct (comma_list_is_clean (Some " fp16, ,int8 ,"%string))
    as [_ Hset].
  apply (Hset " fp16, ,int8 ,"%string). reflexivity.
Defined.

Example comma_list_sample :
  Env.commaList (Some " fp16, ,int8 ,"%string)
  = Some ["fp16"%string; "int8"%string]
  /\ Env.commaList (Some ""%string) = Some [].
Proof. split; reflexivity. Qed.

Lemma split_no_separator (sep : ascii) (x : string) :
  ~ In sep (list_ascii_of_string x) -> Env.split sep x = [x].
Proof.
  induction x as [| c x IH]; simpl; [reflexivity |].
  intros Hnone.
  destruct (Ascii.eqb_spec c sep) as [-> | Hneq]; [tauto |].
  rewrite IH by tauto. reflexivity.
Qed.

Lemma split_before_separator (sep : ascii) (x s : string) :
  ~ In sep (list_ascii_of_string x) ->
  Env.split sep (x ++ String sep s) = x :: Env.split sep s.
Proof.
  induction x as [| c x IH]; simpl.
  - intros _. now rewrite Ascii.eqb_refl.
  - intros Hnone.
    destruct (Ascii.eqb_spec c sep) as [-> | Hneq]; [tauto |].
    rewrite IH by tauto. reflexivity.
Qed.

Lemma split_join (sep : ascii) (xs : list string) :
  Forall (fun x => ~ In sep (list_ascii_of_string x)) xs ->
  xs <> [] ->
  Env.split sep (Env.join sep xs) = xs.
Proof.
  induction 1 as [| x xs Hx Hxs IH]; intros Hne; [contradiction |].
  destruct xs as [| y rest].
  - simpl. now apply split_no_separator.
  - change (Env.join sep (x :: y :: rest))
      with (x ++ String sep (Env.join sep (y :: rest)))%string.
    rewrite split_before_separator by assumption.
    rewrite IH by discriminate. reflexivity.
Qed.

(** X21. Writing a list of provider names or quantizations with commas and
    reading it back gives the same list, provided each element is
    non-empty, has no white space at either end and holds no comma. *)
Theorem comma_list_round_trip :
  forall xs : list string,
    Forall (fun x => x <> EmptyString
                     /\ Env.trim x = x
                     /\ ~ In ","%char (list_ascii_of_string x)) xs ->
    Env.commaList (Some (Env.join ","%char xs)) = Some xs.
Proof.
  intros xs Hclean. unfold Env.commaList. f_equal.
  destruct xs as [| x rest]; [reflexivity |].
  rewrite split_join; [| | discriminate].
  - induction Hclean as [| y ys [Hne [Htrim _]] _ IH]; [reflexivity |].
    simpl. rewrite Htrim.
    apply String.eqb_neq in Hne. rewrite Hne. simpl. now rewrite IH.
  - eapply Forall_impl; [| exact Hclean]. simpl. tauto.
Qed.

Lemma comma_list_round_trip_witness :
  Env.commaList (Some (Env.join ","%char ["openai"%string; "mistralai"%string]))
  = Some ["openai"%string; "mistralai"%string].
Proof.
  apply (comma_list_round_trip ["openai"%string; "mistralai"%string]).
  repeat constructor; try discriminate;
    simpl; intros H; repeat (destruct H as [H | H]; [discriminate H |]);
    exact H.
Defined.

Lemma flag_never_false (value : option string) : Env.flag value <> Some false.
Proof.
  unfold Env.flag. destruct value as [s |]; [| discriminate].
  destruct (String.eqb (Js.toLowerCase s) "true"); discriminate.
Qed.

(** X22. A flag of the environment can switch a routing option on and
    never off: it reads as [true] exactly when the variable is the word
    true in any letter case, and as unset otherwise, the word false
    included.  So when the defaults come from the environment, a request of
    chat_completion carries a flag as [false] only if the argument of the
    call set it to [false]. *)
Theorem environment_flags_only_switch_on :
  forall (parseInt10 : string -> ChatCompletion.MaybeNaN) (W : Type)
         (R : Runtime W) (args : ChatCompletion.ChatCompletionToolRequest)
         (openai : OpenAISdk.Client W) (env : Env.ProcessEnv) (w : W)
         (selected : string) (given kept : list Chat.Message),
    (forall value : option string,
        (Env.flag value = Some true
         <-> exists s : string,
             value = Some s /\ Js.toLowerCase s = "true"%string)
        /\ Env.flag value <> Some false)
    /\ (ChatCompletion.orElse (ChatCompletion.model args)
          (ChatCompletion.defaultModel (Env.defaultsOf env)) = Some selected ->
        selected <> EmptyString ->
        ChatCompletion.messages args = Some given ->
        given <> [] ->
        Chat.truncateMessagesToFit given Chat.MAX_CONTEXT_TOKENS
        = Returned kept ->
        exists request : OpenAISdk.ChatCompletionCreateParams,
          ChatCompletion.handleChatCompletion parseInt10 args openai
            (Env.defaultsOf env) w
          = respond selected (OpenAISdk.create openai request w)
          /\ forall k : FlagKey,
              routed (flagOption k) request = Some false ->
              flagOption k (explicitOptions args) = Some false).
Proof.
  intros parseInt10 W R args openai env w selected given kept. split.
  - intros value. split; [| apply flag_never_false].
    unfold Env.flag. destruct value as [s |].
    + destruct (String.eqb_spec (Js.toLowerCase s) "true") as [E | E].
      * split; [intros _; now exists s | reflexivity].
      * split; [discriminate |].
        intros [s' [Heq Hs']]. injection Heq as <-. contradiction.
    + split; [discriminate | intros [s [Heq _]]; discriminate Heq].
  - intros Hmodel Hne Hmessages Hgiven Hkept.
    exists (ChatCompletion.completionRequest parseInt10 args
              (Env.defaultsOf env) selected kept).
    split.
    + rewrite (handleChatCompletion_attempts parseInt10 args openai
                 (Env.defaultsOf env) selected given w Hmodel Hne Hmessages
                 Hgiven).
      now apply attempt_truncated.
    + intros k. rewrite routed_flag, flagOption_config.
      destruct (flagOption k (explicitOptions args)) as [b |]; simpl.
      * trivial.
      * intros Hfalse. exfalso.
        destruct k; simpl in Hfalse;
          now apply flag_never_false in Hfalse.
Qed.

Lemma environment_flags_only_switch_on_witness :
  exists request : OpenAISdk.ChatCompletionCreateParams,
    ChatCompletion.handleChatCompletion noInt
      (chatArgs None (Some [userHello])) (answering sampleCompletion)
      (Env.defaultsOf fallbacksOff) quiet
    = respond "openai/gpt-4"
        (OpenAISdk.create (answering sampleCompletion) request quiet)
    /\ forall k : FlagKey,
        routed (flagOption k) request = Some false ->
        flagOption k (explicitOptions (chatArgs None (Some [userHello])))
        = Some false.
Proof.
  destruct (environment_flags_only_switch_on noInt Exchange ExchangeRuntime
              (chatArgs None (Some [userHello])) (answering sampleCompletion)
              fallbacksOff quiet "openai/gpt-4"%string [userHello]
              [userHello]) as [_ Hrequest].
  apply Hrequest.
  - reflexivity.
  - discriminate.
  - reflexivity.
  - discriminate.
  - reflexivity.
Defined.

(** With the environment [fallbacksOff], whose flag says false and whose
    list of quantizations is empty, the request has no [provider] key. *)
Example environment_false_flag_is_unset :
  received
    (snd (ChatCompletion.handleChatCompletion noInt
            (chatArgs None (Some [userHello])) (answering sampleCompletion)
            (Env.defaultsOf fallbacksOff) quiet))
  = [ {| OpenAISdk.model := "openai/gpt-4";
         OpenAISdk.messages := [userHello];
         OpenAISdk.temperature := 1%Q;
         OpenAISdk.max_tokens := None;
         OpenAISdk.provider := None |} ].
Proof. reflexivity. Qed.

(** ** chat_completion: the conversation that is sent *)

(** X23. When the conversation starts with a system message whose content
    is a string or an array of parts, the request chat_completion sends
    lists the system message last, after the later messages that were
    kept; when the whole conversation is within the 200000 tokens of the
    context budget, that is all the later messages, in their order. *)
Theorem chat_sends_system_message_last :
  forall (parseInt10 : string -> ChatCompletion.MaybeNaN) (W : Type)
         (R : Runtime W) (args : ChatCompletion.ChatCompletionToolRequest)
         (openai : OpenAISdk.Client W) (defaults : ChatCompletion.Defaults)
         (w : W) (selected : string) (m0 : Chat.Message)
         (rest : list Chat.Message) (systemTokens : Z),
    ChatCompletion.orElse (ChatCompletion.model args)
      (ChatCompletion.defaultModel defaults) = Some selected ->
    selected <> EmptyString ->
    ChatCompletion.messages args = Some (m0 :: rest) ->
    Chat.role m0 = "system"%string ->
    Chat.estimateSystem (Chat.content m0) = Returned systemTokens ->
    exists (request : OpenAISdk.ChatCompletionCreateParams)
           (dropped kept : list Chat.Message),
      ChatCompletion.handleChatCompletion parseInt10 args openai defaults w
      = respond selected (OpenAISdk.create openai request w)
      /\ rest = dropped ++ kept
      /\ OpenAISdk.messages request = kept ++ [m0]
      /\ (systemTokens + totalTokens rest <= Chat.MAX_CONTEXT_TOKENS ->
          OpenAISdk.messages request = rest ++ [m0]).
Proof.
  intros parseInt10 W R args openai defaults w selected m0 rest systemTokens
    Hmodel Hne Hmessages Hrole Hsystem.
  destruct (truncate_system_shape m0 rest Chat.MAX_CONTEXT_TOKENS
              systemTokens Hrole Hsystem)
    as [dropped [kept [Hrest [Hkept [_ [_ [_ Hall]]]]]]].
  exists (ChatCompletion.completionRequest parseInt10 args defaults selected
            (kept ++ [m0])), dropped, kept.
  split; [| split; [exact Hrest | split; [reflexivity |]]].
  - rewrite (handleChatCompletion_attempts parseInt10 args openai defaults
               selected (m0 :: rest) w Hmodel Hne Hmessages)
      by discriminate.
    now apply attempt_truncated.
  - intros Hfits. simpl.
    assert (rest = kept) as -> by (rewrite Hrest, (Hall Hfits); reflexivity).
    reflexivity.
Qed.

Lemma chat_sends_system_message_last_witness :
  exists (request : OpenAISdk.ChatCompletionCreateParams)
         (dropped kept : list Chat.Message),
    ChatCompletion.handleChatCompletion noInt
      (chatArgs (Some "openai/gpt-4"%string)
         (Some [systemPrompt; userHello]))
      (answering sampleCompletion) noDefaults quiet
    = respond "openai/gpt-4"
        (OpenAISdk.create (answering sampleCompletion) request quiet)
    /\ [userHello] = dropped ++ kept
    /\ OpenAISdk.messages request = kept ++ [systemPrompt]
    /\ (7 + totalTokens [userHello] <= Chat.MAX_CONTEXT_TOKENS ->
        OpenAISdk.messages request = [userHello] ++ [systemPrompt]).
Proof.
  apply (chat_sends_system_message_last noInt Exchange ExchangeRuntime
           (chatArgs (Some "openai/gpt-4"%string)
              (Some [systemPrompt; userHello]))
           (answering sampleCompletion) noDefaults quiet
           "openai/gpt-4"%string systemPrompt [userHello] 7).
  - reflexivity.
  - discriminate.
  - reflexivity.
  - reflexivity.
  - reflexivity.
Defined.
